(** * Chameleon room server: shallow embedding and verification

    Two implementations of the same WebSocket room server are embedded:
    - [ServerJs]  : src/server.js  (hint -> voting, no accusation phase);
    - [GridServer]: src/unnamed/part_000, the "grid version"
                    (hint -> accusation -> voting -> chameleon_guess, host_reset).

    The world is the module-level state of the Node process: the [rooms]
    Map, the [nextId] counter, the connection objects (mutable, shared by
    reference between the socket layer and the rooms that point at them) and
    the position in the stream of [Math.random()] results.  A handler maps a
    world to a new world and the list of [ws.send] calls it performed.

    The heartbeat timer and the pong handler, which only read and write
    the [isAlive] flag of the sockets, are embedded beside the event loop as
    [heartbeat] and [on_pong]; terminating a socket fires its close handler in
    a later callback.

    Not embedded: HTTP/static file serving, what [console.log] prints (the
    evaluation of its argument is embedded where it can throw) and the
    [created] timestamp (written once, never read). *)

From Stdlib Require Import ZArith NArith Ascii List Permutation Lia.
From Stdlib Require String.
From stdpp Require Import base gmap strings list fin_maps pretty.

(** ** JavaScript values, strings and plain objects *)

Module JS.

(** A value parsed out of a JSON frame, or [undefined] for a missing
    field.

    A string is the sequence of its UTF-16 code units; the model has the
    strings whose code units are below 256 (one character each), so
    [length], [slice] and indices count the same things as in the code.

    A number is given by the string [Number::toString] makes of it ('7',
    '-12', '1.5', '1e+21', 'Infinity' for the literal 1e999): this names the
    double up to the sign of zero, which nothing in the servers can tell
    apart, and the servers do no arithmetic on a number taken from a frame.
    [JSON.parse] yields no [NaN].

    Arrays and objects are the parsed ones: their prototypes are
    [Array.prototype] and [Object.prototype], and no element or field is a
    function. *)
#[warnings="-register-all"]
Inductive value : Type :=
| VUndef
| VNull
| VBool (b : bool)
| VNum (text : string)
| VStr (s : string)
| VArr (items : list value)
| VObj (fields : list (string * value)).

#[global] Instance value_eq_dec : EqDecision value.
Proof.
  unfold EqDecision, Decision. fix IH 1. intros a b.
  destruct a as [| |x|x|x|x|x], b as [| |y|y|y|y|y];
    try (right; discriminate); try (left; reflexivity).
  - destruct (Bool.bool_dec x y) as [->|Hne]; [by left|right; congruence].
  - destruct (String.string_dec x y) as [->|Hne]; [by left|right; congruence].
  - destruct (String.string_dec x y) as [->|Hne]; [by left|right; congruence].
  - destruct (List.list_eq_dec IH x y) as [->|Hne]; [by left|right; congruence].
  - destruct (List.list_eq_dec
                (fun p q : string * value =>
                   match String.string_dec p.1 q.1, IH p.2 q.2 with
                   | left e1, left e2 =>
                       left (eq_trans (surjective_pairing p)
                               (eq_trans (f_equal2 pair e1 e2)
                                  (eq_sym (surjective_pairing q))))
                   | right n, _ => right (fun e => n (f_equal fst e))
                   | _, right n => right (fun e => n (f_equal snd e))
                   end) x y) as [->|Hne]; [by left|right; congruence].
Defined.

(** [!v] is [negb (truthy v)]: [undefined], [null], [false], zero and the
    empty string are falsy; every array and object is truthy, the empty ones
    too. *)
Definition truthy (v : value) : bool :=
  match v with
  | VUndef | VNull => false
  | VBool b => b
  | VNum t => negb (String.eqb t "0")
  | VStr s => negb (String.eqb s "")
  | VArr _ | VObj _ => true
  end.

(** Whether [ToString(v)] completes.  It throws a [TypeError] on an object
    with an own key [toString], which shadows [Object.prototype.toString]
    and is no function ([valueOf], tried next, returns the object itself);
    an array is converted by [join], which converts its elements. *)
Fixpoint renders (v : value) : bool :=
  match v with
  | VArr l => forallb renders l
  | VObj fs => negb (existsb (fun kv => String.eqb (fst kv) "toString") fs)
  | _ => true
  end.

(** [ToString(v)] where it completes: in a property key ([tally[t]]) and in
    a template literal.  An array gives its elements joined by commas, with
    nothing for [null] and [undefined]. *)
Fixpoint ToString (v : value) : string :=
  match v with
  | VUndef => "undefined"
  | VNull => "null"
  | VBool true => "true"
  | VBool false => "false"
  | VNum t => t
  | VStr s => s
  | VArr l =>
      String.concat ","
        (map (fun x => match x with VUndef | VNull => "" | _ => ToString x end) l)
  | VObj _ => "[object Object]"
  end.

(** [a === b].  Two parsed arrays or objects are never the same
    reference. *)
Definition strict_eq (a b : value) : bool :=
  match a, b with
  | VUndef, VUndef => true
  | VNull, VNull => true
  | VBool x, VBool y => Bool.eqb x y
  | VNum x, VNum y => String.eqb x y
  | VStr x, VStr y => String.eqb x y
  | _, _ => false
  end.

(** [s.slice(0, n)] on a string. *)
Definition slice0 (n : nat) (s : string) : string := String.substring 0 n s.

(** [v.slice(0, n)]: strings and arrays have the method; on any other
    value the call throws ([None]). *)
Definition slice (n : nat) (v : value) : option value :=
  match v with
  | VStr s => Some (VStr (slice0 n s))
  | VArr l => Some (VArr (take n l))
  | _ => None
  end.

(** [s[i]]. *)
Definition char_at (i : nat) (s : string) : option ascii := String.get i s.

(** [String.prototype.toLowerCase] on one code unit below 256: the
    letters A-Z and the capital letters of Latin-1 (U+00C0 to U+00DE, the
    multiplication sign U+00D7 apart) have their lower case 32 places up;
    every other code unit is left as it is. *)
Definition lower_char (c : ascii) : ascii :=
  let n := nat_of_ascii c in
  if ((65 <=? n) && (n <=? 90))
     || ((192 <=? n) && (n <=? 222) && negb (n =? 215))
  then ascii_of_nat (n + 32) else c.

Fixpoint toLowerCase (s : string) : string :=
  match s with
  | EmptyString => EmptyString
  | String c s' => String (lower_char c) (toLowerCase s')
  end.

(** What [String.prototype.trim] strips, among the code units below 256:
    TAB, LF, VT, FF, CR, SPACE and the no-break space U+00A0. *)
Definition is_space (c : ascii) : bool :=
  let n := nat_of_ascii c in
  ((9 <=? n) && (n <=? 13)) || (n =? 32) || (n =? 160).

Fixpoint trimStart (s : string) : string :=
  match s with
  | EmptyString => EmptyString
  | String c s' => if is_space c then trimStart s' else s
  end.

(** [trimEnd]: an all-blank suffix is dropped. *)
Fixpoint trimEnd (s : string) : string :=
  match s with
  | EmptyString => EmptyString
  | String c s' =>
      match trimEnd s' with
      | EmptyString => if is_space c then EmptyString else String c EmptyString
      | t => String c t
      end
  end.

Definition trim (s : string) : string := trimEnd (trimStart s).

(** A plain object used as a dictionary: its own enumerable string keys
    in insertion order ([Object.keys], [Object.values], [Object.entries]
    enumerate in this order).  Keys that are array indices ('0', '7', ...)
    are enumerated first, in ascending order; of the objects of the servers
    only the tally can have such keys (hints and votes are keyed by 'p<n>'),
    and what is read off the tally does not depend on the order of its
    entries. *)
Definition obj (V : Type) : Type := list (string * V).

Fixpoint obj_get {V} (k : string) (o : obj V) : option V :=
  match o with
  | [] => None
  | (k', v) :: o' => if String.eqb k k' then Some v else obj_get k o'
  end.

(** [o[k] = v]: overwrite in place, or append a new key. *)
Fixpoint obj_set {V} (k : string) (v : V) (o : obj V) : obj V :=
  match o with
  | [] => [(k, v)]
  | (k', v') :: o' =>
      if String.eqb k k' then (k, v) :: o' else (k', v') :: obj_set k v o'
  end.

Definition keys {V} (o : obj V) : list string := map fst o.
Definition values {V} (o : obj V) : list V := map snd o.

End JS.

Import JS.

(** ** Data model shared by both servers *)

Inductive phase : Type :=
| Lobby | Hint | Accusation | Voting | ChameleonGuess | Reveal | Finished.

#[global] Instance phase_eq_dec : EqDecision phase.
Proof. solve_decision. Defined.

(** The string stored in [room.state]. *)
Definition phase_name (p : phase) : string :=
  match p with
  | Lobby => "lobby" | Hint => "hint" | Accusation => "accusation"
  | Voting => "voting" | ChameleonGuess => "chameleon_guess"
  | Reveal => "reveal" | Finished => "finished"
  end.

(** A connection object is identified with the value of [nextId] it was
    given: [ws.id = 'p' + n]. *)
Definition ws_id (ws : nat) : string := "p" +:+ pretty ws.

Inductive role : Type := host | player_role.

(** The mutable fields the server keeps on a socket, and whether
    [readyState === WebSocket.OPEN]. *)
Record socket : Type := Socket {
  roomCode : option string;
  ws_role : option role;
  isAlive : bool;
  is_open : bool
}.

Record player : Type := Player {
  player_id : string;
  player_ws : nat;
  player_name : value;
  ready : bool
}.

Record category_card : Type := Card {
  card_name : string;
  card_grid : list (list string)
}.

Record accusation : Type := Accuse {
  accuserId : string;
  accusedId : value
}.

Record room : Type := Room {
  code : string;
  players : list player;
  hostWs : option nat;
  state : phase;
  capacity : nat;
  minPlayers : nat;
  category : option category_card;
  grid : option (list (list string));
  coord : option (nat * nat);
  chameleonId : value;
  hints : obj string;
  votes : obj value;
  accusations : list accusation
}.

Definition set_players (x : list player) (r : room) : room :=
  Room (code r) x (hostWs r) (state r) (capacity r) (minPlayers r) (category r)
       (grid r) (coord r) (chameleonId r) (hints r) (votes r) (accusations r).
Definition set_hostWs (x : option nat) (r : room) : room :=
  Room (code r) (players r) x (state r) (capacity r) (minPlayers r) (category r)
       (grid r) (coord r) (chameleonId r) (hints r) (votes r) (accusations r).
Definition set_state (x : phase) (r : room) : room :=
  Room (code r) (players r) (hostWs r) x (capacity r) (minPlayers r) (category r)
       (grid r) (coord r) (chameleonId r) (hints r) (votes r) (accusations r).
Definition set_category (x : option category_card) (r : room) : room :=
  Room (code r) (players r) (hostWs r) (state r) (capacity r) (minPlayers r) x
       (grid r) (coord r) (chameleonId r) (hints r) (votes r) (accusations r).
Definition set_grid (x : option (list (list string))) (r : room) : room :=
  Room (code r) (players r) (hostWs r) (state r) (capacity r) (minPlayers r)
       (category r) x (coord r) (chameleonId r) (hints r) (votes r) (accusations r).
Definition set_coord (x : option (nat * nat)) (r : room) : room :=
  Room (code r) (players r) (hostWs r) (state r) (capacity r) (minPlayers r)
       (category r) (grid r) x (chameleonId r) (hints r) (votes r) (accusations r).
Definition set_chameleonId (x : value) (r : room) : room :=
  Room (code r) (players r) (hostWs r) (state r) (capacity r) (minPlayers r)
       (category r) (grid r) (coord r) x (hints r) (votes r) (accusations r).
Definition set_hints (x : obj string) (r : room) : room :=
  Room (code r) (players r) (hostWs r) (state r) (capacity r) (minPlayers r)
       (category r) (grid r) (coord r) (chameleonId r) x (votes r) (accusations r).
Definition set_votes (x : obj value) (r : room) : room :=
  Room (code r) (players r) (hostWs r) (state r) (capacity r) (minPlayers r)
       (category r) (grid r) (coord r) (chameleonId r) (hints r) x (accusations r).
Definition set_accusations (x : list accusation) (r : room) : room :=
  Room (code r) (players r) (hostWs r) (state r) (capacity r) (minPlayers r)
       (category r) (grid r) (coord r) (chameleonId r) (hints r) (votes r) x.

(** A result of [Math.random()]: the double [mantissa / 2^53], in [0, 1). *)
Record unit_interval : Type := UnitInterval {
  mantissa : N;
  mantissa_lt : (mantissa <? 2 ^ 53)%N = true
}.

(** Process state.  [entropy] lists the results [Math.random()] returns, in
    call order, and [rng] counts the calls made so far. *)
Record world : Type := World {
  rooms : gmap string room;
  nextId : nat;
  sockets : gmap nat socket;
  entropy : nat -> unit_interval;
  rng : nat
}.

Definition set_rooms (x : gmap string room) (w : world) : world :=
  World x (nextId w) (sockets w) (entropy w) (rng w).
Definition set_nextId (x : nat) (w : world) : world :=
  World (rooms w) x (sockets w) (entropy w) (rng w).
Definition set_sockets (x : gmap nat socket) (w : world) : world :=
  World (rooms w) (nextId w) x (entropy w) (rng w).
Definition set_rng (x : nat) (w : world) : world :=
  World (rooms w) (nextId w) (sockets w) (entropy w) x.

(** [room.f = x] on the room object stored under key [k]. *)
Definition put_room (k : string) (r : room) (w : world) : world :=
  set_rooms (<[k := r]> (rooms w)) w.

(** [ws.roomCode = c; ws.role = ro]. *)
Definition bind_socket (ws : nat) (c : string) (ro : role) (w : world) : world :=
  set_sockets
    (alter (fun s => Socket (Some c) (Some ro) (isAlive s) (is_open s)) ws
           (sockets w)) w.

Definition roomCode_of (w : world) (ws : nat) : option string :=
  sockets w !! ws ≫= roomCode.

Definition readyState_open (w : world) (ws : nat) : bool :=
  match sockets w !! ws with Some s => is_open s | None => false end.

(** [rooms.get(ws.roomCode)], with the key the room object is stored
    under. *)
Definition room_of_socket (w : world) (ws : nat) : option (string * room) :=
  roomCode_of w ws ≫= (fun k => (fun r => (k, r)) <$> rooms w !! k).

(** [rooms.get(v)]: the keys are strings, a non-string never matches. *)
Definition rooms_get (w : world) (v : value) : option room :=
  match v with VStr k => rooms w !! k | _ => None end.

(** ** Messages *)

(** An incoming frame after [JSON.parse] and [const { type, data } = msg]:
    [data] is given by its fields (a missing or non-object [data] has
    none, exactly like the [data || {}] fallback). *)
Record frame : Type := Frame {
  type : value;
  data : obj value
}.

(** A [case 'c':] label of [switch (type)]: the comparison is [===]. *)
Definition case_ (t : value) (c : string) : bool := strict_eq t (VStr c).

(** [const { k } = data || {}]. *)
Definition field (k : string) (f : frame) : value :=
  default VUndef (obj_get k (data f)).

Record public_state : Type := PublicState {
  pub_code : string;
  pub_players : list (string * value);
  pub_state : phase;
  pub_category : option string;
  playerCount : nat
}.

Inductive start_info : Type :=
| role_chameleon
| role_not_chameleon (co : option (nat * nat)) (g : option (list (list string)))
                     (cat : string).

(** Payload of [round_result]; [None] is a key the object literal does
    not have. *)
Record result : Type := Result {
  success : bool;
  reason : option string;
  res_accusedId : option value;
  res_chameleonId : value;
  secretWord : value;
  res_guess : option value
}.

Inductive message : Type :=
| connected (i : string)
| room_created (c : string)
| room_update (s : public_state)
| game_start_player (i : start_info)
| game_start_host (co : option (nat * nat)) (g : option (list (list string)))
                  (cat : string) (cham : value)
| hint_progress (submitted total : nat)
| hints_revealed (h : obj string)
| voting_start (a : value)
| vote_progress (submitted total : nat)
| chameleon_caught (a cham : value)
| round_result (r : result)
| room_closed
| error (e : string).

(** One call of [ws.send]: the socket and the envelope. *)
Definition delivery : Type := nat * message.

(** What running a handler did: it returned, it threw (a [TypeError] on
    a property of [undefined]/[null], on a missing method or in a conversion
    to a string) after the effects listed, or the resampling loop of
    [createRoom] was still running when the fuel ran out. *)
Inductive outcome : Type :=
| Returns (w : world) (sent : list delivery)
| Throws (w : world) (sent : list delivery)
| OutOfFuel.

(** ** Code shared verbatim by the two files *)

(** [Math.floor(Math.random() * n)] for the draw [u], the product taken
    exactly. *)
Definition floor_random (u : unit_interval) (n : nat) : nat :=
  N.to_nat (mantissa u * N.of_nat n / 2 ^ 53).

Definition chars : string := "ABCDEFGHJKMNPQRSTUVWXYZ23456789".

(** [s += chars[i]]: an index past the end reads [undefined]. *)
Definition append_char (s : string) (i : nat) : string :=
  match char_at i chars with
  | Some c => s +:+ String c EmptyString
  | None => s +:+ "undefined"
  end.

(** The [for] loop of [makeCode] with [n] iterations left, the next draw
    being number [pos]. *)
Fixpoint makeCode_loop (e : nat -> unit_interval) (n : nat) (s : string)
    (pos : nat) : string * nat :=
  match n with
  | 0 => (s, pos)
  | S n' =>
      makeCode_loop e n'
        (append_char s (floor_random (e pos) (String.length chars))) (S pos)
  end.

Definition makeCode (e : nat -> unit_interval) (len : nat) (pos : nat)
    : string * nat :=
  makeCode_loop e len "" pos.

(** [while (rooms.has(code)) code = makeCode();], at most [fuel] resamplings. *)
Fixpoint resample (fuel : nat) (e : nat -> unit_interval)
    (store : gmap string room) (c : string) (pos : nat) : option (string * nat) :=
  match store !! c with
  | None => Some (c, pos)
  | Some _ =>
      match fuel with
      | 0 => None
      | S fuel' =>
          let '(c', pos') := makeCode e 4 pos in
          resample fuel' e store c' pos'
      end
  end.

Definition new_room (c : string) : room :=
  Room c [] None Lobby 8 3 None None None VNull [] [] [].

Definition createRoom (fuel : nat) (w : world) : option (room * world) :=
  let '(c0, pos0) := makeCode (entropy w) 4 (rng w) in
  match resample fuel (entropy w) (rooms w) c0 pos0 with
  | None => None
  | Some (c, pos) =>
      let r := new_room c in
      Some (r, put_room c r (set_rng pos w))
  end.

Definition CATEGORIES : list category_card :=
  [ Card "Fruits"
      [ ["Apple"; "Banana"; "Cherry"; "Date"];
        ["Fig"; "Grape"; "Lemon"; "Mango"];
        ["Orange"; "Papaya"; "Pear"; "Quince"];
        ["Kiwi"; "Lychee"; "Melon"; "Plum"] ];
    Card "Animals"
      [ ["Cat"; "Dog"; "Horse"; "Cow"];
        ["Sheep"; "Pig"; "Goat"; "Deer"];
        ["Lion"; "Tiger"; "Bear"; "Wolf"];
        ["Rabbit"; "Fox"; "Otter"; "Whale"] ];
    Card "Things at School"
      [ ["Desk"; "Chair"; "Book"; "Pen"];
        ["Ruler"; "Map"; "Clock"; "Bell"];
        ["Laptop"; "Teacher"; "Board"; "Locker"];
        ["Bus"; "Uniform"; "Exam"; "Class"] ] ].

Definition getPublicRoomState (r : room) : public_state :=
  PublicState (code r)
    (map (fun p => (player_id p, player_name p)) (players r))
    (state r)
    (match category r with Some c => Some (card_name c) | None => None end)
    (length (players r)).

(** [clients.forEach(c => { if (c.readyState === OPEN) c.send(msg) })]. *)
Definition broadcast (w : world) (clients : list nat) (m : message)
    : list delivery :=
  map (fun c => (c, m)) (filter (fun c => readyState_open w c = true) clients).

(** [room.players.map(p => p.ws).concat(room.hostWs ? [room.hostWs] : [])]. *)
Definition clients_of (r : room) : list nat :=
  map player_ws (players r)
  ++ match hostWs r with Some h => [h] | None => [] end.

(** [room.grid[room.coord.r][room.coord.c]]: [None] when the expression
    throws (no grid, no coordinate, or a row that does not exist); a column
    that does not exist reads [undefined]. *)
Definition secret_word (r : room) : option value :=
  match grid r, coord r with
  | Some g, Some (i, j) =>
      match g !! i with
      | Some row => Some (match row !! j with Some w => VStr w | None => VUndef end)
      | None => None
      end
  | _, _ => None
  end.

(** The names every object literal inherits from [Object.prototype]:
    [tally[k]] is truthy for them although [tally] has no such key of its
    own. *)
Definition Object_prototype : list string :=
  [ "constructor"; "__defineGetter__"; "__defineSetter__"; "hasOwnProperty";
    "__lookupGetter__"; "__lookupSetter__"; "isPrototypeOf";
    "propertyIsEnumerable"; "toString"; "valueOf"; "__proto__";
    "toLocaleString" ].

(** What a key of [tally] holds: a count, or the string that [+ 1] makes
    of an inherited function, which no comparison with a number accepts. *)
Inductive slot : Type :=
| Count (n : nat)
| Junk.

(** [Object.values(room.votes).forEach(t => { tally[t] = (tally[t] || 0) + 1 })].
    Assigning a string to [__proto__] creates no key. *)
Definition tally_step (tally : obj slot) (t : value) : obj slot :=
  let k := ToString t in
  match obj_get k tally with
  | Some (Count n) => obj_set k (Count (n + 1)) tally
  | Some Junk => obj_set k Junk tally
  | None =>
      if bool_decide (k ∈ Object_prototype) then
        if String.eqb k "__proto__" then tally else obj_set k Junk tally
      else obj_set k (Count (0 + 1)) tally
  end.

Definition tally_of (v : obj value) : obj slot :=
  fold_left tally_step (values v) [].

(** [if (c > highest) { highest = c; winners = [i] }
     else if (c === highest) winners.push(i)] for a number [c]. *)
Definition compare_count (acc : nat * list string) (i : string) (c : nat)
    : nat * list string :=
  let '(highest, winners) := acc in
  if highest <? c then (c, [i])
  else if c =? highest then (highest, winners ++ [i])
  else (highest, winners).

(** The body of the [Object.entries(tally).forEach] that finds the highest
    count and who has it; both tests are false when the entry is no number. *)
Definition winners_step (acc : nat * list string) (e : string * slot)
    : nat * list string :=
  match snd e with
  | Count c => compare_count acc (fst e) c
  | Junk => acc
  end.

Definition winners_of (tally : obj slot) : list string :=
  snd (fold_left winners_step tally (0, [])).

(** [winners.length === 1 ? winners[0] : null]. *)
Definition sole_winner (winners : list string) : value :=
  match winners with
  | [i] => VStr i
  | _ => VNull
  end.

(** [wss.on('connection')]: the new socket gets the next identity and is
    told it. *)
Definition on_connection (w : world) : world * list delivery :=
  let ws := nextId w in
  (set_nextId (S ws)
     (set_sockets (<[ws := Socket None None true true]> (sockets w)) w),
   [(ws, connected (ws_id ws))]).

(** The transport changes [readyState] on its own before it fires the
    close handler. *)
Definition set_readyState (ws : nat) (b : bool) (w : world) : world :=
  set_sockets
    (alter (fun s => Socket (roomCode s) (ws_role s) (isAlive s) b) ws
           (sockets w)) w.

Section SharedHandlers.

(** The single-recipient [send] is the one function the files define
    differently. *)
Variable send : world -> nat -> message -> list delivery.

(** server.js logs each join with a template literal,
    [console.log(`${name} joined room ${code}`)], which converts [name] to a
    string; part_000 has no such line. *)
Variable logs : bool.

Definition create_room (fuel : nat) (w : world) (ws : nat) : outcome :=
  match createRoom fuel w with
  | None => OutOfFuel
  | Some (r, w1) =>
      let w2 := put_room (code r) (set_hostWs (Some ws) r) w1 in
      let w3 := bind_socket ws (code r) host w2 in
      Returns w3 (send w3 ws (room_created (code r)))
  end.

Definition join_room (w : world) (ws : nat) (f : frame) : outcome :=
  let c := field "code" f in
  let n := field "name" f in
  if negb (truthy c) || negb (truthy n) then
    Returns w (send w ws (error "missing_code_or_name"))
  else
    match c, rooms_get w c with
    | VStr k, Some r =>
        if capacity r <=? length (players r) then
          Returns w (send w ws (error "room_full"))
        else if negb (bool_decide (state r = Lobby)) then
          Returns w (send w ws (error "game_already_started"))
        else
          match slice 20 n with
          | Some nm =>
              let p := Player (ws_id ws) ws nm false in
              let r' := set_players (players r ++ [p]) r in
              let w' := bind_socket ws k player_role (put_room k r' w) in
              if logs && negb (renders n) then Throws w' []
              else
                Returns w'
                  (broadcast w' (clients_of r') (room_update (getPublicRoomState r')))
          | None => Throws w []   (* [name.slice] is not a function *)
          end
    | _, _ => Returns w (send w ws (error "room_not_found"))
    end.

End SharedHandlers.

(** [room.players.forEach(p => send(p.ws, 'room_closed', {}))]. *)
Definition notify_closed (send : world -> nat -> message -> list delivery)
    (w : world) (r : room) : list delivery :=
  flat_map (fun p => send w (player_ws p) room_closed) (players r).

(** The per-player [game_start_player] messages of [host_start_game]. *)
Definition start_messages (send : world -> nat -> message -> list delivery)
    (w : world) (r : room) (cham : value) (cat : category_card)
    : list delivery :=
  flat_map
    (fun p =>
       if strict_eq (VStr (player_id p)) cham
       then send w (player_ws p) (game_start_player role_chameleon)
       else send w (player_ws p)
              (game_start_player
                 (role_not_chameleon (coord r) (grid r) (card_name cat))))
    (players r).

(** [if (room.hostWs) send(room.hostWs, 'game_start_host', ...)]. *)
Definition start_host_message (send : world -> nat -> message -> list delivery)
    (w : world) (r : room) (cat : category_card) : list delivery :=
  match hostWs r with
  | Some h =>
      send w h (game_start_host (coord r) (grid r) (card_name cat) (chameleonId r))
  | None => []
  end.

(** The four draws of [host_start_game], in source order: category index,
    row, column, chameleon index. *)
Definition start_draws (w : world) (r : room) : nat * nat * nat * nat :=
  let e := entropy w in
  let p := rng w in
  (floor_random (e p) (length CATEGORIES),
   floor_random (e (p + 1)) 4,
   floor_random (e (p + 2)) 4,
   floor_random (e (p + 3)) (length (players r))).

(** ** src/server.js *)

Module ServerJs.

Definition send (w : world) (ws : nat) (m : message) : list delivery :=
  if readyState_open w ws then [(ws, m)] else [].

Definition host_start_game (w : world) (ws : nat) : outcome :=
  match room_of_socket w ws with
  | None => Returns w (send w ws (error "not_host_or_room"))
  | Some (k, r) =>
      if negb (bool_decide (hostWs r = Some ws)) then
        Returns w (send w ws (error "not_host_or_room"))
      else if length (players r) <? minPlayers r then
        Returns w (send w ws (error "not_enough_players"))
      else
        let '(ci, i, j, chameleonIndex) := start_draws w r in
        let w0 := set_rng (rng w + 4) w in
        match CATEGORIES !! ci with
        | None =>   (* [category.grid] of [undefined] *)
            Throws (put_room k (set_category None r) w0) []
        | Some cat =>
            let r1 := set_coord (Some (i, j))
                        (set_grid (Some (card_grid cat))
                           (set_category (Some cat) r)) in
            match players r !! chameleonIndex with
            | None => Throws (put_room k r1 w0) []   (* [.id] of [undefined] *)
            | Some ch =>
                let r2 := set_accusations []
                            (set_votes []
                               (set_hints []
                                  (set_state Hint
                                     (set_chameleonId (VStr (player_id ch)) r1)))) in
                let w' := put_room k r2 w0 in
                (* [console.log(`... chameleon: ${room.players[chameleonIndex].name}`)] *)
                if negb (renders (player_name ch)) then
                  Throws w'
                    (start_messages send w' r2 (chameleonId r2) cat
                     ++ start_host_message send w' r2 cat)
                else
                  Returns w'
                    (start_messages send w' r2 (chameleonId r2) cat
                     ++ start_host_message send w' r2 cat
                     ++ broadcast w' (clients_of r2)
                          (room_update (getPublicRoomState r2)))
            end
        end
  end.

Definition submit_hint (w : world) (ws : nat) (f : frame) : outcome :=
  let h := field "hint" f in
  match room_of_socket w ws with
  | None => Returns w (send w ws (error "not_in_hint"))
  | Some (k, r) =>
      if negb (bool_decide (state r = Hint)) then
        Returns w (send w ws (error "not_in_hint"))
      else
        match h with
        | VStr s =>
            if negb (truthy h) then
              Returns w (send w ws (error "invalid_hint"))
            else
              let r1 := set_hints (obj_set (ws_id ws) (slice0 50 s) (hints r)) r in
              if length (keys (hints r1)) =? length (players r1) then
                let r2 := set_state Voting r1 in
                let w' := put_room k r2 w in
                Returns w'
                  (broadcast w' (clients_of r2) (hints_revealed (hints r2))
                   ++ broadcast w' (clients_of r2)
                        (room_update (getPublicRoomState r2)))
              else
                let w' := put_room k r1 w in
                Returns w'
                  (broadcast w' (clients_of r1)
                     (hint_progress (length (keys (hints r1)))
                                    (length (players r1))))
        | _ => Returns w (send w ws (error "invalid_hint"))
        end
  end.

Definition vote (w : world) (ws : nat) (f : frame) : outcome :=
  let targetId := field "targetId" f in
  match room_of_socket w ws with
  | None => Returns w (send w ws (error "not_in_voting"))
  | Some (k, r) =>
      if negb (bool_decide (state r = Voting)) then
        Returns w (send w ws (error "not_in_voting"))
      else
        let r1 := set_votes (obj_set (ws_id ws) targetId (votes r)) r in
        (* [console.log(`${ws.id} voted for ${targetId}`)] *)
        if negb (renders targetId) then Throws (put_room k r1 w) []
        else if length (keys (votes r1)) =? length (players r1) then
          (* [tally[t]] converts every target to a property key *)
          if negb (forallb renders (values (votes r1))) then
            Throws (put_room k r1 w) []
          else
          let winners := winners_of (tally_of (votes r1)) in
          let accused := sole_winner winners in
          match secret_word r1 with
          | None => Throws (put_room k r1 w) []
          | Some sw =>
              let ok := strict_eq accused (chameleonId r1) in
              let res := Result ok None (Some accused) (chameleonId r1) sw None in
              let r2 := set_state Finished r1 in
              let w' := put_room k r2 w in
              Returns w'
                (broadcast w' (clients_of r1) (round_result res)
                 ++ broadcast w' (clients_of r2)
                      (room_update (getPublicRoomState r2)))
          end
        else
          let w' := put_room k r1 w in
          Returns w'
            (broadcast w' (clients_of r1)
               (vote_progress (length (keys (votes r1))) (length (players r1))))
  end.

Definition on_message (fuel : nat) (w : world) (ws : nat) (f : frame)
    : outcome :=
  if case_ (type f) "create_room" then create_room send fuel w ws
  else if case_ (type f) "join_room" then join_room send true w ws f
  else if case_ (type f) "host_start_game" then host_start_game w ws
  else if case_ (type f) "submit_hint" then submit_hint w ws f
  else if case_ (type f) "vote" then vote w ws f
  else Returns w (send w ws (error "unknown_type")).

(** [ws.on('close')]. *)
Definition on_close (w : world) (ws : nat) : world * list delivery :=
  match roomCode_of w ws with
  | None => (w, [])
  | Some k =>
      if negb (truthy (VStr k)) then (w, [])
      else
        match rooms w !! k with
        | None => (w, [])
        | Some r =>
            if bool_decide (hostWs r = Some ws) then
              (set_rooms (delete k (rooms w)) w, notify_closed send w r)
            else
              let r' :=
                set_players
                  (filter (fun p => player_id p ≠ ws_id ws) (players r)) r in
              let clients := map player_ws (players r') in
              if negb (length clients =? 0) then
                let w' := put_room k r' w in
                (w', broadcast w' clients (room_update (getPublicRoomState r')))
              else (set_rooms (delete k (rooms w)) w, [])
        end
  end.

End ServerJs.

(** ** src/unnamed/part_000, the grid version *)

Module GridServer.

(** No [readyState] test here: [ws.send] is always called. *)
Definition send (w : world) (ws : nat) (m : message) : list delivery :=
  [(ws, m)].

Definition host_start_game (w : world) (ws : nat) : outcome :=
  match room_of_socket w ws with
  | None => Returns w (send w ws (error "room_not_found"))
  | Some (k, r) =>
      if negb (bool_decide (hostWs r = Some ws)) then
        Returns w (send w ws (error "not_host"))
      else if length (players r) <? minPlayers r then
        Returns w (send w ws (error "not_enough_players"))
      else
        let '(ci, i, j, chameleonIndex) := start_draws w r in
        let w0 := set_rng (rng w + 4) w in
        match players r !! chameleonIndex with
        | None => Throws w0 []   (* [.id] of [undefined] *)
        | Some ch =>
            match CATEGORIES !! ci with
            | None =>   (* [category.grid] of [undefined] *)
                Throws (put_room k (set_category None r) w0) []
            | Some cat =>
                let r1 :=
                  set_accusations []
                    (set_votes []
                       (set_hints []
                          (set_state Hint
                             (set_chameleonId (VStr (player_id ch))
                                (set_coord (Some (i, j))
                                   (set_grid (Some (card_grid cat))
                                      (set_category (Some cat) r))))))) in
                let w' := put_room k r1 w0 in
                Returns w'
                  (start_messages send w' r1 (VStr (player_id ch)) cat
                   ++ start_host_message send w' r1 cat
                   ++ broadcast w' (clients_of r1)
                        (room_update (getPublicRoomState r1)))
            end
        end
  end.

Definition submit_hint (w : world) (ws : nat) (f : frame) : outcome :=
  let h := field "hint" f in
  match room_of_socket w ws with
  | None => Returns w (send w ws (error "room_not_found"))
  | Some (k, r) =>
      if negb (bool_decide (state r = Hint)) then
        Returns w (send w ws (error "not_in_hint_phase"))
      else
        match h with
        | VStr s =>
            if negb (truthy h) || (50 <? String.length s) then
              Returns w (send w ws (error "invalid_hint"))
            else
              let r1 := set_hints (obj_set (ws_id ws) (slice0 50 s) (hints r)) r in
              if length (keys (hints r1)) =? length (players r1) then
                let r2 := set_state Accusation r1 in
                let w' := put_room k r2 w in
                Returns w'
                  (broadcast w' (clients_of r2) (hints_revealed (hints r2))
                   ++ broadcast w' (clients_of r2)
                        (room_update (getPublicRoomState r2)))
              else
                let w' := put_room k r1 w in
                Returns w'
                  (broadcast w' (clients_of r1)
                     (hint_progress (length (keys (hints r1)))
                                    (length (players r1))))
        | _ => Returns w (send w ws (error "invalid_hint"))
        end
  end.

Definition accuse (w : world) (ws : nat) (f : frame) : outcome :=
  let a := field "accusedId" f in
  match room_of_socket w ws with
  | None => Returns w (send w ws (error "room_not_found"))
  | Some (k, r) =>
      if negb (bool_decide (state r = Accusation)) then
        Returns w (send w ws (error "not_in_accusation_phase"))
      else if negb (truthy a) then
        Returns w (send w ws (error "missing_accused"))
      else
        let r1 :=
          set_votes []
            (set_state Voting
               (set_accusations (accusations r ++ [Accuse (ws_id ws) a]) r)) in
        let w' := put_room k r1 w in
        Returns w'
          (broadcast w' (clients_of r1) (voting_start a)
           ++ broadcast w' (clients_of r1) (room_update (getPublicRoomState r1)))
  end.

(** [room.accusations.length ? room.accusations[0].accusedId
                             : (winners.length === 1 ? winners[0] : null)]. *)
Definition resolve_accused (acc : list accusation) (winners : list string)
    : value :=
  match acc with
  | a :: _ => accusedId a
  | [] => sole_winner winners
  end.

Definition vote (w : world) (ws : nat) (f : frame) : outcome :=
  let targetId := field "targetId" f in
  match room_of_socket w ws with
  | None => Returns w (send w ws (error "room_not_found"))
  | Some (k, r) =>
      if negb (bool_decide (state r = Voting)) then
        Returns w (send w ws (error "not_in_voting_phase"))
      else if negb (truthy targetId) then
        Returns w (send w ws (error "missing_vote_target"))
      else
        let r1 := set_votes (obj_set (ws_id ws) targetId (votes r)) r in
        if length (keys (votes r1)) =? length (players r1) then
          (* [tally[t]] converts every target to a property key *)
          if negb (forallb renders (values (votes r1))) then
            Throws (put_room k r1 w) []
          else
          let winners := winners_of (tally_of (votes r1)) in
          let accused := resolve_accused (accusations r1) winners in
          if negb (truthy accused) then
            (* no clear accused -> chameleon wins *)
            let r2 := set_state Reveal r1 in
            match secret_word r2 with
            | None => Throws (put_room k r2 w) []
            | Some sw =>
                let r3 := set_state Finished r2 in
                let w' := put_room k r3 w in
                Returns w'
                  (broadcast w' (clients_of r2)
                     (round_result
                        (Result false (Some "no_consensus") None
                                (chameleonId r2) sw None))
                   ++ broadcast w' (clients_of r2)
                        (room_update (getPublicRoomState r3)))
            end
          else
            let isChameleon := strict_eq accused (chameleonId r1) in
            match secret_word r1 with
            | None => Throws (put_room k r1 w) []
            | Some sw =>
                if isChameleon then
                  let r2 := set_state ChameleonGuess r1 in
                  let w' := put_room k r2 w in
                  Returns w'
                    (broadcast w' (clients_of r2)
                       (chameleon_caught accused (chameleonId r2))
                     ++ broadcast w' (clients_of r2)
                          (room_update (getPublicRoomState r2)))
                else
                  let r2 := set_state Reveal r1 in
                  let r3 := set_state Finished r2 in
                  let w' := put_room k r3 w in
                  Returns w'
                    (broadcast w' (clients_of r2)
                       (round_result
                          (Result false (Some "wrong_accusation") (Some accused)
                                  (chameleonId r2) sw None))
                     ++ broadcast w' (clients_of r2)
                          (room_update (getPublicRoomState r3)))
            end
        else
          let w' := put_room k r1 w in
          Returns w'
            (broadcast w' (clients_of r1)
               (vote_progress (length (keys (votes r1))) (length (players r1))))
  end.

(** [guess && guess.toLowerCase().trim() === secretWord.toLowerCase()]:
    [None] when a method is missing on the value it is called on. *)
Definition guess_correct (guess secret : value) : option bool :=
  if negb (truthy guess) then Some false
  else
    match guess, secret with
    | VStr g, VStr s => Some (String.eqb (trim (toLowerCase g)) (toLowerCase s))
    | _, _ => None
    end.

Definition chameleon_guess (w : world) (ws : nat) (f : frame) : outcome :=
  let guess := field "guess" f in
  match room_of_socket w ws with
  | None => Returns w (send w ws (error "room_not_found"))
  | Some (k, r) =>
      if negb (bool_decide (state r = ChameleonGuess)) then
        Returns w (send w ws (error "not_in_chameleon_guess_phase"))
      else if negb (strict_eq (VStr (ws_id ws)) (chameleonId r)) then
        Returns w (send w ws (error "not_chameleon"))
      else
        match secret_word r ≫= (fun sw => (fun c => (sw, c)) <$> guess_correct guess sw) with
        | None => Throws w []
        | Some (sw, correct) =>
            let r1 := set_state Reveal r in
            let r2 := set_state Finished r1 in
            let w' := put_room k r2 w in
            let res :=
              if (correct : bool)
              then Result false (Some "chameleon_guessed") None (chameleonId r1)
                          sw (Some guess)
              else Result true (Some "chameleon_failed") None (chameleonId r1)
                          sw (Some guess) in
            Returns w'
              (broadcast w' (clients_of r1) (round_result res)
               ++ broadcast w' (clients_of r1)
                    (room_update (getPublicRoomState r2)))
        end
  end.

Definition host_reset (w : world) (ws : nat) : outcome :=
  match room_of_socket w ws with
  | None => Returns w (send w ws (error "room_not_found"))
  | Some (k, r) =>
      if negb (bool_decide (hostWs r = Some ws)) then
        Returns w (send w ws (error "not_host"))
      else
        let r1 :=
          set_accusations []
            (set_votes []
               (set_hints []
                  (set_chameleonId VNull
                     (set_coord None
                        (set_grid None
                           (set_category None (set_state Lobby r))))))) in
        let w' := put_room k r1 w in
        Returns w'
          (broadcast w' (clients_of r1) (room_update (getPublicRoomState r1)))
  end.

Definition on_message (fuel : nat) (w : world) (ws : nat) (f : frame)
    : outcome :=
  if case_ (type f) "create_room" then create_room send fuel w ws
  else if case_ (type f) "join_room" then join_room send false w ws f
  else if case_ (type f) "host_start_game" then host_start_game w ws
  else if case_ (type f) "submit_hint" then submit_hint w ws f
  else if case_ (type f) "accuse" then accuse w ws f
  else if case_ (type f) "vote" then vote w ws f
  else if case_ (type f) "chameleon_guess" then chameleon_guess w ws f
  else if case_ (type f) "host_reset" then host_reset w ws
  else Returns w (send w ws (error "unknown_message_type")).

(** [ws.on('close')]. *)
Definition on_close (w : world) (ws : nat) : world * list delivery :=
  match roomCode_of w ws with
  | None => (w, [])
  | Some k =>
      if negb (truthy (VStr k)) then (w, [])
      else
        match rooms w !! k with
        | None => (w, [])
        | Some r =>
            if bool_decide (hostWs r = Some ws) then
              (set_rooms (delete k (rooms w)) w, notify_closed send w r)
            else
              let r' :=
                set_players
                  (filter (fun p => player_id p ≠ ws_id ws) (players r)) r in
              let clients := clients_of r' in
              if negb (length clients =? 0) then
                let w' := put_room k r' w in
                (w', broadcast w' clients (room_update (getPublicRoomState r')))
              else (set_rooms (delete k (rooms w)) w, [])
        end
  end.

End GridServer.

(** ** The event loop *)

Inductive event : Type :=
| Connect
| Garbage (ws : nat)               (* a frame [JSON.parse] rejects *)
| Receive (ws : nat) (f : frame)
| Close (ws : nat).

Section EventLoop.

Variable send : world -> nat -> message -> list delivery.
Variable on_message : nat -> world -> nat -> frame -> outcome.
Variable on_close : world -> nat -> world * list delivery.

(** One callback.  Frames arrive on open sockets only; the close handler
    runs once [readyState] has left [OPEN]. *)
Definition step (fuel : nat) (w : world) (ev : event) : outcome :=
  match ev with
  | Connect => let '(w', out) := on_connection w in Returns w' out
  | Garbage ws =>
      if readyState_open w ws
      then Returns w (send w ws (error "invalid_json"))
      else Returns w []
  | Receive ws f =>
      if readyState_open w ws then on_message fuel w ws f else Returns w []
  | Close ws =>
      if readyState_open w ws
      then let '(w', out) := on_close (set_readyState ws false w) ws in
           Returns w' out
      else Returns w []
  end.

(** A run of the process: it ends with the first callback that throws or
    does not come back. *)
Fixpoint run (fuel : nat) (w : world) (evs : list event)
    : option (world * list delivery) :=
  match evs with
  | [] => Some (w, [])
  | ev :: evs' =>
      match step fuel w ev with
      | Returns w' out =>
          match run fuel w' evs' with
          | Some (w'', out') => Some (w'', out ++ out')
          | None => None
          end
      | _ => None
      end
  end.

End EventLoop.

(** The process right after start-up: [rooms = new Map()], [nextId = 1]. *)
Definition boot (e : nat -> unit_interval) : world := World ∅ 1 ∅ e 0.

Definition run_serverjs : nat -> world -> list event -> option (world * list delivery) :=
  run ServerJs.send ServerJs.on_message ServerJs.on_close.

Definition run_grid : nat -> world -> list event -> option (world * list delivery) :=
  run GridServer.send GridServer.on_message GridServer.on_close.

(** ** The heartbeat *)

(** [ws.on('pong', () => ws.isAlive = true)]. *)
Definition on_pong (w : world) (ws : nat) : world :=
  set_sockets
    (alter (fun s => Socket (roomCode s) (ws_role s) true (is_open s)) ws
           (sockets w)) w.

(** What the timer does with one client. *)
Inductive probe : Type := Terminate | Ping.

(** [wss.clients]: the sockets whose close event has not fired. *)
Definition clients (w : world) : gmap nat socket :=
  filter (fun x => is_open x.2 = true) (sockets w).

(** The body of the [forEach] of the timer callback:
    [if (!ws.isAlive) return ws.terminate(); ws.isAlive = false; ws.ping(...)]. *)
Definition heartbeat_client (s : socket) : socket * probe :=
  if negb (isAlive s) then (s, Terminate)
  else (Socket (roomCode s) (ws_role s) false (is_open s), Ping).

(** One tick of the [setInterval] timer: the world it leaves and what it
    did with each client.  A terminated socket fires its close handler in a
    later callback (the event [Close]). *)
Definition heartbeat (w : world) : world * gmap nat probe :=
  (set_sockets
     ((fun s => if is_open s then (heartbeat_client s).1 else s) <$> sockets w) w,
   (fun s => (heartbeat_client s).2) <$> clients w).

(** ** Notions used in the statements *)

(** The characters of a string. *)
Definition symbols (s : string) : list ascii := String.list_ascii_of_string s.

(** [n]-th candidate code drawn by [createRoom] in world [w]. *)
Definition candidate (w : world) (n : nat) : string :=
  fst (makeCode (entropy w) 4 (rng w + 4 * n)).

(** Every room is stored under its own code. *)
Definition keyed_by_code (store : gmap string room) : Prop :=
  ∀ k r, store !! k = Some r → code r = k.

(** No room holds more players than its capacity. *)
Definition within_capacity (w : world) : Prop :=
  ∀ k r, rooms w !! k = Some r → length (players r) ≤ capacity r.

(** The world a callback leaves behind. *)
Definition world_of (o : outcome) (w0 : world) : world :=
  match o with
  | Returns w _ | Throws w _ => w
  | OutOfFuel => w0
  end.

(** The [ws.send] calls a callback made. *)
Definition sent_of (o : outcome) : list delivery :=
  match o with
  | Returns _ out | Throws _ out => out
  | OutOfFuel => []
  end.

(** Number of recorded votes whose target, as a property key, is [t]. *)
Definition votes_for (t : string) (v : obj value) : nat :=
  length (filter (fun x => ToString x = t) (values v)).

(** A target the tally can count: any string but the inherited names; every
    identity [p<n>] is one. *)
Definition counted (t : string) : Prop := t ∉ Object_prototype.

(** [t] achieves the maximum tally. *)
Definition top (v : obj value) (t : string) : Prop :=
  counted t ∧ 0 < votes_for t v ∧ ∀ u, counted u → votes_for u v ≤ votes_for t v.

(** The number a key of the tally holds, if any. *)
Definition count_of (o : option slot) : nat :=
  match o with Some (Count n) => n | _ => 0 end.

(** The entries of a tally that are numbers. *)
Definition numeric (tally : obj slot) : obj nat :=
  flat_map (fun e => match snd e with Count n => [(fst e, n)] | Junk => [] end) tally.

(** The largest count among numeric entries. *)
Definition highest_count (counts : obj nat) : nat :=
  foldr (fun e m => snd e `max` m) 0 counts.

(** Equality of two words up to case and to leading and trailing white
    space. *)
Definition same_word (a b : string) : bool :=
  String.eqb (toLowerCase (trim a)) (toLowerCase (trim b)).

(** Every word of every card. *)
Definition all_words : list string :=
  concat (flat_map card_grid CATEGORIES).

(** The worlds a server can be in: start-up, then callbacks that return. *)
Inductive reachable (send : world -> nat -> message -> list delivery)
    (on_message : nat -> world -> nat -> frame -> outcome)
    (on_close : world -> nat -> world * list delivery) : world → Prop :=
| reachable_boot e : reachable send on_message on_close (boot e)
| reachable_step fuel w ev w' out :
    reachable send on_message on_close w →
    step send on_message on_close fuel w ev = Returns w' out →
    reachable send on_message on_close w'.

Definition reachable_serverjs : world → Prop :=
  reachable ServerJs.send ServerJs.on_message ServerJs.on_close.
Definition reachable_grid : world → Prop :=
  reachable GridServer.send GridServer.on_message GridServer.on_close.

(** A round is set up: a card, its grid, a coordinate inside the grid and
    a chameleon. *)
Definition started (r : room) : Prop :=
  ∃ cat i j c,
    category r = Some cat ∧ cat ∈ CATEGORIES ∧ grid r = Some (card_grid cat)
    ∧ coord r = Some (i, j) ∧ i < 4 ∧ j < 4 ∧ chameleonId r = VStr c.

(** What holds of the room stored under [k]; [accused_first] tells the
    grid version, where voting only ever follows an accusation, from
    server.js, where no accusation is ever recorded. *)
Definition room_ok (accused_first : bool) (k : string) (r : room) : Prop :=
  code r = k ∧ String.length k = 4
  ∧ capacity r = 8 ∧ minPlayers r = 3
  ∧ length (players r) ≤ 8
  ∧ (state r ≠ Lobby → started r)
  ∧ (if accused_first
     then state r = Voting → accusations r ≠ []
     else accusations r = []).

Definition world_ok (accused_first : bool) (w : world) : Prop :=
  ∀ k r, rooms w !! k = Some r → room_ok accused_first k r.

(** ** What one callback may do *)

Definition is_error (m : message) : bool :=
  match m with error _ => true | _ => false end.

(** The phases the game logic moves a room to from phase [p]; the host
    moves it to hint (and, in the grid version, to lobby) from anywhere. *)
Definition forward (grid : bool) (p : phase) : list phase :=
  match p with
  | Hint => [if grid then Accusation else Voting]
  | Accusation => if grid then [Voting] else []
  | Voting => if grid then [ChameleonGuess; Finished] else [Finished]
  | ChameleonGuess => if grid then [Finished] else []
  | _ => []
  end.

(** The room a [join_room] frame would seat its sender in: the frame
    names it by its code and gives a truthy name, and the room is in the
    lobby with a free seat. *)
Definition joinable (w : world) (f : frame) (k : string) (r : room) : Prop :=
  field "code" f = VStr k ∧ k ≠ "" ∧ rooms w !! k = Some r
  ∧ length (players r) < capacity r ∧ state r = Lobby
  ∧ truthy (field "name" f) = true.

(** The seat [join_room] gives socket [ws], [nm] being what
    [name.slice(0, 20)] returned. *)
Definition seat (ws : nat) (nm : value) : player :=
  Player (ws_id ws) ws nm false.

(** What the servers store as a name: a string of 1 to 20 characters or an
    array of at most 20 elements, which are the truthy values that have a
    [slice] method, cut by it; in server.js one that was converted to a
    string for the log when the seat was taken. *)
Definition stored_name (grid : bool) (v : value) : Prop :=
  ((∃ s, v = VStr s ∧ 0 < String.length s ≤ 20)
   ∨ (∃ l, v = VArr l ∧ length l ≤ 20))
  ∧ (grid = false → renders v = true).

(** How an accepted frame [f] from socket [ws] changes the room [r] it
    addresses. *)
Definition room_moves (grid : bool) (ws : nat) (f : frame) (r r' : room) : Prop :=
  code r' = code r ∧ hostWs r' = hostWs r
  ∧ capacity r' = capacity r ∧ minPlayers r' = minPlayers r
  ∧ (players r' = players r
     ∨ state r = Lobby ∧ state r' = Lobby ∧ length (players r) < capacity r
       ∧ type f = VStr "join_room"
       ∧ truthy (field "name" f) = true
       ∧ (grid = false → renders (field "name" f) = true)
       ∧ ∃ nm, slice 20 (field "name" f) = Some nm
               ∧ players r' = players r ++ [seat ws nm])
  ∧ (state r' = state r
     ∨ hostWs r = Some ws ∧ state r' ∈ Hint :: (if grid then [Lobby] else [])
     ∨ state r' ∈ forward grid (state r))
  ∧ (hints r' = hints r ∨ hints r' = []
     ∨ ∃ s, s ≠ "" ∧ hints r' = obj_set (ws_id ws) (slice0 50 s) (hints r))
  ∧ (votes r' = votes r ∨ votes r' = []
     ∨ ∃ t, (grid = true → truthy t = true)
            ∧ (grid = false → renders t = true)
            ∧ votes r' = obj_set (ws_id ws) t (votes r))
  ∧ (accusations r' = [] ∧ state r' ∈ [Lobby; Hint]
     ∨ accusations r' = accusations r
       ∧ (state r' = state r
          ∨ state r' ∈ forward grid (state r) ∧ state r ≠ Accusation)
     ∨ ∃ a, grid = true ∧ truthy a = true
            ∧ state r = Accusation ∧ state r' = Voting
            ∧ accusations r' = accusations r ++ [Accuse (ws_id ws) a]).

(** [ws.roomCode = ...; ws.role = ...] on socket [ws], or nothing. *)
Definition rebinds (ws : nat) (x x' : gmap nat socket) : Prop :=
  x' = x
  ∨ ∃ c ro,
      x' = alter (fun s => Socket (Some c) (Some ro) (isAlive s) (is_open s)) ws x.

(** What a message callback that returns has done: it rejected the frame,
    created a room, or changed the one room the sender is bound to
    afterwards. *)
Definition message_shape (grid : bool) (w : world) (ws : nat) (f : frame)
    (w' : world) (out : list delivery) : Prop :=
  nextId w' = nextId w ∧ entropy w' = entropy w
  ∧ rebinds ws (sockets w) (sockets w')
  ∧ ( (w' = w ∧ ∃ e, out = [(ws, error e)])
    ∨ (∃ c, rooms w !! c = None ∧ String.length c = 4
            ∧ rooms w' = <[c := set_hostWs (Some ws) (new_room c)]> (rooms w)
            ∧ roomCode_of w' ws = Some c
            ∧ out = [(ws, room_created c)])
    ∨ (∃ k r r', rooms w !! k = Some r
                 ∧ rooms w' = <[k := r']> (rooms w)
                 ∧ roomCode_of w' ws = Some k
                 ∧ room_moves grid ws f r r'
                 ∧ ∀ d, d ∈ out → d.1 ∈ clients_of r' ∧ is_error d.2 = false) ).

(** The room after [room.players = room.players.filter(p => p.id !== ws.id)]. *)
Definition leaves (ws : nat) (r : room) : room :=
  set_players (filter (fun p => player_id p ≠ ws_id ws) (players r)) r.

(** What a close callback has done: nothing, or it deleted the room the
    socket was bound to, or it took the socket's seats out of that room. *)
Definition close_shape (w : world) (ws : nat) (w' : world) (out : list delivery)
    : Prop :=
  nextId w' = nextId w ∧ entropy w' = entropy w ∧ sockets w' = sockets w
  ∧ rng w' = rng w
  ∧ ( (w' = w ∧ out = [])
    ∨ ∃ k r, roomCode_of w ws = Some k ∧ rooms w !! k = Some r
        ∧ ( (rooms w' = delete k (rooms w)
             ∧ ∀ d, d ∈ out →
                    d.1 ∈ map player_ws (players r) ∧ d.2 = room_closed)
          ∨ (hostWs r ≠ Some ws
             ∧ rooms w' = <[k := leaves ws r]> (rooms w)
             ∧ ∀ d, d ∈ out →
                    d.1 ∈ clients_of (leaves ws r)
                    ∧ d.2 = room_update (getPublicRoomState (leaves ws r))))).

(** The phases a room of each server is ever seen in between two
    callbacks. *)
Definition phases (grid : bool) : list phase :=
  if grid then [Lobby; Hint; Accusation; Voting; ChameleonGuess; Finished]
  else [Lobby; Hint; Voting; Finished].

(** The accusations of a room: none before the vote; from the vote on,
    in the grid version, the one that opened it. *)
Definition accused (grid : bool) (n : nat) (r : room) : Prop :=
  match state r with
  | Voting | ChameleonGuess | Finished =>
      if grid
      then ∃ a, accusations r = [a] ∧ truthy (accusedId a) = true
                ∧ ∃ ws, accuserId a = ws_id ws ∧ 0 < ws < n
      else accusations r = []
  | _ => accusations r = []
  end.

(** What holds of every room while the next identity is [n]. *)
Definition room_sound (grid : bool) (n : nat) (r : room) : Prop :=
  (∃ h, hostWs r = Some h ∧ 0 < h < n)
  ∧ (∀ p, p ∈ players r →
          player_id p = ws_id (player_ws p) ∧ 0 < player_ws p < n
          ∧ stored_name grid (player_name p))
  ∧ (∀ i h, (i, h) ∈ hints r →
            0 < String.length h ≤ 50 ∧ ∃ ws, i = ws_id ws ∧ 0 < ws < n)
  ∧ (∀ i t, (i, t) ∈ votes r →
            (grid = true → truthy t = true) ∧ (grid = false → renders t = true)
            ∧ ∃ ws, i = ws_id ws ∧ 0 < ws < n)
  ∧ NoDup (keys (hints r)) ∧ NoDup (keys (votes r))
  ∧ state r ∈ phases grid
  ∧ accused grid n r.

Definition world_sound (grid : bool) (w : world) : Prop :=
  0 < nextId w
  ∧ (∀ ws, is_Some (sockets w !! ws) ↔ 0 < ws < nextId w)
  ∧ ∀ k r, rooms w !! k = Some r → room_sound grid (nextId w) r.

(** The two servers, told apart by [grid]. *)
Definition server_send (grid : bool) : world -> nat -> message -> list delivery :=
  if grid then GridServer.send else ServerJs.send.
Definition server_on_message (grid : bool) : nat -> world -> nat -> frame -> outcome :=
  if grid then GridServer.on_message else ServerJs.on_message.
Definition server_on_close (grid : bool) : world -> nat -> world * list delivery :=
  if grid then GridServer.on_close else ServerJs.on_close.
Definition server_step (grid : bool) : nat -> world -> event -> outcome :=
  step (server_send grid) (server_on_message grid) (server_on_close grid).
Definition server_run (grid : bool)
    : nat -> world -> list event -> option (world * list delivery) :=
  run (server_send grid) (server_on_message grid) (server_on_close grid).
Definition server_reachable (grid : bool) : world → Prop :=
  reachable (server_send grid) (server_on_message grid) (server_on_close grid).

(** ** Concrete data for the examples *)

(** Draws: [0.0], [0.25] and [0.5]. *)
Definition draw_0 : unit_interval := UnitInterval 0 eq_refl.
Definition draw_quarter : unit_interval := UnitInterval (2 ^ 51) eq_refl.
Definition draw_half : unit_interval := UnitInterval (2 ^ 52) eq_refl.

(** A random source that always returns [0.0]: every code is [AAAA]. *)
Definition always_0 : nat -> unit_interval := fun _ => draw_0.

(** A random source whose second batch of four draws is [0.5]: the codes
    drawn are [AAAA], [SSSS], [AAAA], ... *)
Definition second_half : nat -> unit_interval :=
  fun n => if (4 <=? n) && (n <? 8) then draw_half else draw_0.

(** Frames a client sends. *)
Definition create_room_frame : frame := Frame (VStr "create_room") [].
Definition join_frame (c n : string) : frame :=
  Frame (VStr "join_room") [("code", VStr c); ("name", VStr n)].
Definition start_frame : frame := Frame (VStr "host_start_game") [].
Definition hint_frame (h : string) : frame :=
  Frame (VStr "submit_hint") [("hint", VStr h)].
Definition accuse_frame (a : string) : frame :=
  Frame (VStr "accuse") [("accusedId", VStr a)].
Definition vote_frame (t : string) : frame :=
  Frame (VStr "vote") [("targetId", VStr t)].
Definition guess_frame (g : string) : frame :=
  Frame (VStr "chameleon_guess") [("guess", VStr g)].

(** An object with an own key [toString], as in the frame text
    [{"toString": null}]: it has no string conversion. *)
Definition unprintable : value := VObj [("toString", VNull)].

(** A join whose name is the array ['Ann', 7]. *)
Definition array_name_frame : frame :=
  Frame (VStr "join_room")
        [("code", VStr "K7PQ"); ("name", VArr [VStr "Ann"; VNum "7"])].

(** The world a run ends in (the starting world if it does not end). *)
Definition after (res : option (world * list delivery)) (w0 : world) : world :=
  match res with Some (w, _) => w | None => w0 end.

(** Socket 1 creates room [AAAA]; sockets 2..9 join it: the room is full.
    Socket 10 is connected and in no room. *)
Definition full_lobby_events : list event :=
  [Connect; Receive 1 create_room_frame]
  ++ repeat Connect 9
  ++ map (fun i => Receive i (join_frame "AAAA" "guest")) (seq 2 8).

Definition full_lobby_grid : world :=
  after (run_grid 0 (boot always_0) full_lobby_events) (boot always_0).
Definition full_lobby_serverjs : world :=
  after (run_serverjs 0 (boot always_0) full_lobby_events) (boot always_0).

(** The smallest mantissa whose draw scaled by [n] has floor [i]. *)
Definition mantissa_for (i n : N) : N := (i * 2 ^ 53 / n + 1)%N.

(** The draws of the worked scenario: the code [K7PQ] (indices 9, 28, 12,
    13 of the alphabet), then category 0 (Fruits), row 1, column 2 (the word
    Lemon) and chameleon index 1; every later draw is [0.0]. *)
Definition scenario_draws : nat -> unit_interval :=
  fun n =>
    nth n
      [ UnitInterval (mantissa_for 9 31) eq_refl;
        UnitInterval (mantissa_for 28 31) eq_refl;
        UnitInterval (mantissa_for 12 31) eq_refl;
        UnitInterval (mantissa_for 13 31) eq_refl;
        draw_0; draw_quarter; draw_half; draw_quarter ]
      draw_0.

(** Socket 1 hosts [K7PQ]; Ann, Ben, Cy and Dee (sockets 2..5, identities
    p2..p5) join; the host starts: Ben (p3) is the chameleon. *)
Definition scenario_start : list event :=
  [ Connect; Receive 1 create_room_frame;
    Connect; Connect; Connect; Connect;
    Receive 2 (join_frame "K7PQ" "Ann"); Receive 3 (join_frame "K7PQ" "Ben");
    Receive 4 (join_frame "K7PQ" "Cy"); Receive 5 (join_frame "K7PQ" "Dee");
    Receive 1 start_frame ].

Definition scenario_hints : list event :=
  [ Receive 2 (hint_frame "sour"); Receive 3 (hint_frame "round");
    Receive 4 (hint_frame "yellow"); Receive 5 (hint_frame "zest") ].

(** Three of the four votes: p3 twice, p2 once. *)
Definition scenario_three_votes : list event :=
  [ Receive 2 (vote_frame "p3"); Receive 3 (vote_frame "p2");
    Receive 4 (vote_frame "p3") ].

(** server.js: all hints are in, the room is voting, one vote is missing. *)
Definition serverjs_last_vote : world :=
  after (run_serverjs 0 (boot scenario_draws)
           (scenario_start ++ scenario_hints ++ scenario_three_votes))
        (boot scenario_draws).

(** Grid version, during the hint phase. *)
Definition grid_hint_phase : world :=
  after (run_grid 0 (boot scenario_draws) scenario_start) (boot scenario_draws).
Definition serverjs_hint_phase : world :=
  after (run_serverjs 0 (boot scenario_draws) scenario_start) (boot scenario_draws).

(** Grid version: Ann (p2) has accused Ben (p3), three votes are in. *)
Definition grid_last_vote : world :=
  after (run_grid 0 (boot scenario_draws)
           (scenario_start ++ scenario_hints
            ++ [Receive 2 (accuse_frame "p3")] ++ scenario_three_votes))
        (boot scenario_draws).

(** Grid version: Ben was caught (Dee's vote for p3 completed the round) and
    may now guess. *)
Definition grid_caught : world :=
  after (run_grid 0 grid_last_vote [Receive 5 (vote_frame "p3")]) grid_last_vote.

(** Grid version: Ben guessed wrong, the round is finished. *)
Definition grid_finished : world :=
  after (run_grid 0 grid_caught [Receive 3 (guess_frame "melon")]) grid_caught.

(** Socket 1 hosts [K7PQ], five players joined (sockets 2..6). *)
Definition five_players : list event :=
  [ Connect; Receive 1 create_room_frame ]
  ++ repeat Connect 5
  ++ map (fun i => Receive i (join_frame "K7PQ" "guest")) (seq 2 5).

Definition grid_five : world :=
  after (run_grid 0 (boot scenario_draws) five_players) (boot scenario_draws).
Definition serverjs_five : world :=
  after (run_serverjs 0 (boot scenario_draws) five_players) (boot scenario_draws).

(** The same host then creates a second room; the next four draws spell
    [AHSH]. *)
Definition grid_two_rooms : world :=
  after (run_grid 0 grid_five [Receive 1 create_room_frame]) grid_five.
Definition serverjs_two_rooms : world :=
  after (run_serverjs 0 serverjs_five [Receive 1 create_room_frame]) serverjs_five.

(** The no-break space U+00A0, which [trim] strips. *)
Definition nbsp : string := String "160"%char "".

(** A hint of 51 characters. *)
Definition long_hint : string :=
  "xxxxxxxxxxxxxxxxxxxxxxxxxxxxxxxxxxxxxxxxxxxxxxxxxxy".

(** The room stored under [K7PQ] in the worked scenario. *)
Definition room_K7PQ (w : world) : room :=
  default (new_room "K7PQ") (rooms w !! "K7PQ").

(** What a room refers to: the chameleon, the hint keys, the vote keys
    and targets, and the identities of its players. *)
Definition references (r : room)
    : value * list string * list string * list value * list string :=
  (chameleonId r, keys (hints r), keys (votes r), values (votes r),
   map player_id (players r)).

(** The room after [room.votes[ws.id] = targetId]. *)
Definition with_vote (ws : nat) (f : frame) (r : room) : room :=
  set_votes (obj_set (ws_id ws) (field "targetId" f) (votes r)) r.

Definition votes_tied : obj value :=
  [("p2", VStr "p3"); ("p3", VStr "p2"); ("p4", VStr "p3"); ("p5", VStr "p2")].

(** Grid version: the fourth vote, for p2, made the tally two all. *)
Definition grid_tie_resolved : world :=
  after (run_grid 0 grid_last_vote [Receive 5 (vote_frame "p2")]) grid_last_vote.

(** The public state of the scenario room in a given phase. *)
Definition scenario_public (p : phase) : public_state :=
  PublicState "K7PQ"
              [("p2", VStr "Ann"); ("p3", VStr "Ben"); ("p4", VStr "Cy");
               ("p5", VStr "Dee")]
              p (Some "Fruits") 4.

(** The same message to the four players and the host. *)
Definition to_everyone (m : message) : list delivery :=
  map (fun c => (c, m)) [2; 3; 4; 5; 1].

(** Socket 1 hosts [K7PQ] and Ann (socket 2) is its only player. *)
Definition one_player : list event :=
  [ Connect; Receive 1 create_room_frame; Connect;
    Receive 2 (join_frame "K7PQ" "Ann") ].

Definition serverjs_one_player : world :=
  after (run_serverjs 0 (boot scenario_draws) one_player) (boot scenario_draws).

(** server.js: all hints are in, Ann and Ben have voted. *)
Definition serverjs_two_votes : world :=
  after (run_serverjs 0 (boot scenario_draws)
           (scenario_start ++ scenario_hints
            ++ [Receive 2 (vote_frame "p3"); Receive 3 (vote_frame "p2")]))
        (boot scenario_draws).

(** * Properties *)

(** ** Strings and random draws *)

Lemma symbols_app s t : symbols (s +:+ t) = symbols s ++ symbols t.
Proof. induction s as [|c s IH]; simpl; [done|]. unfold symbols in *. simpl. by rewrite IH. Qed.

Lemma symbols_length s : length (symbols s) = String.length s.
Proof. induction s as [|c s IH]; simpl; [done|]. unfold symbols in *. simpl. by rewrite IH. Qed.

Lemma char_at_symbols i s : char_at i s = symbols s !! i.
Proof.
  revert i. induction s as [|c s IH]; intros [|i]; simpl; done.
Qed.

Lemma floor_random_lt u n : 0 < n → floor_random u n < n.
Proof.
  intros Hn. unfold floor_random.
  pose proof (mantissa_lt u) as Hm. apply N.ltb_lt in Hm.
  assert (mantissa u * N.of_nat n / 2 ^ 53 < N.of_nat n)%N; [|lia].
  apply N.Div0.div_lt_upper_bound. nia.
Qed.

Lemma append_char_symbols s i :
  i < String.length chars →
  ∃ c, c ∈ symbols chars ∧ symbols (append_char s i) = symbols s ++ [c].
Proof.
  intros Hi. unfold append_char. rewrite char_at_symbols.
  rewrite <- symbols_length in Hi.
  destruct (lookup_lt_is_Some_2 _ _ Hi) as [c Hc]. rewrite Hc.
  exists c. split; [by eapply list_elem_of_lookup_2|].
  by rewrite symbols_app.
Qed.

Lemma makeCode_loop_spec e n s pos :
  ∃ t, symbols (fst (makeCode_loop e n s pos)) = symbols s ++ t
       ∧ length t = n
       ∧ (∀ c, c ∈ t → c ∈ symbols chars)
       ∧ snd (makeCode_loop e n s pos) = pos + n.
Proof.
  revert s pos. induction n as [|n IH]; intros s pos; cbn [makeCode_loop fst snd].
  - exists []. rewrite app_nil_r. repeat split; [|lia]. intros c Hc. inversion Hc.
  - destruct (append_char_symbols s (floor_random (e pos) (String.length chars)))
      as (c & Hc & Hs).
    { apply floor_random_lt. vm_compute. lia. }
    destruct (IH (append_char s (floor_random (e pos) (String.length chars))) (S pos))
      as (t & Ht & Hlen & Hin & Hpos).
    exists (c :: t). rewrite Ht, Hs, <- app_assoc, Hpos.
    split; [done|]. split; [cbn [length]; lia|]. split; [|lia].
    intros c' Hc'. apply elem_of_cons in Hc' as [->|Hc']; auto.
Qed.

Lemma makeCode_spec e pos :
  String.length (fst (makeCode e 4 pos)) = 4
  ∧ (∀ c, c ∈ symbols (fst (makeCode e 4 pos)) → c ∈ symbols chars)
  ∧ snd (makeCode e 4 pos) = pos + 4.
Proof.
  unfold makeCode.
  destruct (makeCode_loop_spec e 4 "" pos) as (t & Ht & Hlen & Hin & Hpos).
  change (symbols "" ++ t) with t in Ht.
  rewrite <- symbols_length, Ht. auto.
Qed.

(** ** Room codes *)

Lemma resample_spec e store fuel : ∀ pos c p,
  resample fuel e store (fst (makeCode e 4 pos)) (pos + 4) = Some (c, p) →
  ∃ m, m ≤ fuel
       ∧ c = fst (makeCode e 4 (pos + 4 * m))
       ∧ store !! c = None
       ∧ (∀ i, i < m → is_Some (store !! fst (makeCode e 4 (pos + 4 * i))))
       ∧ p = pos + 4 * (m + 1).
Proof.
  induction fuel as [|fuel IH]; intros pos c p; cbn [resample];
    destruct (store !! (makeCode e 4 pos).1) as [r0|] eqn:Hc0.
  - done.
  - intros [= <- <-]. exists 0. rewrite Nat.add_0_r.
    split; [lia|]. split; [done|]. split; [done|]. split; [intros; lia|lia].
  - destruct (makeCode e 4 (pos + 4)) as [c' pos'] eqn:Hmk.
    pose proof (makeCode_spec e (pos + 4)) as (_ & _ & Hpos).
    rewrite Hmk in Hpos. cbn [snd] in Hpos. subst pos'.
    replace c' with (makeCode e 4 (pos + 4)).1 by (by rewrite Hmk).
    intros Hres. apply IH in Hres as (m & Hm & -> & Hfree & Hbusy & ->).
    exists (S m). replace (pos + 4 + 4 * m) with (pos + 4 * S m) in * by lia.
    split; [lia|]. split; [done|]. split; [done|]. split; [|lia].
    intros [|i] Hi.
    + rewrite Nat.add_0_r, Hc0. eauto.
    + replace (pos + 4 * S i) with (pos + 4 + 4 * i) by lia. apply Hbusy. lia.
  - intros [= <- <-]. exists 0. rewrite Nat.add_0_r.
    split; [lia|]. split; [done|]. split; [done|]. split; [intros; lia|lia].
Qed.

Lemma resample_terminates e store n : ∀ fuel pos,
  n ≤ fuel →
  store !! fst (makeCode e 4 (pos + 4 * n)) = None →
  is_Some (resample fuel e store (fst (makeCode e 4 pos)) (pos + 4)).
Proof.
  induction n as [|n IH]; intros fuel pos Hle Hfree.
  - rewrite Nat.add_0_r in Hfree. destruct fuel; cbn [resample]; rewrite Hfree; eauto.
  - destruct fuel as [|fuel]; [lia|]. cbn [resample].
    destruct (store !! (makeCode e 4 pos).1); [|eauto].
    destruct (makeCode e 4 (pos + 4)) as [c' pos'] eqn:Hmk.
    pose proof (makeCode_spec e (pos + 4)) as (_ & _ & Hpos).
    rewrite Hmk in Hpos. cbn [snd] in Hpos. subst pos'.
    replace c' with (makeCode e 4 (pos + 4)).1 by (by rewrite Hmk).
    apply IH; [lia|]. by replace (pos + 4 + 4 * n) with (pos + 4 * S n) by lia.
Qed.

Lemma createRoom_spec fuel w r w' :
  createRoom fuel w = Some (r, w') →
  ∃ m, m ≤ fuel
       ∧ r = new_room (candidate w m)
       ∧ rooms w !! candidate w m = None
       ∧ (∀ i, i < m → is_Some (rooms w !! candidate w i))
       ∧ w' = put_room (candidate w m) r (set_rng (rng w + 4 * (m + 1)) w).
Proof.
  unfold createRoom.
  destruct (makeCode (entropy w) 4 (rng w)) as [c0 pos0] eqn:Hmk.
  pose proof (makeCode_spec (entropy w) (rng w)) as (_ & _ & Hpos).
  rewrite Hmk in Hpos. cbn [snd] in Hpos. subst pos0.
  replace c0 with (makeCode (entropy w) 4 (rng w)).1 by (by rewrite Hmk).
  destruct (resample _ _ _ _ _) as [[c p]|] eqn:Hres; [|done].
  apply resample_spec in Hres as (m & Hm & -> & Hfree & Hbusy & ->).
  intros [= <- <-]. exists m. unfold candidate. naive_solver.
Qed.

Lemma createRoom_terminates w n :
  rooms w !! candidate w n = None → is_Some (createRoom n w).
Proof.
  intros Hfree. unfold createRoom.
  destruct (makeCode (entropy w) 4 (rng w)) as [c0 pos0] eqn:Hmk.
  pose proof (makeCode_spec (entropy w) (rng w)) as (_ & _ & Hpos).
  rewrite Hmk in Hpos. cbn [snd] in Hpos. subst pos0.
  replace c0 with (makeCode (entropy w) 4 (rng w)).1 by (by rewrite Hmk).
  destruct (resample_terminates (entropy w) (rooms w) n n (rng w)) as [[c p] ->];
    [lia|done|eauto].
Qed.

Lemma keyed_by_code_insert store k r :
  keyed_by_code store → code r = k → keyed_by_code (<[k := r]> store).
Proof.
  intros Hk Hc k' r'. rewrite lookup_insert. case_decide; [naive_solver|apply Hk].
Qed.

Lemma keyed_by_code_delete store k :
  keyed_by_code store → keyed_by_code (delete k store).
Proof.
  intros Hk k' r'. rewrite lookup_delete. case_decide; [done|apply Hk].
Qed.

(** ** Looking up the sender's room *)

Lemma room_of_socket_Some w ws k r :
  room_of_socket w ws = Some (k, r) ↔ roomCode_of w ws = Some k ∧ rooms w !! k = Some r.
Proof.
  unfold room_of_socket. split.
  - destruct (roomCode_of w ws) as [k'|]; cbn; [|done].
    destruct (rooms w !! k') as [r'|] eqn:E; cbn; [|done].
    intros [= <- <-]. done.
  - intros [-> Hr]. cbn. by rewrite Hr.
Qed.

Lemma rooms_put_room k r w : rooms (put_room k r w) = <[k := r]> (rooms w).
Proof. reflexivity. Qed.

Lemma readyState_open_put_room k r w ws :
  readyState_open (put_room k r w) ws = readyState_open w ws.
Proof. reflexivity. Qed.

Lemma broadcast_put_room k r w cl m : broadcast (put_room k r w) cl m = broadcast w cl m.
Proof. reflexivity. Qed.

Lemma elem_of_broadcast w cl m c :
  c ∈ cl → readyState_open w c = true → (c, m) ∈ broadcast w cl m.
Proof.
  intros Hc Ho. unfold broadcast. apply list_elem_of_fmap. exists c. split; [done|].
  by apply list_elem_of_filter.
Qed.

Lemma broadcast_recipients w cl m d : d ∈ broadcast w cl m → d.1 ∈ cl ∧ d.2 = m.
Proof.
  unfold broadcast. intros Hd.
  apply list_elem_of_fmap in Hd as (c & Hd & Hc). subst d.
  apply list_elem_of_filter in Hc as [_ Hc]. done.
Qed.

(** ** Invariants of the reachable worlds *)

Lemma world_ok_put_room b k r w :
  world_ok b w → room_ok b k r → world_ok b (put_room k r w).
Proof.
  intros Hw Hr k' r'. rewrite rooms_put_room, lookup_insert.
  destruct (decide (k = k')) as [<-|_]; [by intros [= <-]|apply Hw].
Qed.

Lemma world_ok_delete b k w :
  world_ok b w → world_ok b (set_rooms (delete k (rooms w)) w).
Proof.
  intros Hw k' r'. cbn. rewrite lookup_delete.
  destruct (decide (k = k')); [done|apply Hw].
Qed.

Lemma world_ok_sockets b x w : world_ok b w → world_ok b (set_sockets x w).
Proof. done. Qed.

Lemma world_ok_rng b x w : world_ok b w → world_ok b (set_rng x w).
Proof. done. Qed.

Lemma room_of_socket_ok b w ws k r :
  world_ok b w → room_of_socket w ws = Some (k, r) → room_ok b k r.
Proof. intros Hw Hr. apply room_of_socket_Some in Hr as [_ Hr]. by apply Hw. Qed.

(** A room whose round is set up stays so under updates that leave the
    card, grid, coordinate and chameleon alone. *)
Lemma started_same r r' :
  category r' = category r → grid r' = grid r → coord r' = coord r →
  chameleonId r' = chameleonId r → started r → started r'.
Proof. unfold started. intros -> -> -> ->. done. Qed.

Local Ltac keep_started H :=
  let Hne := fresh in
  intros Hne; apply (started_same _ _ eq_refl eq_refl eq_refl eq_refl);
  apply H; first [exact Hne | congruence].

Lemma create_room_ok b send fuel w ws w' out :
  world_ok b w → create_room send fuel w ws = Returns w' out → world_ok b w'.
Proof.
  intros Hw. unfold create_room.
  destruct (createRoom fuel w) as [[r w1]|] eqn:Hcr; [|done].
  apply createRoom_spec in Hcr as (m & _ & -> & _ & _ & ->).
  intros [= <- _].
  assert (String.length (candidate w m) = 4) as Hlen by apply makeCode_spec.
  apply world_ok_sockets, world_ok_put_room;
    [apply world_ok_put_room; [by apply world_ok_rng|]|];
    (split; [done|]; split; [done|]; split; [done|]; split; [done|];
     split; [cbn; lia|]; split; [done|]; by destruct b).
Qed.

Lemma join_room_ok b send logs w ws f w' out :
  world_ok b w → join_room send logs w ws f = Returns w' out → world_ok b w'.
Proof.
  intros Hw. unfold join_room.
  destruct (negb _ || negb _); [by intros [= <- _]|].
  destruct (field "code" f) as [| | | |k| |]; try by intros [= <- _].
  cbn [rooms_get]. destruct (rooms w !! k) as [r|] eqn:Hr; [|by intros [= <- _]].
  destruct (capacity r <=? length (players r)) eqn:Hcap; [by intros [= <- _]|].
  destruct (decide (state r = Lobby)) as [Hst|Hst].
  2:{ rewrite bool_decide_eq_false_2 by done. by intros [= <- _]. }
  rewrite bool_decide_eq_true_2 by done. cbn [negb].
  destruct (slice 20 (field "name" f)); [|done].
  destruct (logs && _); [done|]. intros [= <- _].
  apply world_ok_sockets, world_ok_put_room; [done|].
  destruct (Hw k r Hr) as (Hc & Hlen & Hcapa & Hmin & Hpl & Hstart & Hacc).
  apply Nat.leb_gt in Hcap. rewrite Hcapa in Hcap.
  split; [done|]. split; [done|]. split; [done|]. split; [done|].
  split; [cbn; rewrite length_app; cbn; lia|]. split; [cbn; congruence|].
  destruct b; [cbn; congruence|done].
Qed.

Lemma nth_categories ci cat : CATEGORIES !! ci = Some cat → cat ∈ CATEGORIES.
Proof. apply list_elem_of_lookup_2. Qed.

Lemma grid_start_ok w ws w' out :
  world_ok true w → GridServer.host_start_game w ws = Returns w' out → world_ok true w'.
Proof.
  intros Hw. unfold GridServer.host_start_game.
  destruct (room_of_socket w ws) as [[k r]|] eqn:Hr; [|by intros [= <- _]].
  destruct (negb _); [by intros [= <- _]|].
  destruct (_ <? _); [by intros [= <- _]|].
  unfold start_draws. destruct (players r !! _) as [ch|]; [|done].
  destruct (CATEGORIES !! _) as [cat|] eqn:Hcat; [|done].
  intros [= <- _]. apply world_ok_put_room; [by apply world_ok_rng|].
  destruct (room_of_socket_ok _ _ _ _ _ Hw Hr) as (Hc & Hlen & Hcapa & Hmin & Hpl & _ & _).
  repeat (split; [done|]). split; [|done].
  intros _. eexists cat, _, _, _. split; [done|].
  split; [by eapply nth_categories|]. split; [done|]. split; [done|].
  split; [apply floor_random_lt; lia|]. split; [apply floor_random_lt; lia|done].
Qed.

Lemma serverjs_start_ok w ws w' out :
  world_ok false w → ServerJs.host_start_game w ws = Returns w' out → world_ok false w'.
Proof.
  intros Hw. unfold ServerJs.host_start_game.
  destruct (room_of_socket w ws) as [[k r]|] eqn:Hr; [|by intros [= <- _]].
  destruct (negb _); [by intros [= <- _]|].
  destruct (_ <? _); [by intros [= <- _]|].
  unfold start_draws. destruct (CATEGORIES !! _) as [cat|] eqn:Hcat; [|done].
  destruct (players r !! _) as [ch|]; [|done].
  destruct (negb (renders _)); [done|].
  intros [= <- _]. apply world_ok_put_room; [by apply world_ok_rng|].
  destruct (room_of_socket_ok _ _ _ _ _ Hw Hr) as (Hc & Hlen & Hcapa & Hmin & Hpl & _ & _).
  repeat (split; [done|]). split; [|done].
  intros _. eexists cat, _, _, _. split; [done|].
  split; [by eapply nth_categories|]. split; [done|]. split; [done|].
  split; [apply floor_random_lt; lia|]. split; [apply floor_random_lt; lia|done].
Qed.

(** The handlers below replace the sender's room by one that differs in
    hints, votes, accusations, players or phase; [settle] splits the
    invariant of the new room from that of the old one. *)
Local Ltac known_phase :=
  repeat match goal with
    | H : negb (bool_decide _) = false |- _ =>
        apply negb_false_iff, bool_decide_eq_true in H
    end.

Local Ltac settle Hw :=
  known_phase;
  match goal with
  | H : room_of_socket _ _ = Some (?k, ?r) |- _ =>
      let Hst := fresh "Hstarted" in
      let Hac := fresh "Hacc" in
      pose proof (room_of_socket_ok _ _ _ _ _ Hw H) as (? & ? & ? & ? & ? & Hst & Hac);
      apply world_ok_put_room; [exact Hw|];
      split; [done|]; split; [done|]; split; [done|]; split; [done|];
      split; [done|]; split;
      [ first [ keep_started Hst | cbn; congruence ]
      | cbn in *; first [ done | congruence | intros _; apply Hac; congruence ] ]
  end.

Lemma grid_submit_hint_ok w ws f w' out :
  world_ok true w → GridServer.submit_hint w ws f = Returns w' out → world_ok true w'.
Proof.
  intros Hw H. unfold GridServer.submit_hint in H.
  repeat case_match; simplify_eq; try done; settle Hw.
Qed.

Lemma serverjs_submit_hint_ok w ws f w' out :
  world_ok false w → ServerJs.submit_hint w ws f = Returns w' out → world_ok false w'.
Proof.
  intros Hw H. unfold ServerJs.submit_hint in H.
  repeat case_match; simplify_eq; try done; settle Hw.
Qed.

Lemma grid_accuse_ok w ws f w' out :
  world_ok true w → GridServer.accuse w ws f = Returns w' out → world_ok true w'.
Proof.
  intros Hw H. unfold GridServer.accuse in H.
  repeat case_match; simplify_eq; try done.
  known_phase.
  match goal with H : room_of_socket _ _ = Some (?k, ?r) |- _ =>
    pose proof (room_of_socket_ok _ _ _ _ _ Hw H) as (? & ? & ? & ? & ? & Hst & _) end.
  apply world_ok_put_room; [done|]. repeat (split; [done|]).
  split; [keep_started Hst|]. cbn. intros _ Hnil. by apply app_eq_nil in Hnil as [_ ?].
Qed.

Lemma grid_vote_ok w ws f w' out :
  world_ok true w → GridServer.vote w ws f = Returns w' out → world_ok true w'.
Proof.
  intros Hw H. unfold GridServer.vote in H.
  repeat case_match; simplify_eq; try done; settle Hw.
Qed.

Lemma serverjs_vote_ok w ws f w' out :
  world_ok false w → ServerJs.vote w ws f = Returns w' out → world_ok false w'.
Proof.
  intros Hw H. unfold ServerJs.vote in H.
  repeat case_match; simplify_eq; try done; settle Hw.
Qed.

Lemma grid_chameleon_guess_ok w ws f w' out :
  world_ok true w → GridServer.chameleon_guess w ws f = Returns w' out → world_ok true w'.
Proof.
  intros Hw H. unfold GridServer.chameleon_guess in H.
  repeat case_match; simplify_eq; try done; settle Hw.
Qed.

Lemma grid_host_reset_ok w ws w' out :
  world_ok true w → GridServer.host_reset w ws = Returns w' out → world_ok true w'.
Proof.
  intros Hw H. unfold GridServer.host_reset in H.
  repeat case_match; simplify_eq; try done; settle Hw.
Qed.

Lemma filter_players_length (P : player → Prop) `{∀ p, Decision (P p)} l :
  length (filter P l) ≤ length l.
Proof. apply sublist_length, sublist_filter. Qed.

Lemma room_ok_filter_players b k r (P : player → Prop) `{∀ p, Decision (P p)} :
  room_ok b k r → room_ok b k (set_players (filter P (players r)) r).
Proof.
  intros (? & ? & ? & ? & Hpl & Hst & Hacc).
  repeat (split; [done|]). split; [|split; [keep_started Hst|done]].
  cbn. pose proof (filter_players_length P (players r)). lia.
Qed.

Lemma grid_on_close_ok w ws :
  world_ok true w → world_ok true (GridServer.on_close w ws).1.
Proof.
  intros Hw. unfold GridServer.on_close.
  destruct (roomCode_of w ws) as [k|]; [|done].
  destruct (negb (truthy (VStr k))); [done|].
  destruct (rooms w !! k) as [r|] eqn:Hr; [|done].
  destruct (bool_decide _); [by apply world_ok_delete|].
  destruct (negb _); cbn [fst]; [|by apply world_ok_delete].
  apply world_ok_put_room; [done|]. apply room_ok_filter_players. by apply Hw.
Qed.

Lemma serverjs_on_close_ok w ws :
  world_ok false w → world_ok false (ServerJs.on_close w ws).1.
Proof.
  intros Hw. unfold ServerJs.on_close.
  destruct (roomCode_of w ws) as [k|]; [|done].
  destruct (negb (truthy (VStr k))); [done|].
  destruct (rooms w !! k) as [r|] eqn:Hr; [|done].
  destruct (bool_decide _); [by apply world_ok_delete|].
  destruct (negb _); cbn [fst]; [|by apply world_ok_delete].
  apply world_ok_put_room; [done|]. apply room_ok_filter_players. by apply Hw.
Qed.

(** One [case] label of the dispatch: the callback it selects is dealt
    with by [tac], the other labels remain. *)
Local Ltac by_case tac :=
  match goal with
  | |- (if ?c then _ else _) = _ → _ => destruct c; [solve [tac]|]
  end.

Lemma grid_on_message_ok fuel w ws f w' out :
  world_ok true w → GridServer.on_message fuel w ws f = Returns w' out → world_ok true w'.
Proof.
  intros Hw. unfold GridServer.on_message.
  by_case ltac:(by apply create_room_ok).
  by_case ltac:(by apply join_room_ok).
  by_case ltac:(by apply grid_start_ok).
  by_case ltac:(by apply grid_submit_hint_ok).
  by_case ltac:(by apply grid_accuse_ok).
  by_case ltac:(by apply grid_vote_ok).
  by_case ltac:(by apply grid_chameleon_guess_ok).
  by_case ltac:(by apply grid_host_reset_ok).
  by intros [= <- _].
Qed.

Lemma serverjs_on_message_ok fuel w ws f w' out :
  world_ok false w → ServerJs.on_message fuel w ws f = Returns w' out → world_ok false w'.
Proof.
  intros Hw. unfold ServerJs.on_message.
  by_case ltac:(by apply create_room_ok).
  by_case ltac:(by apply join_room_ok).
  by_case ltac:(by apply serverjs_start_ok).
  by_case ltac:(by apply serverjs_submit_hint_ok).
  by_case ltac:(by apply serverjs_vote_ok).
  by intros [= <- _].
Qed.

Lemma reachable_grid_ok w : reachable_grid w → world_ok true w.
Proof.
  induction 1 as [e|fuel w ev w' out _ IH Hstep]; [by intros k r|].
  destruct ev as [|ws|ws f|ws]; cbn in Hstep.
  - by injection Hstep as <- _.
  - destruct (readyState_open w ws); by injection Hstep as <- _.
  - destruct (readyState_open w ws); [|by injection Hstep as <- _].
    by eapply grid_on_message_ok.
  - destruct (readyState_open w ws); [|by injection Hstep as <- _].
    destruct (GridServer.on_close _ ws) as [w1 out1] eqn:Hc.
    injection Hstep as <- _.
    change w1 with (w1, out1).1. rewrite <- Hc. by apply grid_on_close_ok.
Qed.

Lemma reachable_serverjs_ok w : reachable_serverjs w → world_ok false w.
Proof.
  induction 1 as [e|fuel w ev w' out _ IH Hstep]; [by intros k r|].
  destruct ev as [|ws|ws f|ws]; cbn in Hstep.
  - by injection Hstep as <- _.
  - destruct (readyState_open w ws); by injection Hstep as <- _.
  - destruct (readyState_open w ws); [|by injection Hstep as <- _].
    by eapply serverjs_on_message_ok.
  - destruct (readyState_open w ws); [|by injection Hstep as <- _].
    destruct (ServerJs.on_close _ ws) as [w1 out1] eqn:Hc.
    injection Hstep as <- _.
    change w1 with (w1, out1).1. rewrite <- Hc. by apply serverjs_on_close_ok.
Qed.

Lemma run_reachable send on_message on_close fuel evs : ∀ w w' out,
  reachable send on_message on_close w →
  run send on_message on_close fuel w evs = Some (w', out) →
  reachable send on_message on_close w'.
Proof.
  induction evs as [|ev evs IH]; intros w w' out Hw; cbn [run].
  - by intros [= <- _].
  - destruct (step _ _ _ fuel w ev) as [w1 out1| |] eqn:Hstep; try done.
    destruct (run _ _ _ fuel w1 evs) as [[w2 out2]|] eqn:Hrun; [|done].
    intros [= <- _]. eapply IH; [|exact Hrun]. by eapply reachable_step.
Qed.

Lemma reachable_after_run send on_message on_close fuel evs w :
  reachable send on_message on_close w →
  reachable send on_message on_close (after (run send on_message on_close fuel w evs) w).
Proof.
  intros Hw. destruct (run _ _ _ fuel w evs) as [[w' out]|] eqn:Hrun; [|done].
  by eapply run_reachable.
Qed.

Lemma started_secret_word r :
  started r → ∃ s, secret_word r = Some (VStr s) ∧ s ∈ all_words.
Proof.
  intros (cat & i & j & c & Hcat & Hin & Hg & Hco & Hi & Hj & _).
  unfold secret_word. rewrite Hg, Hco.
  assert (∀ s : string, bool_decide (s ∈ all_words) = true → s ∈ all_words) as Hdec
    by (intros s; apply bool_decide_eq_true_1).
  repeat (apply elem_of_cons in Hin as [->|Hin]);
    [| | |inversion Hin];
    (destruct i as [|[|[|[|i]]]]; [| | | |lia]);
    (destruct j as [|[|[|[|j]]]]; [| | | |lia]);
    (eexists; split; [reflexivity|]; apply Hdec; vm_compute; reflexivity).
Qed.

Lemma reachable_keyed_by_code w :
  reachable_grid w ∨ reachable_serverjs w → keyed_by_code (rooms w).
Proof.
  intros [Hw|Hw] k r Hr.
  - apply reachable_grid_ok in Hw. by destruct (Hw k r Hr).
  - apply reachable_serverjs_ok in Hw. by destruct (Hw k r Hr).
Qed.

Lemma reachable_within_capacity w :
  reachable_grid w ∨ reachable_serverjs w → within_capacity w.
Proof.
  intros [Hw|Hw] k r Hr.
  - apply reachable_grid_ok in Hw.
    destruct (Hw k r Hr) as (_ & _ & -> & _ & ? & _). done.
  - apply reachable_serverjs_ok in Hw.
    destruct (Hw k r Hr) as (_ & _ & -> & _ & ? & _). done.
Qed.

(** In the grid version a room is only ever voting after an accusation:
    the tally never decides who is accused. *)
Lemma grid_voting_has_accusation w k r :
  reachable_grid w → rooms w !! k = Some r → state r = Voting →
  ∃ a rest, accusations r = a :: rest
            ∧ ∀ winners, GridServer.resolve_accused (accusations r) winners = accusedId a.
Proof.
  intros Hw Hr Hst. apply reachable_grid_ok in Hw.
  destruct (Hw k r Hr) as (_ & _ & _ & _ & _ & _ & Hacc). specialize (Hacc Hst).
  destruct (accusations r) as [|a rest]; [done|]. by exists a, rest.
Qed.

(** ** Room codes: the claim *)

(** C9, as stated, fails: the alphabet [makeCode] draws from has 31
    symbols, not 32. *)
Lemma C9_alphabet_has_31_symbols :
  length (symbols chars) = 31 ∧ NoDup (symbols chars)
  ∧ length (symbols chars) ≠ 32.
Proof.
  split; [reflexivity|]. split; [|vm_compute; lia].
  apply (bool_decide_unpack _). vm_compute. exact I.
Qed.

(** C9 (amended): a generated room code is exactly 4 characters of the
    fixed 31-symbol alphabet, which has none of 0, O, 1, I, L; it is the
    first candidate drawn that is not a key of the store (earlier candidates
    were all taken), it is stored under that key with every other room
    untouched, a store keyed by its rooms' codes stays so, and generation
    comes back as soon as one candidate is unused.  In every world either
    server can reach, two stored rooms with the same code are the same
    entry. *)
Theorem C9_room_code_generation :
  (length (symbols chars) = 31 ∧ NoDup (symbols chars)
   ∧ ∀ c, c ∈ ["0"; "O"; "1"; "I"; "L"]%char → c ∉ symbols chars)
  ∧ (∀ fuel w r w',
       createRoom fuel w = Some (r, w') →
       String.length (code r) = 4
       ∧ (∀ c, c ∈ symbols (code r) → c ∈ symbols chars)
       ∧ rooms w !! code r = None
       ∧ (∃ m, m ≤ fuel ∧ code r = candidate w m
               ∧ ∀ i, i < m → is_Some (rooms w !! candidate w i))
       ∧ rooms w' = <[code r := r]> (rooms w)
       ∧ (keyed_by_code (rooms w) → keyed_by_code (rooms w')))
  ∧ (∀ w n, rooms w !! candidate w n = None → is_Some (createRoom n w))
  ∧ (∀ w, reachable_grid w ∨ reachable_serverjs w →
          ∀ k1 k2 r1 r2,
            rooms w !! k1 = Some r1 → rooms w !! k2 = Some r2 →
            code r1 = code r2 → k1 = k2 ∧ r1 = r2).
Proof.
  split; [|split; [|split]]; cycle 3.
  { intros w Hw k1 k2 r1 r2 H1 H2 Hc.
    pose proof (reachable_keyed_by_code w Hw) as Hk.
    assert (k1 = k2) as <- by (by rewrite <- (Hk _ _ H1), <- (Hk _ _ H2)).
    split; [done|]. congruence. }
  - split; [reflexivity|]. split.
    + apply (bool_decide_unpack _). vm_compute. exact I.
    + intros c Hc. apply (bool_decide_unpack _).
      repeat (apply elem_of_cons in Hc as [->|Hc]; [vm_compute; exact I|]).
      inversion Hc.
  - intros fuel w r w' Hcr.
    apply createRoom_spec in Hcr as (m & Hm & -> & Hfree & Hbusy & ->).
    cbn [code new_room]. pose proof (makeCode_spec (entropy w) (rng w + 4 * m))
      as (Hlen & Hsym & _).
    split; [exact Hlen|]. split; [exact Hsym|]. split; [exact Hfree|].
    split; [eauto|]. split; [reflexivity|].
    intros Hk. by apply keyed_by_code_insert.
  - apply createRoom_terminates.
Qed.

(** With a source that draws [AAAA], [SSSS], ... and a store that already
    holds [AAAA], one resampling yields [SSSS]. *)
Lemma C9_room_code_generation_witness :
  ∃ r w',
    createRoom 1 (put_room "AAAA" (new_room "AAAA") (boot second_half)) = Some (r, w')
    ∧ code r = "SSSS"
    ∧ String.length (code r) = 4
    ∧ rooms (put_room "AAAA" (new_room "AAAA") (boot second_half)) !! code r = None.
Proof.
  pose proof C9_room_code_generation as (_ & Hgen & Hterm & _).
  destruct (Hterm (put_room "AAAA" (new_room "AAAA") (boot second_half)) 1)
    as [[r w'] Hcr]; [vm_compute; reflexivity|].
  exists r, w'. destruct (Hgen _ _ _ _ Hcr) as (Hlen & _ & Hfree & _).
  split; [exact Hcr|]. split; [|split; [exact Hlen|exact Hfree]].
  revert Hcr. vm_compute. intros [= <- _]. reflexivity.
Defined.

Example full_lobby_ex :
  (length ∘ players) <$> (rooms full_lobby_grid !! "AAAA") = Some 8
  ∧ (length ∘ players) <$> (rooms full_lobby_serverjs !! "AAAA") = Some 8.
Proof. vm_compute. split; reflexivity. Qed.

(** ** Joining *)

Lemma join_room_within_capacity send logs w ws f :
  within_capacity w → within_capacity (world_of (join_room send logs w ws f) w).
Proof.
  intros Hcap. unfold join_room.
  repeat case_match; cbn [world_of]; try exact Hcap.
  all: intros k' r'; cbn; rewrite lookup_insert; destruct (decide _) as [_|_];
    [|apply Hcap].
  all: intros [= <-]; cbn; rewrite length_app; cbn.
  all: match goal with H : (capacity _ <=? _) = false |- _ =>
         apply Nat.leb_gt in H end; lia.
Qed.

Lemma join_room_full send logs w ws f k r :
  field "code" f = VStr k →
  truthy (field "code" f) = true →
  truthy (field "name" f) = true →
  rooms w !! k = Some r →
  capacity r ≤ length (players r) →
  join_room send logs w ws f = Returns w (send w ws (error "room_full")).
Proof.
  intros Hc Htc Htn Hr Hfull. unfold join_room.
  rewrite Htc, Htn, Hc. cbn. rewrite Hr.
  apply Nat.leb_le in Hfull. by rewrite Hfull.
Qed.

(** C4: a join never takes a room past its capacity, whatever the frame;
    a join naming a room that already holds capacity-many players comes back
    with the single reply [room_full] to the joining socket (server.js sends
    it if that socket is open) and the world, player list included, as it
    was.  Both servers; and no world either of them can reach has a room
    over its capacity. *)
Theorem C4_join_capacity fuel w ws f :
  type f = VStr "join_room" →
  (within_capacity w →
   within_capacity (world_of (GridServer.on_message fuel w ws f) w)
   ∧ within_capacity (world_of (ServerJs.on_message fuel w ws f) w))
  ∧ (∀ k r,
       field "code" f = VStr k → k ≠ "" →
       truthy (field "name" f) = true →
       rooms w !! k = Some r →
       capacity r ≤ length (players r) →
       GridServer.on_message fuel w ws f = Returns w [(ws, error "room_full")]
       ∧ ServerJs.on_message fuel w ws f
         = Returns w (if readyState_open w ws then [(ws, error "room_full")] else []))
  ∧ (reachable_grid w ∨ reachable_serverjs w → within_capacity w).
Proof.
  intros Ht.
  assert (GridServer.on_message fuel w ws f = join_room GridServer.send false w ws f)
    as ->.
  { unfold GridServer.on_message. by rewrite Ht. }
  assert (ServerJs.on_message fuel w ws f = join_room ServerJs.send true w ws f) as ->.
  { unfold ServerJs.on_message. by rewrite Ht. }
  split; [|split].
  - intros Hcap. split; by apply join_room_within_capacity.
  - intros k r Hc Hk Hn Hr Hfull.
    assert (truthy (field "code" f) = true) as Htc.
    { rewrite Hc. cbn. by destruct (String.eqb_spec k ""). }
    split; by erewrite join_room_full.
  - apply reachable_within_capacity.
Qed.

(** The ninth join against the full capacity-8 room [AAAA]. *)
Lemma C4_join_capacity_witness :
  GridServer.on_message 0 full_lobby_grid 10 (join_frame "AAAA" "late")
    = Returns full_lobby_grid [(10, error "room_full")]
  ∧ ServerJs.on_message 0 full_lobby_serverjs 10 (join_frame "AAAA" "late")
    = Returns full_lobby_serverjs [(10, error "room_full")]
  ∧ (length ∘ players) <$> (rooms full_lobby_grid !! "AAAA") = Some 8.
Proof.
  destruct (rooms full_lobby_grid !! "AAAA") as [r|] eqn:Hr; [|by vm_compute in Hr].
  destruct (rooms full_lobby_serverjs !! "AAAA") as [r'|] eqn:Hr'; [|by vm_compute in Hr'].
  split; [|split].
  - refine (proj1 (proj1 (proj2 (C4_join_capacity 0 full_lobby_grid 10
                                   (join_frame "AAAA" "late") eq_refl))
                     "AAAA" r eq_refl _ eq_refl Hr _)); [done|].
    revert Hr. vm_compute. intros [= <-]. cbn. lia.
  - pose proof (proj2 (proj1 (proj2 (C4_join_capacity 0 full_lobby_serverjs 10
                                   (join_frame "AAAA" "late") eq_refl))
                     "AAAA" r' eq_refl ltac:(done) eq_refl Hr'
                     ltac:(revert Hr'; vm_compute; intros [= <-]; cbn; lia))) as H.
    rewrite H. vm_compute. reflexivity.
  - revert Hr. vm_compute. intros [= <-]. reflexivity.
Defined.

Example scenario_ex :
  (fun r => (state r, chameleonId r, secret_word r, length (players r)))
    <$> (rooms grid_hint_phase !! "K7PQ")
  = Some (Hint, VStr "p3", Some (VStr "Lemon"), 4)
  ∧ (fun r => (state r, votes r, accusations r)) <$> (rooms grid_last_vote !! "K7PQ")
    = Some (Voting, [("p2", VStr "p3"); ("p3", VStr "p2"); ("p4", VStr "p3")],
            [Accuse "p2" (VStr "p3")])
  ∧ state <$> (rooms grid_caught !! "K7PQ") = Some ChameleonGuess
  ∧ state <$> (rooms grid_finished !! "K7PQ") = Some Finished
  ∧ (fun r => (state r, votes r, accusations r))
      <$> (rooms serverjs_last_vote !! "K7PQ")
    = Some (Voting, [("p2", VStr "p3"); ("p3", VStr "p2"); ("p4", VStr "p3")], [])
  ∧ (code <$> rooms grid_two_rooms !! "K7PQ", code <$> rooms grid_two_rooms !! "AHSH")
    = (Some "K7PQ", Some "AHSH")
  ∧ roomCode_of grid_two_rooms 1 = Some "AHSH".
Proof. vm_compute. repeat split; reflexivity. Qed.

(** ** Host reset *)



(** ** Hints *)

Local Ltac rejected := eexists; reflexivity.

Lemma slice0_short n s : String.length s ≤ n → slice0 n s = s.
Proof.
  unfold slice0. revert n. induction s as [|c s IH]; intros [|n] Hn; cbn in *;
    try done; try lia.
  f_equal. apply IH. lia.
Qed.

Lemma truthy_VStr s : truthy (VStr s) = true ↔ s ≠ "".
Proof. cbn. destruct (String.eqb_spec s ""); naive_solver. Qed.

(** C5, as stated, fails on server.js: in the hint phase Ann's 51-character
    hint is accepted, its first 50 characters are stored, and no error is
    sent. *)
Lemma C5_serverjs_accepts_long_hint :
  String.length long_hint = 51
  ∧ ∃ w' r',
      ServerJs.on_message 0 serverjs_hint_phase 2 (hint_frame long_hint)
      = Returns w' (map (fun c => (c, hint_progress 1 4)) [2; 3; 4; 5; 1])
      ∧ rooms w' !! "K7PQ" = Some r'
      ∧ hints r' = [("p2", slice0 50 long_hint)]
      ∧ (hints <$> rooms serverjs_hint_phase !! "K7PQ") = Some [].
Proof.
  split; [reflexivity|].
  destruct (ServerJs.on_message 0 serverjs_hint_phase 2 (hint_frame long_hint))
    as [w' out| |] eqn:Hrun; try (by vm_compute in Hrun).
  destruct (rooms w' !! "K7PQ") as [r'|] eqn:Hr'.
  - exists w', r'. revert Hr'. revert Hrun. vm_compute.
    intros [= <- <-] [= <-]. repeat split; reflexivity.
  - revert Hr'. revert Hrun. vm_compute. intros [= <- <-]. done.
Qed.

(** C5 (amended): in the grid version a [submit_hint] is accepted exactly
    when the sender's room is in the hint phase and the hint is a non-empty
    string of at most 50 characters.  Then [hints[sender]] is set to it and
    no error is sent; in every other case (longer, empty, missing, not a
    string, wrong phase, no room) the sender alone gets one error and the
    world is left as it was.  server.js does the same except that it has no
    upper bound: it accepts every non-empty string, of any length, and stores
    its first 50 characters. *)
Theorem C5_submit_hint fuel w ws f :
  type f = VStr "submit_hint" →
  (∀ k r s,
     room_of_socket w ws = Some (k, r) → state r = Hint →
     field "hint" f = VStr s → s ≠ "" →
     (String.length s ≤ 50 →
      ∃ r' out,
        GridServer.on_message fuel w ws f = Returns (put_room k r' w) out
        ∧ hints r' = obj_set (ws_id ws) s (hints r)
        ∧ ∀ d, d ∈ out → is_error d.2 = false)
     ∧ (∃ r' out,
          ServerJs.on_message fuel w ws f = Returns (put_room k r' w) out
          ∧ hints r' = obj_set (ws_id ws) (slice0 50 s) (hints r)
          ∧ ∀ d, d ∈ out → is_error d.2 = false))
  ∧ ((¬ ∃ k r s, room_of_socket w ws = Some (k, r) ∧ state r = Hint
                 ∧ field "hint" f = VStr s ∧ s ≠ "" ∧ String.length s ≤ 50) →
     ∃ e, GridServer.on_message fuel w ws f = Returns w [(ws, error e)])
  ∧ ((¬ ∃ k r s, room_of_socket w ws = Some (k, r) ∧ state r = Hint
                 ∧ field "hint" f = VStr s ∧ s ≠ "") →
     ∃ e, ServerJs.on_message fuel w ws f
          = Returns w (if readyState_open w ws then [(ws, error e)] else [])).
Proof.
  intros Ht.
  assert (GridServer.on_message fuel w ws f = GridServer.submit_hint w ws f) as ->.
  { unfold GridServer.on_message. by rewrite Ht. }
  assert (ServerJs.on_message fuel w ws f = ServerJs.submit_hint w ws f) as ->.
  { unfold ServerJs.on_message. by rewrite Ht. }
  unfold GridServer.submit_hint, ServerJs.submit_hint, GridServer.send, ServerJs.send.
  split; [|split].
  - intros k r s -> Hst -> Hs. rewrite bool_decide_eq_true_2 by done.
    apply truthy_VStr in Hs. rewrite Hs. cbn [negb orb]. split.
    + intros Hlen. rewrite (slice0_short 50 s Hlen).
      apply Nat.ltb_ge in Hlen. rewrite Hlen.
      destruct (_ =? _); eexists _, _; (split; [reflexivity|]); (split; [reflexivity|]);
        intros d Hd; repeat (apply elem_of_app in Hd as [Hd|Hd]);
        apply broadcast_recipients in Hd as [_ ->]; reflexivity.
    + destruct (_ =? _); eexists _, _; (split; [reflexivity|]); (split; [reflexivity|]);
        intros d Hd; repeat (apply elem_of_app in Hd as [Hd|Hd]);
        apply broadcast_recipients in Hd as [_ ->]; reflexivity.
  - intros Hno. destruct (room_of_socket w ws) as [[k r]|]; [|rejected].
    destruct (decide (state r = Hint)) as [Hst|Hst].
    2:{ rewrite bool_decide_eq_false_2 by done. rejected. }
    rewrite bool_decide_eq_true_2 by done. cbn [negb].
    destruct (field "hint" f) as [| | | |s| |] eqn:Hh; try rejected.
    destruct (truthy (VStr s)) eqn:Hs; [|rejected].
    apply truthy_VStr in Hs. cbn [negb orb].
    destruct (50 <? String.length s) eqn:Hlen; [rejected|].
    apply Nat.ltb_ge in Hlen. destruct Hno. eauto 10.
  - intros Hno. destruct (room_of_socket w ws) as [[k r]|]; [|rejected].
    destruct (decide (state r = Hint)) as [Hst|Hst].
    2:{ rewrite bool_decide_eq_false_2 by done. rejected. }
    rewrite bool_decide_eq_true_2 by done. cbn [negb].
    destruct (field "hint" f) as [| | | |s| |] eqn:Hh; try rejected.
    destruct (truthy (VStr s)) eqn:Hs; [|rejected].
    apply truthy_VStr in Hs. destruct Hno. eauto 10.
Qed.

(** Ann's 51-character hint is rejected by the grid version; her hint
    "sour" is accepted by both servers. *)
Lemma C5_submit_hint_witness :
  GridServer.on_message 0 grid_hint_phase 2 (hint_frame long_hint)
  = Returns grid_hint_phase [(2, error "invalid_hint")]
  ∧ (∃ r' out,
       GridServer.on_message 0 grid_hint_phase 2 (hint_frame "sour")
       = Returns (put_room "K7PQ" r' grid_hint_phase) out
       ∧ hints r' = obj_set "p2" "sour" (hints (room_K7PQ grid_hint_phase)))
  ∧ (∃ r' out,
       ServerJs.on_message 0 serverjs_hint_phase 2 (hint_frame "sour")
       = Returns (put_room "K7PQ" r' serverjs_hint_phase) out
       ∧ hints r' = obj_set "p2" "sour" (hints (room_K7PQ serverjs_hint_phase))).
Proof.
  assert (room_of_socket grid_hint_phase 2 = Some ("K7PQ", room_K7PQ grid_hint_phase))
    as Hg by (vm_compute; reflexivity).
  assert (state (room_K7PQ grid_hint_phase) = Hint) as Hgs by (vm_compute; reflexivity).
  assert (room_of_socket serverjs_hint_phase 2
          = Some ("K7PQ", room_K7PQ serverjs_hint_phase))
    as Hj by (vm_compute; reflexivity).
  assert (state (room_K7PQ serverjs_hint_phase) = Hint) as Hjs
    by (vm_compute; reflexivity).
  assert ("sour" ≠ "") as Hne by discriminate.
  assert (String.length "sour" ≤ 50) as Hlen by (cbn; lia).
  split; [|split].
  - destruct (C5_submit_hint 0 grid_hint_phase 2 (hint_frame long_hint) eq_refl)
      as (_ & Hrej & _).
    destruct Hrej as [e He].
    + intros (k & r & s & _ & _ & Hf & _ & Hs). revert Hf Hs. vm_compute.
      intros [= <-]. lia.
    + rewrite He. f_equal. revert He. vm_compute. intros [= <-]. reflexivity.
  - destruct (C5_submit_hint 0 grid_hint_phase 2 (hint_frame "sour") eq_refl)
      as (Hacc & _).
    destruct (Hacc _ _ "sour" Hg Hgs eq_refl Hne) as [Hgrid _].
    destruct (Hgrid Hlen) as (r' & out & Hrun & Hh & _).
    exists r', out. split; [exact Hrun|exact Hh].
  - destruct (C5_submit_hint 0 serverjs_hint_phase 2 (hint_frame "sour") eq_refl)
      as (Hacc & _).
    destruct (Hacc _ _ "sour" Hj Hjs eq_refl Hne) as [_ Hserver].
    destruct Hserver as (r' & out & Hrun & Hh & _).
    exists r', out. split; [exact Hrun|exact Hh].
Defined.

(** ** Closing a socket *)

Lemma notify_closed_grid w r :
  notify_closed GridServer.send w r = map (fun p => (player_ws p, room_closed)) (players r).
Proof.
  unfold notify_closed, GridServer.send.
  induction (players r) as [|p l IH]; cbn; [done|]. by rewrite IH.
Qed.

Lemma notify_closed_serverjs w r :
  notify_closed ServerJs.send w r
  = map (fun p => (player_ws p, room_closed))
        (filter (fun p => readyState_open w (player_ws p) = true) (players r)).
Proof.
  unfold notify_closed, ServerJs.send.
  induction (players r) as [|p l IH]; cbn; [done|].
  rewrite IH. destruct (readyState_open w (player_ws p)) eqn:Ho.
  - by rewrite decide_True.
  - by rewrite decide_False.
Qed.

Lemma grid_on_close_other_rooms w ws k :
  roomCode_of w ws ≠ Some k →
  rooms (GridServer.on_close w ws).1 !! k = rooms w !! k.
Proof.
  intros Hk. unfold GridServer.on_close.
  destruct (roomCode_of w ws) as [k'|]; [|done].
  assert (k' ≠ k) by congruence.
  repeat case_match; cbn; try done.
  - by rewrite lookup_delete_ne.
  - by rewrite lookup_insert_ne.
  - by rewrite lookup_delete_ne.
Qed.

Lemma serverjs_on_close_other_rooms w ws k :
  roomCode_of w ws ≠ Some k →
  rooms (ServerJs.on_close w ws).1 !! k = rooms w !! k.
Proof.
  intros Hk. unfold ServerJs.on_close.
  destruct (roomCode_of w ws) as [k'|]; [|done].
  assert (k' ≠ k) by congruence.
  repeat case_match; cbn; try done.
  - by rewrite lookup_delete_ne.
  - by rewrite lookup_insert_ne.
  - by rewrite lookup_delete_ne.
Qed.

Lemma host_close_spec w ws k r :
  roomCode_of w ws = Some k →
  k ≠ "" →
  rooms w !! k = Some r →
  hostWs r = Some ws →
  GridServer.on_close w ws
  = (set_rooms (delete k (rooms w)) w,
     map (fun p => (player_ws p, room_closed)) (players r))
  ∧ ServerJs.on_close w ws
    = (set_rooms (delete k (rooms w)) w,
       map (fun p => (player_ws p, room_closed))
           (filter (fun p => readyState_open w (player_ws p) = true) (players r))).
Proof.
  intros Hk Hne Hr Hh. apply truthy_VStr in Hne.
  unfold GridServer.on_close, ServerJs.on_close.
  rewrite Hk, Hne, Hr. cbn [negb]. rewrite bool_decide_eq_true_2 by done.
  by rewrite notify_closed_grid, notify_closed_serverjs.
Qed.

(** The failing run of C6: socket 1 is the host reference of room [K7PQ]
    and of the room [AHSH] it created afterwards.  When it closes, none of
    the five players of [K7PQ] is sent anything and [K7PQ] stays in the
    store, in both servers. *)
Lemma C6_first_room_outlives_its_host :
  (hostWs <$> rooms grid_two_rooms !! "K7PQ") = Some (Some 1)
  ∧ (∃ w', run_grid 0 grid_two_rooms [Close 1] = Some (w', [])
           ∧ ((length ∘ players) <$> rooms w' !! "K7PQ") = Some 5)
  ∧ (hostWs <$> rooms serverjs_two_rooms !! "K7PQ") = Some (Some 1)
  ∧ (∃ w', run_serverjs 0 serverjs_two_rooms [Close 1] = Some (w', [])
           ∧ ((length ∘ players) <$> rooms w' !! "K7PQ") = Some 5).
Proof.
  split; [vm_compute; reflexivity|]. split.
  { destruct (run_grid 0 grid_two_rooms [Close 1]) as [[w' out]|] eqn:Hrun;
      [|by vm_compute in Hrun].
    assert (out = []) as -> by (revert Hrun; vm_compute; by intros [= _ <-]).
    exists w'. split; [done|]. revert Hrun. vm_compute. intros [= <-]. reflexivity. }
  split; [vm_compute; reflexivity|].
  destruct (run_serverjs 0 serverjs_two_rooms [Close 1]) as [[w' out]|] eqn:Hrun;
    [|by vm_compute in Hrun].
  assert (out = []) as -> by (revert Hrun; vm_compute; by intros [= _ <-]).
  exists w'. split; [done|]. revert Hrun. vm_compute. intros [= <-]. reflexivity.
Qed.

(** C6 holds of a host that is still bound to its room, and fails once it
    has been rebound.  Let socket [ws] be the host reference of the room
    stored under [k].  If [ws] is bound to that room when it closes
    ([ws.roomCode] is [k]), every player of the room is sent [room_closed]
    (server.js: every player whose socket is open), the room is removed from
    the store and the other rooms are untouched.  If [ws] is bound to
    another room or to none, which is what a later [create_room] or
    [join_room] of the host leaves behind, the close handler does not look
    at the room: it stays in the store exactly as it was, hosted by a socket
    that is gone, and its players are not told. *)
Theorem C6_host_close w ws k r :
  rooms w !! k = Some r →
  hostWs r = Some ws →
  k ≠ "" →
  (roomCode_of w ws = Some k →
   GridServer.on_close w ws
   = (set_rooms (delete k (rooms w)) w,
      map (fun p => (player_ws p, room_closed)) (players r))
   ∧ ServerJs.on_close w ws
     = (set_rooms (delete k (rooms w)) w,
        map (fun p => (player_ws p, room_closed))
            (filter (fun p => readyState_open w (player_ws p) = true) (players r)))
   ∧ rooms (set_rooms (delete k (rooms w)) w) !! k = None
   ∧ ∀ k', k' ≠ k → rooms (set_rooms (delete k (rooms w)) w) !! k' = rooms w !! k')
  ∧ (roomCode_of w ws ≠ Some k →
     rooms (GridServer.on_close w ws).1 !! k = Some r
     ∧ rooms (ServerJs.on_close w ws).1 !! k = Some r
     ∧ (roomCode_of w ws = None →
        GridServer.on_close w ws = (w, []) ∧ ServerJs.on_close w ws = (w, []))).
Proof.
  intros Hr Hh Hne. split.
  - intros Hk. destruct (host_close_spec w ws k r Hk Hne Hr Hh) as [-> ->].
    split; [done|]. split; [done|]. cbn. split; [apply lookup_delete_eq|].
    intros k' Hk'. by apply lookup_delete_ne.
  - intros Hk.
    rewrite (grid_on_close_other_rooms w ws k Hk),
            (serverjs_on_close_other_rooms w ws k Hk).
    split; [done|]. split; [done|].
    intros Hnone. unfold GridServer.on_close, ServerJs.on_close. by rewrite Hnone.
Qed.

(** The host of the five-player room [K7PQ] disconnects: five
    notifications, one per player, and the room is gone.  After the same
    host has created a second room, [AHSH], its disconnection leaves [K7PQ]
    in the store with its five players. *)
Lemma C6_host_close_witness :
  (GridServer.on_close (set_readyState 1 false grid_five) 1).2
  = [(2, room_closed); (3, room_closed); (4, room_closed); (5, room_closed);
     (6, room_closed)]
  ∧ (ServerJs.on_close (set_readyState 1 false serverjs_five) 1).2
    = [(2, room_closed); (3, room_closed); (4, room_closed); (5, room_closed);
       (6, room_closed)]
  ∧ rooms (GridServer.on_close (set_readyState 1 false grid_five) 1).1 !! "K7PQ" = None
  ∧ rooms (ServerJs.on_close (set_readyState 1 false serverjs_five) 1).1 !! "K7PQ" = None
  ∧ rooms (GridServer.on_close (set_readyState 1 false grid_two_rooms) 1).1 !! "K7PQ"
    = Some (room_K7PQ grid_two_rooms)
  ∧ rooms (ServerJs.on_close (set_readyState 1 false serverjs_two_rooms) 1).1 !! "K7PQ"
    = Some (room_K7PQ serverjs_two_rooms)
  ∧ length (players (room_K7PQ grid_two_rooms)) = 5.
Proof.
  assert (rooms (set_readyState 1 false grid_five) !! "K7PQ"
          = Some (room_K7PQ grid_five)) as Hr by (vm_compute; reflexivity).
  assert (rooms (set_readyState 1 false serverjs_five) !! "K7PQ"
          = Some (room_K7PQ serverjs_five)) as Hr' by (vm_compute; reflexivity).
  assert (hostWs (room_K7PQ grid_five) = Some 1) as Hh by (vm_compute; reflexivity).
  assert (hostWs (room_K7PQ serverjs_five) = Some 1) as Hh'
    by (vm_compute; reflexivity).
  assert (rooms (set_readyState 1 false grid_two_rooms) !! "K7PQ"
          = Some (room_K7PQ grid_two_rooms)) as Hr2 by (vm_compute; reflexivity).
  assert (rooms (set_readyState 1 false serverjs_two_rooms) !! "K7PQ"
          = Some (room_K7PQ serverjs_two_rooms)) as Hr2' by (vm_compute; reflexivity).
  assert (hostWs (room_K7PQ grid_two_rooms) = Some 1) as Hh2
    by (vm_compute; reflexivity).
  assert (hostWs (room_K7PQ serverjs_two_rooms) = Some 1) as Hh2'
    by (vm_compute; reflexivity).
  assert (roomCode_of (set_readyState 1 false grid_two_rooms) 1 ≠ Some "K7PQ") as Hk2
    by (vm_compute; discriminate).
  assert (roomCode_of (set_readyState 1 false serverjs_two_rooms) 1 ≠ Some "K7PQ")
    as Hk2' by (vm_compute; discriminate).
  assert ("K7PQ" ≠ "") as Hne by discriminate.
  destruct (proj1 (C6_host_close _ 1 "K7PQ" _ Hr Hh Hne) eq_refl)
    as (Hg & _ & Hgone & _).
  destruct (proj1 (C6_host_close _ 1 "K7PQ" _ Hr' Hh' Hne) eq_refl)
    as (_ & Hs & Hgone' & _).
  destruct (proj2 (C6_host_close _ 1 "K7PQ" _ Hr2 Hh2 Hne) Hk2) as (Hstays & _).
  destruct (proj2 (C6_host_close _ 1 "K7PQ" _ Hr2' Hh2' Hne) Hk2') as (_ & Hstays' & _).
  rewrite Hg, Hs. cbn [fst snd].
  split; [vm_compute; reflexivity|]. split; [vm_compute; reflexivity|].
  split; [exact Hgone|]. split; [exact Hgone'|].
  split; [exact Hstays|]. split; [exact Hstays'|]. vm_compute. reflexivity.
Defined.

(** ** Creating a room *)

Lemma roomCode_of_bind_socket w ws c ro :
  is_Some (sockets w !! ws) → roomCode_of (bind_socket ws c ro w) ws = Some c.
Proof.
  intros [s Hs]. unfold roomCode_of, bind_socket. cbn.
  rewrite lookup_alter_eq, Hs. reflexivity.
Qed.

Lemma create_room_spec send fuel w ws w' out :
  create_room send fuel w ws = Returns w' out →
  ∃ m, m ≤ fuel
       ∧ rooms w !! candidate w m = None
       ∧ String.length (candidate w m) = 4
       ∧ rooms w' = <[candidate w m := set_hostWs (Some ws) (new_room (candidate w m))]>
                      (rooms w)
       ∧ sockets w'
         = alter (fun s => Socket (Some (candidate w m)) (Some host) (isAlive s) (is_open s))
                 ws (sockets w)
       ∧ out = send w' ws (room_created (candidate w m)).
Proof.
  unfold create_room. destruct (createRoom fuel w) as [[r w1]|] eqn:Hcr; [|done].
  apply createRoom_spec in Hcr as (m & Hm & -> & Hfree & _ & ->).
  intros [= <- <-]. exists m. split; [done|]. split; [done|].
  split; [apply makeCode_spec|]. cbn. rewrite insert_insert_eq. done.
Qed.

Lemma create_room_terminates send w ws n :
  rooms w !! candidate w n = None →
  ∃ w' out, create_room send n w ws = Returns w' out.
Proof.
  intros Hfree. unfold create_room.
  destruct (createRoom_terminates w n Hfree) as [[r w1] ->]. eauto.
Qed.

(** C10: [create_room] has no guard.  Sent by a socket that is already the
    host of the room it is bound to, it creates a room as soon as an unused
    candidate code is drawn, and it never answers with an error: it either
    is still resampling or returns.  Whenever it returns, the reply is
    [room_created] with a new code, the socket is rebound to the new room,
    the new room has it as host, and the earlier room is still in the store,
    unchanged, with its host reference still this socket.  Closing the socket
    then deletes the new room only, and in general a close never touches a
    room other than the one the socket is bound to.  Both servers. *)
Theorem C10_create_room_again fuel w ws f k0 r0 :
  type f = VStr "create_room" →
  roomCode_of w ws = Some k0 →
  rooms w !! k0 = Some r0 →
  hostWs r0 = Some ws →
  (∀ n, rooms w !! candidate w n = None →
        (∃ w' out, GridServer.on_message n w ws f = Returns w' out)
        ∧ (∃ w' out, ServerJs.on_message n w ws f = Returns w' out))
  ∧ (GridServer.on_message fuel w ws f = OutOfFuel
     ∨ ∃ w' k1, GridServer.on_message fuel w ws f = Returns w' [(ws, room_created k1)])
  ∧ (ServerJs.on_message fuel w ws f = OutOfFuel
     ∨ ∃ w' k1, ServerJs.on_message fuel w ws f
                = Returns w' (if readyState_open w' ws
                              then [(ws, room_created k1)] else []))
  ∧ (∀ w' out,
       GridServer.on_message fuel w ws f = Returns w' out
       ∨ ServerJs.on_message fuel w ws f = Returns w' out →
       ∃ k1,
         k1 ≠ k0
         ∧ (∀ d, d ∈ out → d = (ws, room_created k1))
         ∧ roomCode_of w' ws = Some k1
         ∧ rooms w' !! k1 = Some (set_hostWs (Some ws) (new_room k1))
         ∧ rooms w' !! k0 = Some r0
         ∧ GridServer.on_close w' ws = (set_rooms (delete k1 (rooms w')) w', [])
         ∧ ServerJs.on_close w' ws = (set_rooms (delete k1 (rooms w')) w', [])
         ∧ delete k1 (rooms w') !! k0 = Some r0)
  ∧ (∀ w2 k, roomCode_of w2 ws ≠ Some k →
             rooms (GridServer.on_close w2 ws).1 !! k = rooms w2 !! k
             ∧ rooms (ServerJs.on_close w2 ws).1 !! k = rooms w2 !! k).
Proof.
  intros Ht Hk0 Hr0 Hh0.
  assert (∀ n, GridServer.on_message n w ws f = create_room GridServer.send n w ws) as Hg.
  { intros n. unfold GridServer.on_message. by rewrite Ht. }
  assert (∀ n, ServerJs.on_message n w ws f = create_room ServerJs.send n w ws) as Hs.
  { intros n. unfold ServerJs.on_message. by rewrite Ht. }
  split; [|split; [|split; [|split]]].
  - intros n Hfree. rewrite Hg, Hs. split; by apply create_room_terminates.
  - rewrite Hg. unfold create_room, GridServer.send.
    destruct (createRoom fuel w) as [[r w1]|]; [right; eauto|by left].
  - rewrite Hs. unfold create_room, ServerJs.send.
    destruct (createRoom fuel w) as [[r w1]|]; [right; eauto|by left].
  - intros w' out Hrun.
    assert (∃ send, create_room send fuel w ws = Returns w' out
                    ∧ ∀ v m d, d ∈ send v ws m → d = (ws, m)) as (send & Hcr & Hsend).
    { destruct Hrun as [Hrun|Hrun].
      - exists GridServer.send. rewrite <- Hg. split; [done|].
        intros v m d Hd. unfold GridServer.send in Hd. by apply list_elem_of_singleton in Hd.
      - exists ServerJs.send. rewrite <- Hs. split; [done|].
        intros v m d Hd. unfold ServerJs.send in Hd.
        destruct (readyState_open v ws); [by apply list_elem_of_singleton in Hd|].
        inversion Hd. }
    apply create_room_spec in Hcr as (m & _ & Hfree & Hlen & Hrooms & Hsock & ->).
    set (k1 := candidate w m) in *.
    assert (k1 ≠ k0) as Hne by congruence.
    assert (k1 ≠ "") as Hne' by (intros E; rewrite E in Hlen; done).
    assert (roomCode_of w' ws = Some k1) as Hk1.
    { unfold roomCode_of in *. rewrite Hsock, lookup_alter_eq.
      destruct (sockets w !! ws); [done|]. done. }
    assert (rooms w' !! k1 = Some (set_hostWs (Some ws) (new_room k1))) as Hr1.
    { by rewrite Hrooms, lookup_insert_eq. }
    exists k1. split; [done|]. split; [intros d Hd; by apply Hsend in Hd|].
    split; [done|]. split; [done|].
    split; [by rewrite Hrooms, lookup_insert_ne|].
    destruct (host_close_spec w' ws k1 _ Hk1 Hne' Hr1 eq_refl) as (-> & ->).
    split; [done|]. split; [done|].
    by rewrite lookup_delete_ne, Hrooms, lookup_insert_ne.
  - intros w2 k Hk. split.
    + by apply grid_on_close_other_rooms.
    + by apply serverjs_on_close_other_rooms.
Qed.

(** The host of the five-player room [K7PQ] creates a second room and
    then disconnects. *)
Lemma C10_create_room_again_witness :
  ∃ w',
    GridServer.on_message 0 grid_five 1 create_room_frame
    = Returns w' [(1, room_created "AHSH")]
    ∧ roomCode_of w' 1 = Some "AHSH"
    ∧ rooms w' !! "K7PQ" = Some (room_K7PQ grid_five)
    ∧ hostWs (room_K7PQ grid_five) = Some 1
    ∧ rooms (GridServer.on_close w' 1).1 !! "AHSH" = None
    ∧ rooms (GridServer.on_close w' 1).1 !! "K7PQ" = Some (room_K7PQ grid_five).
Proof.
  assert (roomCode_of grid_five 1 = Some "K7PQ") as H1 by (vm_compute; reflexivity).
  assert (rooms grid_five !! "K7PQ" = Some (room_K7PQ grid_five)) as H2
    by (vm_compute; reflexivity).
  assert (hostWs (room_K7PQ grid_five) = Some 1) as H3 by (vm_compute; reflexivity).
  assert (rooms grid_five !! candidate grid_five 0 = None) as H4
    by (vm_compute; reflexivity).
  assert (sent_of (GridServer.on_message 0 grid_five 1 create_room_frame)
          = [(1, room_created "AHSH")]) as Hout by (vm_compute; reflexivity).
  assert (roomCode_of
            (world_of (GridServer.on_message 0 grid_five 1 create_room_frame) grid_five) 1
          = Some "AHSH") as Hcode by (vm_compute; reflexivity).
  pose proof (C10_create_room_again 0 grid_five 1 create_room_frame "K7PQ"
                (room_K7PQ grid_five) eq_refl H1 H2 H3) as (Hterm & _ & _ & Hspec & _).
  destruct (Hterm 0 H4) as [(w' & out & Hrun) _].
  destruct (Hspec w' out (or_introl Hrun))
    as (k1 & _ & _ & Hk1 & _ & Hr0 & Hclose & _ & Hkeep).
  rewrite Hrun in Hout, Hcode. cbn [sent_of world_of] in Hout, Hcode.
  rewrite Hk1 in Hcode. injection Hcode as ->. rewrite Hout in Hrun.
  exists w'. rewrite Hclose. cbn [fst set_rooms rooms].
  split; [exact Hrun|]. split; [exact Hk1|]. split; [exact Hr0|].
  split; [exact H3|]. split; [apply lookup_delete_eq|exact Hkeep].
Defined.

(** ** What the room's references point at *)

Lemma grid_vote_records w ws f k r :
  room_of_socket w ws = Some (k, r) →
  state r = Voting →
  truthy (field "targetId" f) = true →
  ∃ r', rooms (world_of (GridServer.vote w ws f) w) !! k = Some r'
        ∧ votes r' = obj_set (ws_id ws) (field "targetId" f) (votes r)
        ∧ players r' = players r.
Proof.
  intros Hr Hst Ht. unfold GridServer.vote. rewrite Hr, Ht.
  rewrite bool_decide_eq_true_2 by done. cbn [negb].
  repeat case_match; cbn [world_of]; rewrite rooms_put_room, lookup_insert_eq;
    eexists; (split; [reflexivity|]); done.
Qed.

Lemma serverjs_vote_records w ws f k r :
  room_of_socket w ws = Some (k, r) →
  state r = Voting →
  ∃ r', rooms (world_of (ServerJs.vote w ws f) w) !! k = Some r'
        ∧ votes r' = obj_set (ws_id ws) (field "targetId" f) (votes r)
        ∧ players r' = players r.
Proof.
  intros Hr Hst. unfold ServerJs.vote. rewrite Hr.
  rewrite bool_decide_eq_true_2 by done. cbn [negb].
  repeat case_match; cbn [world_of]; rewrite rooms_put_room, lookup_insert_eq;
    eexists; (split; [reflexivity|]); done.
Qed.

Lemma grid_accuse_records w ws f k r :
  room_of_socket w ws = Some (k, r) →
  state r = Accusation →
  truthy (field "accusedId" f) = true →
  ∃ r', rooms (world_of (GridServer.accuse w ws f) w) !! k = Some r'
        ∧ accusations r'
          = accusations r ++ [Accuse (ws_id ws) (field "accusedId" f)]
        ∧ players r' = players r.
Proof.
  intros Hr Hst Ht. unfold GridServer.accuse. rewrite Hr, Ht.
  rewrite bool_decide_eq_true_2 by done. cbn [negb world_of].
  rewrite rooms_put_room, lookup_insert_eq. eexists. split; [reflexivity|]. done.
Qed.

Lemma grid_start_sets_chameleon w ws k r w' out :
  room_of_socket w ws = Some (k, r) →
  hostWs r = Some ws →
  minPlayers r ≤ length (players r) →
  GridServer.host_start_game w ws = Returns w' out →
  ∃ r' p, rooms w' !! k = Some r'
          ∧ p ∈ players r' ∧ chameleonId r' = VStr (player_id p)
          ∧ hints r' = [] ∧ votes r' = [] ∧ accusations r' = []
          ∧ players r' = players r ∧ state r' = Hint.
Proof.
  intros Hr Hh Hmin. unfold GridServer.host_start_game. rewrite Hr.
  rewrite bool_decide_eq_true_2 by done. cbn [negb].
  apply Nat.ltb_ge in Hmin. rewrite Hmin.
  destruct (start_draws w r) as [[[ci i] j] ix].
  destruct (players r !! ix) as [ch|] eqn:Hch; [|done].
  destruct (CATEGORIES !! ci) as [cat|]; [|done].
  intros [= <- <-]. rewrite rooms_put_room, lookup_insert_eq.
  eexists _, ch. split; [reflexivity|]. cbn.
  split; [by eapply list_elem_of_lookup_2|]. done.
Qed.

Lemma serverjs_start_sets_chameleon w ws k r w' out :
  room_of_socket w ws = Some (k, r) →
  hostWs r = Some ws →
  minPlayers r ≤ length (players r) →
  ServerJs.host_start_game w ws = Returns w' out →
  ∃ r' p, rooms w' !! k = Some r'
          ∧ p ∈ players r' ∧ chameleonId r' = VStr (player_id p)
          ∧ hints r' = [] ∧ votes r' = [] ∧ accusations r' = []
          ∧ players r' = players r ∧ state r' = Hint.
Proof.
  intros Hr Hh Hmin. unfold ServerJs.host_start_game. rewrite Hr.
  rewrite bool_decide_eq_true_2 by done. cbn [negb].
  apply Nat.ltb_ge in Hmin. rewrite Hmin.
  destruct (start_draws w r) as [[[ci i] j] ix].
  destruct (CATEGORIES !! ci) as [cat|]; [|done].
  destruct (players r !! ix) as [ch|] eqn:Hch; [|done].
  destruct (negb (renders _)); [done|].
  intros [= <- <-]. rewrite rooms_put_room, lookup_insert_eq.
  eexists _, ch. split; [reflexivity|]. cbn.
  split; [by eapply list_elem_of_lookup_2|]. done.
Qed.

Lemma obj_get_set_eq {V} k (v : V) o : obj_get k (obj_set k v o) = Some v.
Proof.
  induction o as [|[k' v'] o IH]; cbn; [by rewrite String.eqb_refl|].
  destruct (String.eqb_spec k k') as [->|Hne]; cbn.
  - by rewrite String.eqb_refl.
  - by destruct (String.eqb_spec k k').
Qed.

Lemma grid_on_close_player w ws k r r' :
  roomCode_of w ws = Some k →
  k ≠ "" →
  rooms w !! k = Some r →
  hostWs r ≠ Some ws →
  rooms (GridServer.on_close w ws).1 !! k = Some r' →
  r' = set_players (filter (fun p => player_id p ≠ ws_id ws) (players r)) r.
Proof.
  intros Hk Hne Hr Hh. apply truthy_VStr in Hne.
  unfold GridServer.on_close. rewrite Hk, Hne. cbn [negb].
  rewrite Hr, bool_decide_eq_false_2 by done.
  destruct (negb _); cbn.
  - rewrite lookup_insert_eq. congruence.
  - by rewrite lookup_delete_eq.
Qed.

Lemma serverjs_on_close_player w ws k r r' :
  roomCode_of w ws = Some k →
  k ≠ "" →
  rooms w !! k = Some r →
  hostWs r ≠ Some ws →
  rooms (ServerJs.on_close w ws).1 !! k = Some r' →
  r' = set_players (filter (fun p => player_id p ≠ ws_id ws) (players r)) r.
Proof.
  intros Hk Hne Hr Hh. apply truthy_VStr in Hne.
  unfold ServerJs.on_close. rewrite Hk, Hne. cbn [negb].
  rewrite Hr, bool_decide_eq_false_2 by done.
  destruct (negb _); cbn.
  - rewrite lookup_insert_eq. congruence.
  - by rewrite lookup_delete_eq.
Qed.

(** C7, as stated, fails, in runs from start-up.  Dee's vote for "nobody",
    which is no player's identity, is recorded (both servers); and when Ben,
    the chameleon, disconnects during the hint phase, chameleonId still says
    p3 although p3 is no longer among the players. *)
Lemma C7_references_to_non_players :
  references
    (room_K7PQ (after (run_grid 0 grid_last_vote [Receive 5 (vote_frame "nobody")])
                      grid_last_vote))
  = (VStr "p3", ["p2"; "p3"; "p4"; "p5"], ["p2"; "p3"; "p4"; "p5"],
     [VStr "p3"; VStr "p2"; VStr "p3"; VStr "nobody"], ["p2"; "p3"; "p4"; "p5"])
  ∧ references
      (room_K7PQ (after (run_serverjs 0 serverjs_last_vote
                           [Receive 5 (vote_frame "nobody")])
                        serverjs_last_vote))
    = (VStr "p3", ["p2"; "p3"; "p4"; "p5"], ["p2"; "p3"; "p4"; "p5"],
       [VStr "p3"; VStr "p2"; VStr "p3"; VStr "nobody"], ["p2"; "p3"; "p4"; "p5"])
  ∧ references (room_K7PQ (after (run_grid 0 grid_hint_phase [Close 3]) grid_hint_phase))
    = (VStr "p3", [], [], [], ["p2"; "p4"; "p5"]).
Proof. vm_compute. repeat split; reflexivity. Qed.

(** C7 (amended): a successful [host_start_game] sets chameleonId to the
    identity of a player of the room and empties hints, votes and
    accusations.  After that the references are stored as received and not
    checked again: a vote in the voting phase sets [votes[sender]] to the
    targetId supplied (any truthy value in the grid version, any value in
    server.js), an accusation appends the accusedId supplied, and when a
    socket that is not the room's host disconnects, only the players list changes:
    chameleonId, hints, votes and accusations stay as they are. *)
Theorem C7_references_as_received w ws f k r :
  room_of_socket w ws = Some (k, r) →
  (hostWs r = Some ws → minPlayers r ≤ length (players r) →
   ∀ w' out,
     GridServer.host_start_game w ws = Returns w' out
     ∨ ServerJs.host_start_game w ws = Returns w' out →
     ∃ r' p, rooms w' !! k = Some r'
             ∧ p ∈ players r' ∧ chameleonId r' = VStr (player_id p)
             ∧ hints r' = [] ∧ votes r' = [] ∧ accusations r' = [])
  ∧ (state r = Voting →
     (truthy (field "targetId" f) = true →
      ∃ r', rooms (world_of (GridServer.vote w ws f) w) !! k = Some r'
            ∧ obj_get (ws_id ws) (votes r') = Some (field "targetId" f)
            ∧ votes r' = obj_set (ws_id ws) (field "targetId" f) (votes r))
     ∧ (∃ r', rooms (world_of (ServerJs.vote w ws f) w) !! k = Some r'
              ∧ obj_get (ws_id ws) (votes r') = Some (field "targetId" f)
              ∧ votes r' = obj_set (ws_id ws) (field "targetId" f) (votes r)))
  ∧ (state r = Accusation → truthy (field "accusedId" f) = true →
     ∃ r', rooms (world_of (GridServer.accuse w ws f) w) !! k = Some r'
           ∧ accusations r'
             = accusations r ++ [Accuse (ws_id ws) (field "accusedId" f)])
  ∧ (hostWs r ≠ Some ws → k ≠ "" →
     ∀ r', rooms (GridServer.on_close w ws).1 !! k = Some r'
           ∨ rooms (ServerJs.on_close w ws).1 !! k = Some r' →
           players r' = filter (fun p => player_id p ≠ ws_id ws) (players r)
           ∧ chameleonId r' = chameleonId r ∧ hints r' = hints r
           ∧ votes r' = votes r ∧ accusations r' = accusations r).
Proof.
  intros Hr. pose proof (proj1 (room_of_socket_Some _ _ _ _) Hr) as [Hk Hr0].
  split; [|split; [|split]].
  - intros Hh Hmin w' out [Hrun|Hrun].
    + destruct (grid_start_sets_chameleon _ _ _ _ _ _ Hr Hh Hmin Hrun)
        as (r' & p & ? & ? & ? & ? & ? & ? & _). eauto 10.
    + destruct (serverjs_start_sets_chameleon _ _ _ _ _ _ Hr Hh Hmin Hrun)
        as (r' & p & ? & ? & ? & ? & ? & ? & _). eauto 10.
  - intros Hst. split.
    + intros Ht. destruct (grid_vote_records w ws f k r Hr Hst Ht) as (r' & ? & Hv & _).
      exists r'. rewrite Hv, obj_get_set_eq. done.
    + destruct (serverjs_vote_records w ws f k r Hr Hst) as (r' & ? & Hv & _).
      exists r'. rewrite Hv, obj_get_set_eq. done.
  - intros Hst Ht. destruct (grid_accuse_records w ws f k r Hr Hst Ht) as (r' & ? & ? & _).
    eauto.
  - intros Hh Hne r' [Hc|Hc].
    + by rewrite (grid_on_close_player _ _ _ _ _ Hk Hne Hr0 Hh Hc).
    + by rewrite (serverjs_on_close_player _ _ _ _ _ Hk Hne Hr0 Hh Hc).
Qed.

(** Dee (socket 5) votes for "nobody" in the grid version. *)
Lemma C7_references_as_received_witness :
  ∃ r', rooms (world_of (GridServer.vote grid_last_vote 5 (vote_frame "nobody"))
                        grid_last_vote) !! "K7PQ" = Some r'
        ∧ obj_get (ws_id 5) (votes r') = Some (VStr "nobody").
Proof.
  assert (room_of_socket grid_last_vote 5 = Some ("K7PQ", room_K7PQ grid_last_vote))
    as Hr by (vm_compute; reflexivity).
  assert (state (room_K7PQ grid_last_vote) = Voting) as Hst by (vm_compute; reflexivity).
  pose proof (C7_references_as_received grid_last_vote 5 (vote_frame "nobody")
                "K7PQ" _ Hr) as (_ & Hvote & _).
  destruct (Hvote Hst) as [Hgrid _].
  destruct (Hgrid eq_refl) as (r' & Hr' & Hget & _).
  exists r'. split; [exact Hr'|exact Hget].
Defined.

(** ** The tally *)

Lemma obj_get_set_ne {V} k k' (v : V) o :
  k ≠ k' → obj_get k' (obj_set k v o) = obj_get k' o.
Proof.
  intros Hne. induction o as [|[k0 v0] o IH]; cbn.
  - destruct (String.eqb_spec k' k); congruence.
  - destruct (String.eqb_spec k k0) as [->|Hk]; cbn.
    + by destruct (String.eqb_spec k' k0); [congruence|].
    + by destruct (String.eqb_spec k' k0).
Qed.

Lemma obj_get_None {V} k (o : obj V) : obj_get k o = None ↔ k ∉ keys o.
Proof.
  unfold keys. induction o as [|[k0 v0] o IH]; cbn.
  - split; [intros _ H; inversion H|done].
  - rewrite not_elem_of_cons. destruct (String.eqb_spec k k0) as [->|Hne].
    + split; [done|]. intros [Hk _]. done.
    + rewrite IH. split; [done|]. by intros [_ Hk].
Qed.

Lemma obj_get_Some {V} k (v : V) o :
  NoDup (keys o) → obj_get k o = Some v ↔ (k, v) ∈ o.
Proof.
  unfold keys. induction o as [|[k0 v0] o IH]; cbn; intros Hnd.
  - split; [done|intros H; inversion H].
  - apply NoDup_cons in Hnd as [Hk0 Hnd]. rewrite elem_of_cons.
    destruct (String.eqb_spec k k0) as [->|Hne].
    + split; [intros [= ->]; by left|]. intros [[= ->]|Hin]; [done|].
      exfalso. apply Hk0. apply list_elem_of_fmap. by exists (k0, v).
    + rewrite (IH Hnd). split; [by right|]. intros [[= -> ->]|Hin]; done.
Qed.

Lemma keys_obj_set {V} k (v : V) o :
  keys (obj_set k v o)
  = match obj_get k o with Some _ => keys o | None => keys o ++ [k] end.
Proof.
  unfold keys. induction o as [|[k0 v0] o IH]; cbn; [done|].
  destruct (String.eqb_spec k k0) as [->|Hne]; cbn; [done|].
  rewrite IH. by destruct (obj_get k o).
Qed.

Lemma NoDup_keys_obj_set {V} k (v : V) o :
  NoDup (keys o) → NoDup (keys (obj_set k v o)).
Proof.
  intros Hnd. rewrite keys_obj_set. destruct (obj_get k o) eqn:Hg; [done|].
  apply obj_get_None in Hg. apply NoDup_app. split; [done|].
  split; [|apply NoDup_singleton].
  intros x Hx Hx'. apply list_elem_of_singleton in Hx'. by subst.
Qed.

Lemma tally_step_spec T x :
  NoDup (keys T) →
  (∀ t n, obj_get t T = Some (Count n) → counted t ∧ 0 < n) →
  (∀ t, obj_get t T = Some Junk → ¬ counted t) →
  NoDup (keys (tally_step T x))
  ∧ (∀ t n, obj_get t (tally_step T x) = Some (Count n) → counted t ∧ 0 < n)
  ∧ (∀ t, obj_get t (tally_step T x) = Some Junk → ¬ counted t)
  ∧ ∀ t, counted t →
         count_of (obj_get t (tally_step T x))
         = count_of (obj_get t T) + (if decide (ToString x = t) then 1 else 0).
Proof.
  intros Hnd Hpos Hjunk. unfold tally_step.
  destruct (obj_get (ToString x) T) as [[n|]|] eqn:Hx.
  - destruct (Hpos _ _ Hx) as [Hc Hn].
    split; [by apply NoDup_keys_obj_set|]. split; [|split].
    + intros t m. destruct (decide (ToString x = t)) as [<-|Hne].
      * rewrite obj_get_set_eq. intros [= <-]. split; [done|lia].
      * rewrite obj_get_set_ne by done. apply Hpos.
    + intros t. destruct (decide (ToString x = t)) as [<-|Hne].
      * by rewrite obj_get_set_eq.
      * rewrite obj_get_set_ne by done. apply Hjunk.
    + intros t _. destruct (decide (ToString x = t)) as [<-|Hne].
      * rewrite obj_get_set_eq, Hx. cbn. lia.
      * rewrite obj_get_set_ne by done. lia.
  - pose proof (Hjunk _ Hx) as Hc.
    split; [by apply NoDup_keys_obj_set|]. split; [|split].
    + intros t m. destruct (decide (ToString x = t)) as [<-|Hne].
      * by rewrite obj_get_set_eq.
      * rewrite obj_get_set_ne by done. apply Hpos.
    + intros t. destruct (decide (ToString x = t)) as [<-|Hne].
      * by rewrite obj_get_set_eq.
      * rewrite obj_get_set_ne by done. apply Hjunk.
    + intros t Ht. destruct (decide (ToString x = t)) as [<-|Hne]; [done|].
      rewrite obj_get_set_ne by done. lia.
  - destruct (decide (ToString x ∈ Object_prototype)) as [Hin|Hin].
    + rewrite bool_decide_eq_true_2 by done.
      destruct (String.eqb (ToString x) "__proto__").
      * split; [done|]. split; [done|]. split; [done|].
        intros t Ht. destruct (decide (ToString x = t)) as [<-|Hne]; [done|lia].
      * split; [by apply NoDup_keys_obj_set|]. split; [|split].
        -- intros t m. destruct (decide (ToString x = t)) as [<-|Hne].
           ++ by rewrite obj_get_set_eq.
           ++ rewrite obj_get_set_ne by done. apply Hpos.
        -- intros t. destruct (decide (ToString x = t)) as [<-|Hne].
           ++ rewrite obj_get_set_eq. intros _ Hc. by apply Hc.
           ++ rewrite obj_get_set_ne by done. apply Hjunk.
        -- intros t Ht. destruct (decide (ToString x = t)) as [<-|Hne]; [done|].
           rewrite obj_get_set_ne by done. lia.
    + rewrite bool_decide_eq_false_2 by done.
      split; [by apply NoDup_keys_obj_set|]. split; [|split].
      * intros t m. destruct (decide (ToString x = t)) as [<-|Hne].
        -- rewrite obj_get_set_eq. intros [= <-]. split; [done|lia].
        -- rewrite obj_get_set_ne by done. apply Hpos.
      * intros t. destruct (decide (ToString x = t)) as [<-|Hne].
        -- by rewrite obj_get_set_eq.
        -- rewrite obj_get_set_ne by done. apply Hjunk.
      * intros t _. destruct (decide (ToString x = t)) as [<-|Hne].
        -- rewrite obj_get_set_eq, Hx. cbn. lia.
        -- rewrite obj_get_set_ne by done. lia.
Qed.

(** What the tally loop computes, started from any tally. *)
Lemma tally_fold vs : ∀ T,
  NoDup (keys T) →
  (∀ t n, obj_get t T = Some (Count n) → counted t ∧ 0 < n) →
  (∀ t, obj_get t T = Some Junk → ¬ counted t) →
  NoDup (keys (fold_left tally_step vs T))
  ∧ (∀ t n, obj_get t (fold_left tally_step vs T) = Some (Count n) → counted t ∧ 0 < n)
  ∧ ∀ t, counted t →
         count_of (obj_get t (fold_left tally_step vs T))
         = count_of (obj_get t T) + length (filter (fun x => ToString x = t) vs).
Proof.
  induction vs as [|x vs IH]; intros T Hnd Hpos Hjunk; cbn [fold_left].
  - split; [done|]. split; [done|]. intros t _. cbn. lia.
  - destruct (tally_step_spec T x Hnd Hpos Hjunk) as (Hnd1 & Hpos1 & Hjunk1 & Hcnt1).
    destruct (IH _ Hnd1 Hpos1 Hjunk1) as (Hnd' & Hpos' & Hcnt).
    split; [done|]. split; [done|]. intros t Ht.
    rewrite (Hcnt t Ht), (Hcnt1 t Ht), filter_cons.
    destruct (decide (ToString x = t)); cbn; lia.
Qed.

Lemma tally_of_spec v :
  NoDup (keys (tally_of v))
  ∧ ∀ t n, (t, Count n) ∈ tally_of v ↔ counted t ∧ n = votes_for t v ∧ 0 < n.
Proof.
  destruct (tally_fold (values v) []) as (Hnd & Hpos & Hcnt);
    [apply NoDup_nil_2|done|done|].
  split; [exact Hnd|]. intros t n. rewrite <- (obj_get_Some t (Count n) _ Hnd).
  fold (tally_of v) in *. split.
  - intros Hg. destruct (Hpos _ _ Hg) as [Hc Hn]. specialize (Hcnt t Hc).
    rewrite Hg in Hcnt. cbn in Hcnt. fold (votes_for t v) in Hcnt. done.
  - intros (Hc & -> & Hn). specialize (Hcnt t Hc). cbn in Hcnt.
    fold (votes_for t v) in Hcnt.
    destruct (obj_get t (tally_of v)) as [[m|]|]; cbn in Hcnt; [congruence|lia|lia].
Qed.

(** ** The winners *)

Lemma winners_fold_numeric E : ∀ h W,
  fold_left (fun acc e => compare_count acc (fst e) (snd e)) E (h, W)
  = (h `max` highest_count E,
     (if h <? highest_count E then [] else W)
     ++ map fst (filter (fun e => snd e = h `max` highest_count E) E)).
Proof.
  induction E as [|[i c] E IH]; intros h W; cbn [fold_left highest_count foldr snd fst].
  - rewrite Nat.max_0_r, app_nil_r. by destruct h.
  - fold (highest_count E). unfold compare_count at 2.
    rewrite filter_cons. cbn [snd].
    destruct (h <? c) eqn:Hhc; [|destruct (c =? h) eqn:Hch]; rewrite IH.
    + apply Nat.ltb_lt in Hhc.
      replace (h `max` (c `max` highest_count E)) with (c `max` highest_count E) by lia.
      replace (h <? c `max` highest_count E) with true
        by (symmetry; apply Nat.ltb_lt; lia).
      f_equal. destruct (c <? highest_count E) eqn:Hc.
      * apply Nat.ltb_lt in Hc. rewrite decide_False by lia. done.
      * apply Nat.ltb_ge in Hc. rewrite decide_True by lia. done.
    + apply Nat.eqb_eq in Hch. subst c.
      replace (h `max` (h `max` highest_count E)) with (h `max` highest_count E) by lia.
      destruct (h <? highest_count E) eqn:Hh.
      * apply Nat.ltb_lt in Hh.
        replace (h <? h `max` highest_count E) with true
          by (symmetry; apply Nat.ltb_lt; lia).
        rewrite decide_False by lia. done.
      * apply Nat.ltb_ge in Hh.
        replace (h <? h `max` highest_count E) with false
          by (symmetry; apply Nat.ltb_ge; lia).
        rewrite decide_True by lia. cbn. by rewrite <- app_assoc.
    + apply Nat.ltb_ge in Hhc. apply Nat.eqb_neq in Hch.
      replace (h `max` (c `max` highest_count E)) with (h `max` highest_count E) by lia.
      replace (h <? c `max` highest_count E) with (h <? highest_count E).
      2:{ destruct (h <? highest_count E) eqn:Hh; symmetry.
          - apply Nat.ltb_lt in Hh. apply Nat.ltb_lt. lia.
          - apply Nat.ltb_ge in Hh. apply Nat.ltb_ge. lia. }
      rewrite decide_False by lia. done.
Qed.

(** Entries that are no numbers do not take part. *)
Lemma winners_fold E : ∀ acc,
  fold_left winners_step E acc
  = fold_left (fun acc e => compare_count acc (fst e) (snd e)) (numeric E) acc.
Proof.
  induction E as [|[i [c|]] E IH]; intros acc; cbn; [done|apply IH|apply IH].
Qed.

Lemma winners_of_filter E :
  winners_of E
  = map fst (filter (fun e => snd e = highest_count (numeric E)) (numeric E)).
Proof.
  unfold winners_of. rewrite winners_fold, winners_fold_numeric. cbn.
  by destruct (highest_count (numeric E)).
Qed.

Lemma highest_count_ge E e : e ∈ E → snd e ≤ highest_count E.
Proof.
  induction E as [|e' E IH]; [intros H; inversion H|].
  intros Hin. change (highest_count (e' :: E)) with (snd e' `max` highest_count E).
  apply elem_of_cons in Hin as [->|Hin]; [lia|]. specialize (IH Hin). lia.
Qed.

Lemma highest_count_attained E : E ≠ [] → ∃ e, e ∈ E ∧ snd e = highest_count E.
Proof.
  induction E as [|e E IH]; [done|]. intros _.
  change (highest_count (e :: E)) with (snd e `max` highest_count E).
  destruct E as [|e' E'].
  - exists e. split; [apply elem_of_cons; by left|]. cbn. lia.
  - destruct IH as (e0 & Hin & Heq); [done|].
    destruct (Nat.max_spec (snd e) (highest_count (e' :: E'))) as [[_ ->]|[_ ->]].
    + exists e0. split; [apply elem_of_cons; by right|done].
    + exists e. split; [apply elem_of_cons; by left|done].
Qed.





Lemma elem_of_numeric E t n : (t, n) ∈ numeric E ↔ (t, Count n) ∈ E.
Proof.
  unfold numeric. induction E as [|[i [c|]] E IH]; cbn.
  - split; intros H; inversion H.
  - rewrite !elem_of_cons, IH. split; (intros [[= -> ->]|?]; [by left|by right]).
  - rewrite elem_of_cons, IH. split; [by right|]. by intros [[=]|?].
Qed.

Lemma keys_numeric_sublist E : keys (numeric E) `sublist_of` keys E.
Proof.
  unfold keys, numeric. induction E as [|[i [c|]] E IH]; cbn; by constructor.
Qed.

Lemma winners_in_tally v t : t ∈ winners_of (tally_of v) ↔ top v t.
Proof.
  destruct (tally_of_spec v) as [Hnd Hin].
  rewrite winners_of_filter, list_elem_of_fmap. split.
  - intros ([t' n] & -> & He). apply list_elem_of_filter in He as [Hmax He].
    cbn in *. apply elem_of_numeric, Hin in He as (Hc & -> & Hpos).
    split; [done|]. split; [done|].
    intros u Hu. destruct (decide (votes_for u v = 0)) as [->|Hu0]; [lia|].
    rewrite Hmax. apply (highest_count_ge _ (u, votes_for u v)).
    apply elem_of_numeric, Hin. split; [done|]. split; [done|lia].
  - intros (Hc & Hpos & Hmax). exists (t, votes_for t v).
    assert ((t, votes_for t v) ∈ numeric (tally_of v)) as Ht
      by (by apply elem_of_numeric, Hin).
    split; [done|]. apply list_elem_of_filter. split; [|done]. cbn.
    destruct (highest_count_attained (numeric (tally_of v))) as ([u m] & Hu & Hm).
    { intros E. rewrite E in Ht. inversion Ht. }
    pose proof (highest_count_ge _ _ Ht) as Hge. cbn in *.
    apply elem_of_numeric, Hin in Hu as (Hcu & -> & _). specialize (Hmax u Hcu). lia.
Qed.

Lemma sublist_map {A B} (f : A → B) l1 l2 :
  l1 `sublist_of` l2 → map f l1 `sublist_of` map f l2.
Proof. induction 1; cbn; by constructor. Qed.

Lemma winners_NoDup v : NoDup (winners_of (tally_of v)).
Proof.
  destruct (tally_of_spec v) as [Hnd _]. rewrite winners_of_filter.
  eapply sublist_NoDup; [exact Hnd|].
  etrans; [apply sublist_map, sublist_filter|apply keys_numeric_sublist].
Qed.

Lemma sole_winner_unique v t :
  top v t → (∀ u, top v u → u = t) → sole_winner (winners_of (tally_of v)) = VStr t.
Proof.
  intros Ht Huniq. pose proof (winners_NoDup v) as Hnd.
  apply winners_in_tally in Ht.
  assert (∀ u, u ∈ winners_of (tally_of v) → u = t) as Hall.
  { intros u Hu. apply Huniq. by apply winners_in_tally. }
  destruct (winners_of (tally_of v)) as [|x [|y W]].
  - inversion Ht.
  - cbn. f_equal. apply Hall. apply elem_of_cons. by left.
  - exfalso. apply NoDup_cons in Hnd as [Hx _]. apply Hx.
    rewrite (Hall x), (Hall y); [apply elem_of_cons; by left|..].
    + apply elem_of_cons. right. apply elem_of_cons. by left.
    + apply elem_of_cons. by left.
Qed.

Lemma sole_winner_tie v t u :
  top v t → top v u → t ≠ u → sole_winner (winners_of (tally_of v)) = VNull.
Proof.
  intros Ht Hu Hne. apply winners_in_tally in Ht, Hu.
  destruct (winners_of (tally_of v)) as [|x [|y W]]; [done| |done].
  apply list_elem_of_singleton in Ht, Hu. congruence.
Qed.

(** The decimal digits of a number never start with the letter r. *)
Lemma pretty_N_go_not_r x : ∀ s t,
  s ≠ String "r" t → pretty_N_go x s ≠ String "r" t.
Proof.
  induction (N.lt_wf_0 x) as [x _ IH]. intros s t Hs.
  destruct (decide (x = 0)%N) as [->|Hx]; [by rewrite pretty_N_go_0|].
  rewrite pretty_N_go_step by lia. apply IH; [apply N.div_lt; lia|].
  unfold pretty_N_char. repeat case_match; discriminate.
Qed.

Lemma pretty_nat_not_r (n : nat) t : pretty n ≠ String "r" t.
Proof.
  unfold pretty, pretty_nat, pretty, pretty_N.
  destruct (decide (N.of_nat n = 0)%N); [discriminate|].
  by apply pretty_N_go_not_r.
Qed.

(** An identity [p<n>] is none of the inherited names. *)
Lemma counted_ws_id n : counted (ws_id n).
Proof.
  unfold counted, Object_prototype, ws_id. intros Hin. cbn [String.append] in Hin.
  repeat (apply elem_of_cons in Hin as [Hin|Hin];
          [first [discriminate Hin
                 |injection Hin as Hin; by apply pretty_nat_not_r in Hin]|]).
  inversion Hin.
Qed.



Lemma votes_for_tied u :
  votes_for u votes_tied
  = if decide (u = "p3") then 2 else if decide (u = "p2") then 2 else 0.
Proof.
  unfold votes_for, votes_tied. cbn.
  repeat case_decide; simplify_eq; reflexivity.
Qed.


Lemma top_tied : top votes_tied "p3" ∧ top votes_tied "p2".
Proof.
  assert (votes_for "p3" votes_tied = 2) as H3 by reflexivity.
  assert (votes_for "p2" votes_tied = 2) as H2 by reflexivity.
  split; (split; [apply (counted_ws_id 3) || apply (counted_ws_id 2)|]);
    split; rewrite ?H3, ?H2; try lia;
    intros u _; rewrite votes_for_tied; repeat case_decide; lia.
Qed.


(** ** Resolving the vote *)

Lemma elem_of_values_obj_set {V} k (v : V) o : v ∈ values (obj_set k v o).
Proof.
  induction o as [|[k' v'] o IH]; cbn; [by left|].
  destruct (String.eqb k k'); cbn; [by left|by right].
Qed.

(** A tally that converts every recorded target converts the one just
    recorded. *)
Lemma renders_with_vote ws f r :
  forallb renders (values (votes (with_vote ws f r))) = true →
  renders (field "targetId" f) = true.
Proof.
  intros H. apply (proj1 (forallb_forall _ _) H).
  apply list_elem_of_In, elem_of_values_obj_set.
Qed.

Lemma grid_vote_complete w ws f k r sw :
  room_of_socket w ws = Some (k, r) →
  state r = Voting →
  truthy (field "targetId" f) = true →
  length (keys (votes (with_vote ws f r))) = length (players r) →
  forallb renders (values (votes (with_vote ws f r))) = true →
  secret_word r = Some sw →
  GridServer.vote w ws f
  = let r1 := with_vote ws f r in
    let accused :=
      GridServer.resolve_accused (accusations r) (winners_of (tally_of (votes r1))) in
    if negb (truthy accused) then
      Returns (put_room k (set_state Finished r1) w)
        (broadcast w (clients_of r)
           (round_result
              (Result false (Some "no_consensus") None (chameleonId r) sw None))
         ++ broadcast w (clients_of r)
              (room_update (getPublicRoomState (set_state Finished r1))))
    else if strict_eq accused (chameleonId r) then
      Returns (put_room k (set_state ChameleonGuess r1) w)
        (broadcast w (clients_of r) (chameleon_caught accused (chameleonId r))
         ++ broadcast w (clients_of r)
              (room_update (getPublicRoomState (set_state ChameleonGuess r1))))
    else
      Returns (put_room k (set_state Finished r1) w)
        (broadcast w (clients_of r)
           (round_result
              (Result false (Some "wrong_accusation") (Some accused)
                      (chameleonId r) sw None))
         ++ broadcast w (clients_of r)
              (room_update (getPublicRoomState (set_state Finished r1)))).
Proof.
  intros Hr Hst Ht Hlen Hrd Hsw. unfold GridServer.vote. rewrite Hr, Ht.
  rewrite bool_decide_eq_true_2 by done. cbn [negb].
  fold (with_vote ws f r). change (players (with_vote ws f r)) with (players r).
  rewrite Hlen, Nat.eqb_refl, Hrd. cbn [negb]. cbn zeta.
  change (accusations (with_vote ws f r)) with (accusations r).
  change (secret_word (set_state Reveal (with_vote ws f r))) with (secret_word r).
  change (secret_word (with_vote ws f r)) with (secret_word r).
  change (chameleonId (with_vote ws f r)) with (chameleonId r).
  rewrite Hsw.
  destruct (negb (truthy _)); [reflexivity|].
  destruct (strict_eq _ _); reflexivity.
Qed.

Lemma serverjs_vote_complete w ws f k r sw :
  room_of_socket w ws = Some (k, r) →
  state r = Voting →
  length (keys (votes (with_vote ws f r))) = length (players r) →
  forallb renders (values (votes (with_vote ws f r))) = true →
  secret_word r = Some sw →
  ServerJs.vote w ws f
  = let r1 := with_vote ws f r in
    let accused := sole_winner (winners_of (tally_of (votes r1))) in
    Returns (put_room k (set_state Finished r1) w)
      (broadcast w (clients_of r)
         (round_result
            (Result (strict_eq accused (chameleonId r)) None (Some accused)
                    (chameleonId r) sw None))
       ++ broadcast w (clients_of r)
            (room_update (getPublicRoomState (set_state Finished r1)))).
Proof.
  intros Hr Hst Hlen Hrd Hsw. unfold ServerJs.vote. rewrite Hr.
  rewrite bool_decide_eq_true_2 by done. cbn [negb].
  rewrite (renders_with_vote ws f r Hrd). cbn [negb].
  fold (with_vote ws f r). change (players (with_vote ws f r)) with (players r).
  rewrite Hlen, Nat.eqb_refl, Hrd. cbn [negb]. cbn zeta.
  change (secret_word (with_vote ws f r)) with (secret_word r).
  rewrite Hsw. reflexivity.
Qed.

(** A completing vote in server.js when some recorded target cannot be
    converted: the vote is stored and the callback throws, in the log line
    if the target is the sender's, in the tally if not. *)
Lemma serverjs_vote_complete_throws w ws f k r :
  room_of_socket w ws = Some (k, r) →
  state r = Voting →
  length (keys (votes (with_vote ws f r))) = length (players r) →
  forallb renders (values (votes (with_vote ws f r))) = false →
  ServerJs.vote w ws f = Throws (put_room k (with_vote ws f r) w) [].
Proof.
  intros Hr Hst Hlen Hrd. unfold ServerJs.vote. rewrite Hr.
  rewrite bool_decide_eq_true_2 by done. cbn [negb].
  destruct (renders (field "targetId" f)); cbn [negb]; [|reflexivity].
  fold (with_vote ws f r). change (players (with_vote ws f r)) with (players r).
  rewrite Hlen, Nat.eqb_refl, Hrd. reflexivity.
Qed.

Lemma serverjs_tie_no_consensus w ws f k r sw c t u :
  room_of_socket w ws = Some (k, r) →
  state r = Voting →
  length (keys (votes (with_vote ws f r))) = length (players r) →
  forallb renders (values (votes (with_vote ws f r))) = true →
  secret_word r = Some sw →
  chameleonId r = VStr c →
  top (votes (with_vote ws f r)) t →
  top (votes (with_vote ws f r)) u →
  t ≠ u →
  ServerJs.vote w ws f
  = Returns (put_room k (set_state Finished (with_vote ws f r)) w)
      (broadcast w (clients_of r)
         (round_result (Result false None (Some VNull) (VStr c) sw None))
       ++ broadcast w (clients_of r)
            (room_update (getPublicRoomState (set_state Finished (with_vote ws f r))))).
Proof.
  intros Hr Hst Hlen Hrd Hsw Hc Ht Hu Hne.
  rewrite (serverjs_vote_complete w ws f k r sw Hr Hst Hlen Hrd Hsw). cbn zeta.
  rewrite (sole_winner_tie _ t u Ht Hu Hne), Hc. reflexivity.
Qed.

Lemma grid_tie_without_accusation w ws f k r sw t u :
  room_of_socket w ws = Some (k, r) →
  state r = Voting →
  truthy (field "targetId" f) = true →
  length (keys (votes (with_vote ws f r))) = length (players r) →
  forallb renders (values (votes (with_vote ws f r))) = true →
  secret_word r = Some sw →
  accusations r = [] →
  top (votes (with_vote ws f r)) t →
  top (votes (with_vote ws f r)) u →
  t ≠ u →
  GridServer.vote w ws f
  = Returns (put_room k (set_state Finished (with_vote ws f r)) w)
      (broadcast w (clients_of r)
         (round_result
            (Result false (Some "no_consensus") None (chameleonId r) sw None))
       ++ broadcast w (clients_of r)
            (room_update (getPublicRoomState (set_state Finished (with_vote ws f r))))).
Proof.
  intros Hr Hst Htr Hlen Hrd Hsw Hacc Ht Hu Hne.
  rewrite (grid_vote_complete w ws f k r sw Hr Hst Htr Hlen Hrd Hsw). cbn zeta.
  rewrite Hacc. cbn [GridServer.resolve_accused].
  rewrite (sole_winner_tie _ t u Ht Hu Hne). reflexivity.
Qed.

Lemma serverjs_tie_reachable w ws f k r t u :
  reachable_serverjs w →
  room_of_socket w ws = Some (k, r) →
  state r = Voting →
  length (keys (votes (with_vote ws f r))) = length (players r) →
  top (votes (with_vote ws f r)) t →
  top (votes (with_vote ws f r)) u →
  t ≠ u →
  ∃ c s,
    ServerJs.vote w ws f
    = if forallb renders (values (votes (with_vote ws f r))) then
        Returns (put_room k (set_state Finished (with_vote ws f r)) w)
          (broadcast w (clients_of r)
             (round_result (Result false None (Some VNull) (VStr c) (VStr s) None))
           ++ broadcast w (clients_of r)
                (room_update
                   (getPublicRoomState (set_state Finished (with_vote ws f r)))))
      else Throws (put_room k (with_vote ws f r) w) [].
Proof.
  intros Hw Hr Hst Hlen Ht Hu Hne.
  pose proof (room_of_socket_ok _ _ _ _ _ (reachable_serverjs_ok w Hw) Hr)
    as (_ & _ & _ & _ & _ & Hstarted & _).
  assert (started r) as Hs by (apply Hstarted; congruence).
  destruct (started_secret_word r Hs) as (s & Hsw & _).
  destruct Hs as (_ & _ & _ & c & _ & _ & _ & _ & _ & _ & Hc).
  exists c, s.
  destruct (forallb renders (values (votes (with_vote ws f r)))) eqn:Hrd.
  - exact (serverjs_tie_no_consensus w ws f k r (VStr s) c t u
             Hr Hst Hlen Hrd Hsw Hc Ht Hu Hne).
  - exact (serverjs_vote_complete_throws w ws f k r Hr Hst Hlen Hrd).
Qed.

Lemma reachable_grid_last_vote : reachable_grid grid_last_vote.
Proof. apply reachable_after_run, reachable_boot. Qed.

Lemma reachable_serverjs_last_vote : reachable_serverjs serverjs_last_vote.
Proof. apply reachable_after_run, reachable_boot. Qed.

(** C1 does not hold in the grid version.  There a room is voting only
    after an accusation, and resolution takes the first accusation whatever
    the tally says.  In the run shown, Ann accused Ben (p3, the chameleon) and
    the four votes are tied, p3 and p2 two each: everyone is sent
    [chameleon_caught], no [round_result], the room waits in chameleon_guess,
    and when Ben then guesses wrong the result is success = true.  server.js
    does what the claim says: in every world it can reach, a completed vote
    whose maximum is shared yields the [round_result] with success = false
    and accusedId null (unless a recorded target has no string conversion,
    in which case the callback throws instead of tallying). *)
Theorem C1_tie_overridden_by_accusation :
  (∀ w k r,
     reachable_grid w → rooms w !! k = Some r → state r = Voting →
     ∃ a rest, accusations r = a :: rest
               ∧ ∀ winners,
                   GridServer.resolve_accused (accusations r) winners = accusedId a)
  ∧ (reachable_grid grid_last_vote
     ∧ (votes <$> rooms grid_tie_resolved !! "K7PQ") = Some votes_tied
     ∧ top votes_tied "p3" ∧ top votes_tied "p2"
     ∧ sent_of (GridServer.on_message 0 grid_last_vote 5 (vote_frame "p2"))
       = to_everyone (chameleon_caught (VStr "p3") (VStr "p3"))
         ++ to_everyone (room_update (scenario_public ChameleonGuess))
     ∧ (state <$> rooms grid_tie_resolved !! "K7PQ") = Some ChameleonGuess
     ∧ sent_of (GridServer.on_message 0 grid_tie_resolved 3 (guess_frame "melon"))
       = to_everyone
           (round_result
              (Result true (Some "chameleon_failed") None (VStr "p3") (VStr "Lemon")
                      (Some (VStr "melon"))))
         ++ to_everyone (room_update (scenario_public Finished)))
  ∧ (∀ w ws f k r t u,
       reachable_serverjs w →
       room_of_socket w ws = Some (k, r) →
       state r = Voting →
       length (keys (votes (with_vote ws f r))) = length (players r) →
       top (votes (with_vote ws f r)) t →
       top (votes (with_vote ws f r)) u →
       t ≠ u →
       ∃ c s,
         ServerJs.vote w ws f
         = if forallb renders (values (votes (with_vote ws f r))) then
             Returns (put_room k (set_state Finished (with_vote ws f r)) w)
               (broadcast w (clients_of r)
                  (round_result
                     (Result false None (Some VNull) (VStr c) (VStr s) None))
                ++ broadcast w (clients_of r)
                     (room_update
                        (getPublicRoomState
                           (set_state Finished (with_vote ws f r)))))
           else Throws (put_room k (with_vote ws f r) w) []).
Proof.
  split; [apply grid_voting_has_accusation|]. split; [|apply serverjs_tie_reachable].
  split; [apply reachable_grid_last_vote|].
  split; [vm_compute; reflexivity|].
  split; [apply top_tied|]. split; [apply top_tied|].
  repeat split; vm_compute; reflexivity.
Qed.

(** The tied round of the scenario, in both servers. *)
Lemma C1_tie_overridden_by_accusation_witness :
  (∃ a rest, accusations (room_K7PQ grid_last_vote) = a :: rest
             ∧ GridServer.resolve_accused (accusations (room_K7PQ grid_last_vote))
                 (winners_of (tally_of votes_tied)) = accusedId a)
  ∧ ∃ c s,
      ServerJs.vote serverjs_last_vote 5 (vote_frame "p2")
      = Returns
          (put_room "K7PQ"
             (set_state Finished
                (with_vote 5 (vote_frame "p2") (room_K7PQ serverjs_last_vote)))
             serverjs_last_vote)
          (broadcast serverjs_last_vote (clients_of (room_K7PQ serverjs_last_vote))
             (round_result (Result false None (Some VNull) (VStr c) (VStr s) None))
           ++ broadcast serverjs_last_vote (clients_of (room_K7PQ serverjs_last_vote))
                (room_update
                   (getPublicRoomState
                      (set_state Finished
                         (with_vote 5 (vote_frame "p2")
                            (room_K7PQ serverjs_last_vote)))))).
Proof.
  pose proof C1_tie_overridden_by_accusation as (Hgrid & _ & Hjs).
  assert (rooms grid_last_vote !! "K7PQ" = Some (room_K7PQ grid_last_vote)) as H1
    by (vm_compute; reflexivity).
  assert (state (room_K7PQ grid_last_vote) = Voting) as H2 by (vm_compute; reflexivity).
  assert (room_of_socket serverjs_last_vote 5
          = Some ("K7PQ", room_K7PQ serverjs_last_vote)) as H3
    by (vm_compute; reflexivity).
  assert (state (room_K7PQ serverjs_last_vote) = Voting) as H4
    by (vm_compute; reflexivity).
  assert (votes (with_vote 5 (vote_frame "p2") (room_K7PQ serverjs_last_vote))
          = votes_tied) as H5 by (vm_compute; reflexivity).
  assert (length (keys (votes (with_vote 5 (vote_frame "p2")
                                 (room_K7PQ serverjs_last_vote))))
          = length (players (room_K7PQ serverjs_last_vote))) as H6
    by (vm_compute; reflexivity).
  split.
  - destruct (Hgrid _ _ _ reachable_grid_last_vote H1 H2) as (a & rest & Ha & Hres).
    exists a, rest. split; [exact Ha|apply Hres].
  - assert (forallb renders
              (values (votes (with_vote 5 (vote_frame "p2")
                                (room_K7PQ serverjs_last_vote)))) = true) as H7
      by (vm_compute; reflexivity).
    destruct (Hjs serverjs_last_vote 5 (vote_frame "p2") "K7PQ"
                (room_K7PQ serverjs_last_vote) "p3" "p2"
                reachable_serverjs_last_vote H3 H4 H6) as (c & s & Hrun);
      [rewrite H5; apply top_tied..|discriminate|].
    rewrite H7 in Hrun. exists c, s. exact Hrun.
Defined.

(** ** The chameleon's guess *)

Lemma is_space_lower_char c : is_space (lower_char c) = is_space c.
Proof. destruct c as [[] [] [] [] [] [] [] []]; reflexivity. Qed.

Lemma toLowerCase_trimStart s : toLowerCase (trimStart s) = trimStart (toLowerCase s).
Proof.
  induction s as [|c s IH]; [done|]. cbn [trimStart toLowerCase].
  rewrite is_space_lower_char. by destruct (is_space c).
Qed.

Lemma toLowerCase_trimEnd s : toLowerCase (trimEnd s) = trimEnd (toLowerCase s).
Proof.
  induction s as [|c s IH]; [done|]. cbn [trimEnd toLowerCase].
  rewrite <- IH, is_space_lower_char.
  destruct (trimEnd s); [by destruct (is_space c)|done].
Qed.

Lemma toLowerCase_trim s : toLowerCase (trim s) = trim (toLowerCase s).
Proof. unfold trim. by rewrite toLowerCase_trimEnd, toLowerCase_trimStart. Qed.

(** The words on the cards have no outer white space. *)
Lemma all_words_trimmed s : s ∈ all_words → trim s = s.
Proof.
  intros Hs. revert s Hs. apply Forall_forall.
  apply (bool_decide_unpack _). vm_compute. exact I.
Qed.

Lemma guess_correct_same_word g s :
  trim s = s →
  GridServer.guess_correct (VStr g) (VStr s)
  = Some (if truthy (VStr g) then same_word g s else false).
Proof.
  intros Hs. unfold GridServer.guess_correct, same_word.
  destruct (truthy (VStr g)); cbn [negb]; [|done].
  by rewrite Hs, toLowerCase_trim.
Qed.

Lemma all_words_nonempty s : s ∈ all_words → s ≠ "".
Proof.
  intros Hs. revert s Hs. apply Forall_forall.
  apply (bool_decide_unpack _). vm_compute. exact I.
Qed.

Lemma guess_correct_card_word g s :
  s ∈ all_words →
  GridServer.guess_correct (VStr g) (VStr s) = Some (same_word g s).
Proof.
  intros Hs. rewrite guess_correct_same_word by by apply all_words_trimmed.
  destruct (truthy (VStr g)) eqn:Hg; [done|].
  assert (g = "") as ->.
  { destruct (decide (g = "")) as [|Hne]; [done|].
    apply truthy_VStr in Hne. congruence. }
  unfold same_word. rewrite (all_words_trimmed s Hs).
  apply all_words_nonempty in Hs. destruct s; [done|reflexivity].
Qed.

Lemma strict_eq_VStr a x : strict_eq a (VStr x) = true → a = VStr x.
Proof.
  destruct a; cbn; try done. intros H. by apply String.eqb_eq in H as ->.
Qed.

Lemma truthy_ws_id ws : truthy (VStr (ws_id ws)) = true.
Proof. reflexivity. Qed.

(** C3: when the vote that completes the round resolves to the chameleon
    (accusedId equals chameleonId), everyone is told [chameleon_caught] and
    the room waits in chameleon_guess.  When the chameleon then sends a
    guess, a single [round_result] goes to every open socket of the room
    (players and host) and the room ends in finished: for a string [g],
    success = false, the impostor wins, if [g] equals the secret word up to
    case and outer white space, and success = true, the group wins, if it
    does not; a guess that is missing or falsy is a wrong guess.  A guess
    that is truthy and no string makes the callback throw before it has
    done anything ([guess.toLowerCase] is not a function).  The strings are
    those of the model, of code units below 256, among which [trim] strips
    TAB, LF, VT, FF, CR, SPACE and the no-break space; the vote is one whose
    tally converts every recorded target. *)
Theorem C3_guess_reversal w ws f k r s wc :
  room_of_socket w ws = Some (k, r) →
  state r = Voting →
  truthy (field "targetId" f) = true →
  length (keys (votes (with_vote ws f r))) = length (players r) →
  forallb renders (values (votes (with_vote ws f r))) = true →
  secret_word r = Some (VStr s) →
  s ∈ all_words →
  strict_eq
    (GridServer.resolve_accused (accusations r)
       (winners_of (tally_of (votes (with_vote ws f r)))))
    (chameleonId r) = true →
  chameleonId r = VStr (ws_id wc) →
  roomCode_of w wc = Some k →
  ∃ w1 r1,
    GridServer.vote w ws f
    = Returns w1
        (broadcast w (clients_of r) (chameleon_caught (chameleonId r) (chameleonId r))
         ++ broadcast w (clients_of r) (room_update (getPublicRoomState r1)))
    ∧ rooms w1 !! k = Some r1
    ∧ state r1 = ChameleonGuess
    ∧ (∀ fg,
         let guess := field "guess" fg in
         let over res :=
           Returns (put_room k (set_state Finished r1) w1)
             (broadcast w (clients_of r) (round_result res)
              ++ broadcast w (clients_of r)
                   (room_update (getPublicRoomState (set_state Finished r1)))) in
         (∀ g, guess = VStr g →
               GridServer.chameleon_guess w1 wc fg
               = over (Result (negb (same_word g s))
                         (Some (if same_word g s then "chameleon_guessed"
                                else "chameleon_failed"))
                         None (chameleonId r) (VStr s) (Some guess)))
         ∧ (truthy guess = false →
            GridServer.chameleon_guess w1 wc fg
            = over (Result true (Some "chameleon_failed") None (chameleonId r)
                      (VStr s) (Some guess)))
         ∧ (truthy guess = true → (∀ g, guess ≠ VStr g) →
            GridServer.chameleon_guess w1 wc fg = Throws w1 []))
    ∧ (∀ c res, c ∈ clients_of r → readyState_open w c = true →
                (c, round_result res) ∈ broadcast w (clients_of r) (round_result res)).
Proof.
  intros Hr Hst Ht Hlen Hrd Hsw Hs Hacc Hch Hwc.
  pose proof (grid_vote_complete w ws f k r _ Hr Hst Ht Hlen Hrd Hsw) as Hvote.
  cbn zeta in Hvote. rewrite Hacc in Hvote.
  rewrite Hch in Hacc. apply strict_eq_VStr in Hacc. rewrite Hacc in Hvote.
  rewrite truthy_ws_id in Hvote. cbn [negb] in Hvote.
  set (r1 := set_state ChameleonGuess (with_vote ws f r)) in *.
  eexists (put_room k r1 w), r1.
  split; [by rewrite Hvote, Hch|].
  split; [by rewrite rooms_put_room, lookup_insert_eq|].
  split; [done|]. split.
  - intros fg. cbn zeta. unfold GridServer.chameleon_guess.
    assert (room_of_socket (put_room k r1 w) wc = Some (k, r1)) as ->.
    { apply room_of_socket_Some. split; [done|].
      by rewrite rooms_put_room, lookup_insert_eq. }
    rewrite bool_decide_eq_true_2 by done. cbn [negb].
    change (chameleonId r1) with (chameleonId r). rewrite Hch.
    cbn [strict_eq]. rewrite String.eqb_refl. cbn [negb].
    change (secret_word r1) with (secret_word r). rewrite Hsw.
    cbn [mbind option_bind]. split; [|split].
    + intros g ->. rewrite (guess_correct_card_word g s Hs).
      cbn [fmap option_fmap option_map]. rewrite <- Hch.
      by destruct (same_word g s).
    + intros Hg. unfold GridServer.guess_correct. rewrite Hg, <- Hch. reflexivity.
    + intros Hg Hno. unfold GridServer.guess_correct. rewrite Hg. cbn [negb].
      destruct (field "guess" fg); try reflexivity. by destruct (Hno s0).
  - intros c res Hc Ho. by apply elem_of_broadcast.
Qed.

(** Dee's vote completes the round against Ben, who then guesses
    "  LEMON ": the impostor wins.  So he does with a no-break space after
    the word. *)
Lemma C3_guess_reversal_witness :
  same_word "  LEMON " "Lemon" = true
  ∧ same_word ("lemon" +:+ nbsp) "Lemon" = true
  ∧ ∃ w1 r1 res,
      rooms w1 !! "K7PQ" = Some r1
      ∧ state r1 = ChameleonGuess
      ∧ res = Result false (Some "chameleon_guessed") None
                (chameleonId (room_K7PQ grid_last_vote)) (VStr "Lemon")
                (Some (VStr "  LEMON "))
      ∧ GridServer.chameleon_guess w1 3 (guess_frame "  LEMON ")
        = Returns (put_room "K7PQ" (set_state Finished r1) w1)
            (broadcast grid_last_vote (clients_of (room_K7PQ grid_last_vote))
               (round_result res)
             ++ broadcast grid_last_vote (clients_of (room_K7PQ grid_last_vote))
                  (room_update (getPublicRoomState (set_state Finished r1)))).
Proof.
  split; [reflexivity|]. split; [reflexivity|].
  assert (room_of_socket grid_last_vote 5 = Some ("K7PQ", room_K7PQ grid_last_vote))
    as H1 by (vm_compute; reflexivity).
  assert (state (room_K7PQ grid_last_vote) = Voting) as H2 by (vm_compute; reflexivity).
  assert (length (keys (votes (with_vote 5 (vote_frame "p3") (room_K7PQ grid_last_vote))))
          = length (players (room_K7PQ grid_last_vote))) as H3
    by (vm_compute; reflexivity).
  assert (forallb renders
            (values (votes (with_vote 5 (vote_frame "p3") (room_K7PQ grid_last_vote))))
          = true) as H3' by (vm_compute; reflexivity).
  assert (secret_word (room_K7PQ grid_last_vote) = Some (VStr "Lemon")) as H4
    by (vm_compute; reflexivity).
  assert ("Lemon" ∈ all_words) as H5
    by (apply (bool_decide_unpack _); vm_compute; exact I).
  assert (strict_eq
            (GridServer.resolve_accused (accusations (room_K7PQ grid_last_vote))
               (winners_of (tally_of (votes (with_vote 5 (vote_frame "p3")
                                               (room_K7PQ grid_last_vote))))))
            (chameleonId (room_K7PQ grid_last_vote)) = true) as H6
    by (vm_compute; reflexivity).
  assert (chameleonId (room_K7PQ grid_last_vote) = VStr (ws_id 3)) as H7
    by (vm_compute; reflexivity).
  assert (roomCode_of grid_last_vote 3 = Some "K7PQ") as H8 by (vm_compute; reflexivity).
  destruct (C3_guess_reversal grid_last_vote 5 (vote_frame "p3") "K7PQ"
              (room_K7PQ grid_last_vote) "Lemon" 3
              H1 H2 eq_refl H3 H3' H4 H5 H6 H7 H8)
    as (w1 & r1 & _ & Hr1 & Hst & Hguess & _).
  destruct (Hguess (guess_frame "  LEMON ")) as (Hstr & _).
  eexists w1, r1, _. split; [exact Hr1|]. split; [exact Hst|].
  split; [reflexivity|]. exact (Hstr "  LEMON " eq_refl).
Defined.

(** ** The shape of a callback *)

Lemma case_type f c : case_ (type f) c = true → type f = VStr c.
Proof. apply strict_eq_VStr. Qed.

Lemma elem_of_grid_send w ws m d : d ∈ GridServer.send w ws m → d = (ws, m).
Proof. unfold GridServer.send. by intros ->%list_elem_of_singleton. Qed.

Lemma elem_of_serverjs_send w ws m d : d ∈ ServerJs.send w ws m → d = (ws, m).
Proof.
  unfold ServerJs.send. destruct (readyState_open w ws).
  - by intros ->%list_elem_of_singleton.
  - by intros ?%elem_of_nil.
Qed.

Lemma serverjs_send_open w ws m :
  readyState_open w ws = true → ServerJs.send w ws m = [(ws, m)].
Proof. unfold ServerJs.send. by intros ->. Qed.

Section Recipients.

Variable send : world -> nat -> message -> list delivery.
Hypothesis elem_of_send : ∀ w ws m d, d ∈ send w ws m → d = (ws, m).

Lemma start_messages_recipients w r cham cat d :
  d ∈ start_messages send w r cham cat →
  ∃ p, p ∈ players r ∧ d.1 = player_ws p
       ∧ d.2 = game_start_player
                 (if strict_eq (VStr (player_id p)) cham then role_chameleon
                  else role_not_chameleon (coord r) (grid r) (card_name cat)).
Proof.
  unfold start_messages. intros (p & Hp & Hd)%list_elem_of_In%in_flat_map.
  apply list_elem_of_In in Hp, Hd. exists p. split; [done|].
  destruct (strict_eq _ _); apply elem_of_send in Hd as ->; done.
Qed.

Lemma start_host_message_recipients w r cat d :
  d ∈ start_host_message send w r cat →
  hostWs r = Some d.1
  ∧ d.2 = game_start_host (coord r) (grid r) (card_name cat) (chameleonId r).
Proof.
  unfold start_host_message. destruct (hostWs r) as [h|]; [|by intros ?%elem_of_nil].
  by intros ->%elem_of_send.
Qed.

Lemma notify_closed_recipients w r d :
  d ∈ notify_closed send w r → d.1 ∈ map player_ws (players r) ∧ d.2 = room_closed.
Proof.
  unfold notify_closed. intros (p & Hp & Hd)%list_elem_of_In%in_flat_map.
  apply list_elem_of_In in Hp, Hd. apply elem_of_send in Hd as ->.
  split; [|done]. apply list_elem_of_fmap. eauto.
Qed.

End Recipients.

Lemma readyState_open_is_Some w ws :
  readyState_open w ws = true → is_Some (sockets w !! ws).
Proof. unfold readyState_open. destruct (sockets w !! ws); [eauto|done]. Qed.

Lemma readyState_open_bind_socket ws c ro w ws' :
  readyState_open (bind_socket ws c ro w) ws' = readyState_open w ws'.
Proof.
  unfold readyState_open, bind_socket. cbn.
  destruct (decide (ws = ws')) as [<-|Hne].
  - rewrite lookup_alter_eq. by destruct (sockets w !! ws).
  - by rewrite lookup_alter_ne.
Qed.

Local Ltac known_tests :=
  repeat match goal with
    | H : negb (bool_decide _) = false |- _ =>
        apply negb_false_iff, bool_decide_eq_true in H
    | H : negb _ = false |- _ => apply negb_false_iff in H
    end.

Section SharedShape.

Variable send : world -> nat -> message -> list delivery.
Hypothesis send_open :
  ∀ w ws m, readyState_open w ws = true → send w ws m = [(ws, m)].

Lemma create_room_shape grid fuel w ws f w' out :
  readyState_open w ws = true →
  create_room send fuel w ws = Returns w' out → message_shape grid w ws f w' out.
Proof.
  intros Hopen. unfold create_room.
  destruct (createRoom fuel w) as [[r w1]|] eqn:Hcr; [|done].
  apply createRoom_spec in Hcr as (m & _ & -> & Hfree & _ & ->).
  intros [= <- <-]. split; [done|]. split; [done|].
  split; [right; by eexists _, _|]. right. left. exists (candidate w m).
  split; [done|]. split; [apply makeCode_spec|].
  split; [cbn; by rewrite insert_insert_eq|].
  split; [apply roomCode_of_bind_socket; by apply readyState_open_is_Some|].
  apply send_open. by rewrite readyState_open_bind_socket.
Qed.

Lemma join_room_shape grid w ws f w' out :
  readyState_open w ws = true →
  type f = VStr "join_room" →
  join_room send (negb grid) w ws f = Returns w' out →
  message_shape grid w ws f w' out.
Proof.
  intros Hopen Htype H. unfold join_room in H.
  repeat case_match; simplify_eq; try rewrite (send_open _ _ _ Hopen).
  all: try (split; [done|]; split; [done|]; split; [by left|]; left; split; [done|]; by eexists).
  match goal with H : negb (truthy _) || _ = false |- _ =>
    apply orb_false_iff in H as [_ Hnm] end.
  known_tests.
  match goal with H : (_ <=? _) = false |- _ => apply Nat.leb_gt in H end.
  match goal with H : rooms_get _ _ = Some _ |- _ => cbn [rooms_get] in H end.
  split; [done|]. split; [done|]. split; [right; by eexists _, _|].
  right. right. eexists _, _, _. split; [eassumption|]. split; [done|].
  split; [apply roomCode_of_bind_socket; by apply readyState_open_is_Some|].
  split.
  - repeat (split; [done|]). split.
    { right. repeat (split; [done|]). split; [|by eexists].
      intros ->. match goal with H : _ && _ = false |- _ =>
        cbn in H; by apply negb_false_iff in H end. }
    split; [by left|]. split; [by left|]. split; [by left|].
    right. left. split; [done|by left].
  - by intros d [? ->]%broadcast_recipients.
Qed.

End SharedShape.

Lemma player_in_clients r p : p ∈ players r → player_ws p ∈ clients_of r.
Proof. intros Hp. apply elem_of_app. left. apply list_elem_of_fmap. eauto. Qed.

Lemma host_in_clients r h : hostWs r = Some h → h ∈ clients_of r.
Proof. intros Hh. apply elem_of_app. right. rewrite Hh. constructor. Qed.

(** The conjuncts of [room_moves] for a room rebuilt with the setters. *)
Local Ltac elem := cbn; solve [repeat constructor].

Local Ltac moves :=
  split; [reflexivity|]; split; [reflexivity|]; split; [reflexivity|];
  split; [reflexivity|]; split; [left; reflexivity|];
  split;
  [ first [ left; reflexivity
          | right; left; split; [assumption|elem]
          | right; right;
            match goal with H : state _ = _ |- _ => rewrite H end; elem ]
  | split;
    [ first [ left; reflexivity | right; left; reflexivity
            | right; right; eexists; split; [eassumption|reflexivity] ]
    | split;
      [ first [ left; reflexivity | right; left; reflexivity
              | right; right; eexists; refine (conj _ (conj _ eq_refl));
                first [ intros _; assumption | discriminate ] ]
      | first [ left; split; [reflexivity|elem]
              | right; left; split; [reflexivity|];
                first [ left; reflexivity
                      | right;
                        match goal with H : state _ = _ |- _ => rewrite H end;
                        split; [elem|discriminate] ]
              | right; right; eexists;
                split; [reflexivity|]; split; [eassumption|];
                split; [assumption|]; split; reflexivity ] ] ] ].

(** Who a reply list goes to, and that it holds no error. *)
Local Ltac recipients elem_of_send :=
  let d := fresh "d" in
  let Hd := fresh "Hd" in
  intros d Hd;
  repeat match type of Hd with
    | _ ∈ _ ++ _ => apply elem_of_app in Hd as [Hd|Hd]
    end;
  first
    [ apply broadcast_recipients in Hd as [Hd ->]; split; [exact Hd|reflexivity]
    | apply (start_messages_recipients _ elem_of_send) in Hd
        as (? & ? & -> & ->);
      split; [by apply player_in_clients|reflexivity]
    | apply (start_host_message_recipients _ elem_of_send) in Hd as [? ->];
      split; [by apply host_in_clients|reflexivity] ].

Local Ltac updated elem_of_send :=
  known_tests;
  match goal with
  | H : room_of_socket ?w ?ws = Some (?k, ?r)
    |- message_shape _ _ _ _ (put_room ?k ?r' _) _ =>
      let Hb := fresh "Hbound" in
      let Hr := fresh "Hroom" in
      apply room_of_socket_Some in H as [Hb Hr];
      split; [reflexivity|]; split; [reflexivity|]; split; [left; reflexivity|];
      right; right; exists k, r, r';
      split; [exact Hr|]; split; [reflexivity|]; split; [exact Hb|];
      split; [moves|recipients elem_of_send]
  end.

Local Ltac refused :=
  split; [reflexivity|]; split; [reflexivity|]; split; [left; reflexivity|];
  left; split; [reflexivity|]; eexists; reflexivity.

Lemma grid_submit_hint_shape w ws f w' out :
  GridServer.submit_hint w ws f = Returns w' out → message_shape true w ws f w' out.
Proof.
  intros H. unfold GridServer.submit_hint, GridServer.send in H.
  repeat case_match; simplify_eq; try refused.
  all: match goal with H : _ || _ = false |- _ =>
         apply orb_false_iff in H as [H _]; known_tests; apply truthy_VStr in H end.
  all: updated elem_of_grid_send.
Qed.

Lemma grid_accuse_shape w ws f w' out :
  GridServer.accuse w ws f = Returns w' out → message_shape true w ws f w' out.
Proof.
  intros H. unfold GridServer.accuse, GridServer.send in H.
  repeat case_match; simplify_eq; try refused; updated elem_of_grid_send.
Qed.

Lemma grid_vote_shape w ws f w' out :
  GridServer.vote w ws f = Returns w' out → message_shape true w ws f w' out.
Proof.
  intros H. unfold GridServer.vote, GridServer.send in H.
  repeat case_match; simplify_eq; try refused; updated elem_of_grid_send.
Qed.

Lemma grid_chameleon_guess_shape w ws f w' out :
  GridServer.chameleon_guess w ws f = Returns w' out → message_shape true w ws f w' out.
Proof.
  intros H. unfold GridServer.chameleon_guess, GridServer.send in H.
  repeat case_match; simplify_eq; try refused; updated elem_of_grid_send.
Qed.

Lemma grid_host_reset_shape w ws f w' out :
  GridServer.host_reset w ws = Returns w' out → message_shape true w ws f w' out.
Proof.
  intros H. unfold GridServer.host_reset, GridServer.send in H.
  repeat case_match; simplify_eq; try refused; updated elem_of_grid_send.
Qed.

Lemma grid_start_shape w ws f w' out :
  GridServer.host_start_game w ws = Returns w' out → message_shape true w ws f w' out.
Proof.
  intros H. unfold GridServer.host_start_game, GridServer.send in H.
  repeat case_match; simplify_eq; try refused; updated elem_of_grid_send.
Qed.

Lemma serverjs_start_shape w ws f w' out :
  readyState_open w ws = true →
  ServerJs.host_start_game w ws = Returns w' out → message_shape false w ws f w' out.
Proof.
  intros Hopen H. unfold ServerJs.host_start_game in H.
  rewrite !(serverjs_send_open _ _ _ Hopen) in H.
  repeat case_match; simplify_eq; try refused; updated elem_of_serverjs_send.
Qed.

Lemma serverjs_submit_hint_shape w ws f w' out :
  readyState_open w ws = true →
  ServerJs.submit_hint w ws f = Returns w' out → message_shape false w ws f w' out.
Proof.
  intros Hopen H. unfold ServerJs.submit_hint in H.
  rewrite !(serverjs_send_open _ _ _ Hopen) in H.
  repeat case_match; simplify_eq; try refused.
  all: known_tests;
    match goal with H : truthy (VStr _) = true |- _ => apply truthy_VStr in H end.
  all: updated elem_of_serverjs_send.
Qed.

Lemma serverjs_vote_shape w ws f w' out :
  readyState_open w ws = true →
  ServerJs.vote w ws f = Returns w' out → message_shape false w ws f w' out.
Proof.
  intros Hopen H. unfold ServerJs.vote in H.
  rewrite !(serverjs_send_open _ _ _ Hopen) in H.
  repeat case_match; simplify_eq; try refused; updated elem_of_serverjs_send.
Qed.

Lemma grid_on_message_shape fuel w ws f w' out :
  readyState_open w ws = true →
  GridServer.on_message fuel w ws f = Returns w' out → message_shape true w ws f w' out.
Proof.
  intros Hopen. unfold GridServer.on_message.
  by_case ltac:(by apply create_room_shape).
  destruct (case_ _ "join_room") eqn:Hjoin;
    [by apply (join_room_shape GridServer.send) with (grid := true);
       [..|apply case_type]|].
  by_case ltac:(by apply grid_start_shape).
  by_case ltac:(by apply grid_submit_hint_shape).
  by_case ltac:(by apply grid_accuse_shape).
  by_case ltac:(by apply grid_vote_shape).
  by_case ltac:(by apply grid_chameleon_guess_shape).
  by_case ltac:(by apply grid_host_reset_shape).
  intros [= <- <-]. refused.
Qed.

Lemma serverjs_on_message_shape fuel w ws f w' out :
  readyState_open w ws = true →
  ServerJs.on_message fuel w ws f = Returns w' out → message_shape false w ws f w' out.
Proof.
  intros Hopen. unfold ServerJs.on_message.
  by_case ltac:(apply create_room_shape;
                [intros; by apply serverjs_send_open|done]).
  destruct (case_ _ "join_room") eqn:Hjoin;
    [apply (join_room_shape ServerJs.send) with (grid := false);
       [intros; by apply serverjs_send_open|done|by apply case_type]|].
  by_case ltac:(by apply serverjs_start_shape).
  by_case ltac:(by apply serverjs_submit_hint_shape).
  by_case ltac:(by apply serverjs_vote_shape).
  rewrite (serverjs_send_open _ _ _ Hopen). intros [= <- <-]. refused.
Qed.

Local Ltac closing elem_of_send :=
  repeat case_match; simplify_eq; cbn [fst snd];
  (split; [reflexivity|]; split; [reflexivity|]; split; [reflexivity|];
   split; [reflexivity|]); try (by left); right; eexists _, _;
  (split; [eassumption|]; split; [eassumption|]);
  first
    [ left; split; [reflexivity|];
      first [ by intros ? ?%elem_of_nil
            | intros ? ?; by eapply (notify_closed_recipients _ elem_of_send) ]
    | right; split;
      [ match goal with H : bool_decide _ = false |- _ =>
          by apply bool_decide_eq_false in H end
      | split; [reflexivity|] ];
      intros ? [? ->]%broadcast_recipients; split; [|reflexivity] ].

Lemma grid_on_close_shape w ws :
  close_shape w ws (GridServer.on_close w ws).1 (GridServer.on_close w ws).2.
Proof. unfold GridServer.on_close. closing elem_of_grid_send. done. Qed.

Lemma serverjs_on_close_shape w ws :
  close_shape w ws (ServerJs.on_close w ws).1 (ServerJs.on_close w ws).2.
Proof.
  unfold ServerJs.on_close. closing elem_of_serverjs_send.
  apply elem_of_app. by left.
Qed.

(** ** What every room of a reachable world satisfies *)

Lemma slice0_length n s : String.length (slice0 n s) = n `min` String.length s.
Proof.
  unfold slice0. revert s. induction n as [|n IH]; intros [|c s]; cbn; try done.
  by rewrite IH.
Qed.

Lemma elem_of_obj_set {V} k (v : V) o e :
  e ∈ obj_set k v o → e = (k, v) ∨ e ∈ o.
Proof.
  induction o as [|[k' v'] o IH]; cbn.
  - intros ->%list_elem_of_singleton. by left.
  - destruct (String.eqb k k').
    + intros [->|?]%elem_of_cons; [by left|right; by constructor].
    + intros [->|[->|?]%IH]%elem_of_cons; [right; constructor|by left|].
      right. by constructor.
Qed.

Lemma forward_phases grid p q : q ∈ forward grid p → q ∈ phases grid.
Proof.
  destruct grid, p; cbn; intros H;
    repeat (apply elem_of_cons in H as [->|H]); try (by apply elem_of_nil in H);
    repeat constructor.
Qed.

Lemma room_sound_mono grid n n' r :
  n ≤ n' → room_sound grid n r → room_sound grid n' r.
Proof.
  intros Hn ((h & Hh & Hlt) & Hpl & Hhi & Hvo & Hndh & Hndv & Hph & Hacc).
  split; [exists h; split; [done|lia]|].
  split; [intros p Hp; destruct (Hpl p Hp) as (? & ? & ?); split; [done|split; [lia|done]]|].
  split; [intros i x Hx; destruct (Hhi i x Hx) as (? & ws & ? & ?);
          split; [done|exists ws; split; [done|lia]]|].
  split; [intros i x Hx; destruct (Hvo i x Hx) as (? & ? & ws & ? & ?);
          split; [done|split; [done|exists ws; split; [done|lia]]]|].
  split; [done|]. split; [done|]. split; [done|].
  unfold accused in *. destruct (state r), grid; try done;
    destruct Hacc as (a & ? & ? & ws & ? & ?);
    (exists a; split; [done|]; split; [done|]; exists ws; split; [done|lia]).
Qed.

Lemma room_sound_created grid n ws k :
  0 < ws < n → room_sound grid n (set_hostWs (Some ws) (new_room k)).
Proof.
  intros Hws. split; [by exists ws|].
  split; [by intros p ?%elem_of_nil|]. split; [by intros i h ?%elem_of_nil|].
  split; [by intros i h ?%elem_of_nil|]. split; [constructor|].
  split; [constructor|]. split; [destruct grid; constructor|done].
Qed.

Lemma room_sound_leaves grid n ws r :
  room_sound grid n r → room_sound grid n (leaves ws r).
Proof.
  intros (Hh & Hpl & Hrest). split; [done|]. split; [|done].
  intros p [_ Hp]%list_elem_of_filter. by apply Hpl.
Qed.

Lemma renders_slice n v v' :
  renders v = true → slice n v = Some v' → renders v' = true.
Proof.
  destruct v as [| | | |s|l|]; try done; intros Hv [= <-]; [done|].
  cbn [renders] in *. apply forallb_forall. intros x Hx.
  apply (proj1 (forallb_forall _ _) Hv).
  apply list_elem_of_In. apply list_elem_of_In in Hx.
  apply elem_of_take in Hx as (i & Hi & _). by eapply list_elem_of_lookup_2.
Qed.

(** What [slice(0, 20)] makes of a truthy name is a name the servers
    store. *)
Lemma stored_name_slice grid v v' :
  truthy v = true → slice 20 v = Some v' →
  (grid = false → renders v = true) → stored_name grid v'.
Proof.
  intros Hv Hs Hr. split.
  - destruct v as [| | | |s|l|]; try done; injection Hs as <-.
    + left. eexists. split; [done|]. rewrite slice0_length.
      destruct s; [done|]. cbn [String.length]. lia.
    + right. eexists. split; [done|]. rewrite length_take. lia.
  - intros Hg. eapply renders_slice; [by apply Hr|done].
Qed.

Lemma room_sound_moves grid n ws f r r' :
  0 < ws < n → room_sound grid n r → room_moves grid ws f r r' →
  room_sound grid n r'.
Proof.
  intros Hws (Hh & Hpl & Hhi & Hvo & Hndh & Hndv & Hph & Hacc)
    (_ & Hh' & _ & _ & Hpl' & Hst' & Hhi' & Hvo' & Hacc').
  split; [by rewrite Hh'|]. split; [|split; [|split; [|split; [|split; [|split]]]]].
  - destruct Hpl' as [->|(_ & _ & _ & _ & Hv & Hrd & nm & Hnm & ->)]; [done|].
    intros p [Hp|Hp%list_elem_of_singleton]%elem_of_app; [by apply Hpl|subst p].
    split; [done|]. split; [done|]. cbn [seat player_name].
    by eapply stored_name_slice.
  - destruct Hhi' as [->|[->|(s & Hs & ->)]]; [done|by intros i h ?%elem_of_nil|].
    intros i h [[= -> ->]|Hin]%elem_of_obj_set; [|by apply Hhi].
    rewrite slice0_length. split; [|eauto]. destruct s; [done|].
    cbn [String.length]. lia.
  - destruct Hvo' as [->|[->|(t & Ht & Hrd & ->)]]; [done|by intros i h ?%elem_of_nil|].
    intros i h [[= -> ->]|Hin]%elem_of_obj_set; [|by apply Hvo]. eauto 10.
  - destruct Hhi' as [->|[->|(s & Hs & ->)]]; [done|constructor|].
    by apply NoDup_keys_obj_set.
  - destruct Hvo' as [->|[->|(t & Ht & Hrd & ->)]]; [done|constructor|].
    by apply NoDup_keys_obj_set.
  - destruct Hst' as [->|[[_ Hin]|Hin]]; [done| |by eapply forward_phases].
    destruct grid; cbn in *;
      repeat (apply elem_of_cons in Hin as [->|Hin]);
      try (by apply elem_of_nil in Hin); repeat constructor.
  - unfold accused in *.
    destruct Hacc' as [[Hnil Hin]|[[Hsame [Hst|[Hin Hne]]]|(a & -> & Ha & Hst & Hst2 & Hnew)]].
    + repeat (apply elem_of_cons in Hin as [->|Hin]);
        try (by apply elem_of_nil in Hin); done.
    + by rewrite Hst, Hsame.
    + rewrite Hsame. destruct grid, (state r); cbn in Hin; try done;
        repeat (apply elem_of_cons in Hin as [->|Hin]);
        try (by apply elem_of_nil in Hin); done.
    + rewrite Hst in Hacc. rewrite Hst2, Hnew, Hacc. eauto 10.
Qed.

(** ** What one callback does to a room *)

Lemma server_on_message_shape grid fuel w ws f w' out :
  readyState_open w ws = true →
  server_on_message grid fuel w ws f = Returns w' out →
  message_shape grid w ws f w' out.
Proof.
  destruct grid; [apply grid_on_message_shape|apply serverjs_on_message_shape].
Qed.

Lemma server_on_close_shape grid w ws :
  close_shape w ws (server_on_close grid w ws).1 (server_on_close grid w ws).2.
Proof. destruct grid; [apply grid_on_close_shape|apply serverjs_on_close_shape]. Qed.


(** A room found after a callback was there before, or was just created
    by the sender of a frame, or is what a frame or a departure made of the
    room that was there. *)
Lemma step_room grid fuel w ev w' out k r' :
  server_step grid fuel w ev = Returns w' out →
  rooms w' !! k = Some r' →
  rooms w !! k = Some r'
  ∨ (rooms w !! k = None ∧ String.length k = 4
     ∧ ∃ ws f, ev = Receive ws f ∧ readyState_open w ws = true
               ∧ r' = set_hostWs (Some ws) (new_room k))
  ∨ ∃ r ws, rooms w !! k = Some r ∧ readyState_open w ws = true
            ∧ ((∃ f, ev = Receive ws f ∧ room_moves grid ws f r r')
               ∨ ev = Close ws ∧ r' = leaves ws r ∧ hostWs r ≠ Some ws).
Proof.
  unfold server_step. destruct ev as [|ws|ws f|ws]; cbn [step].
  - intros [= <- _]. by left.
  - destruct (readyState_open w ws); intros [= <- _]; by left.
  - destruct (readyState_open w ws) eqn:Hopen; [|intros [= <- _]; by left].
    intros H%server_on_message_shape; [|done].
    destruct H as (_ & _ & _ & [[-> _]|[(c & Hfree & Hlen & -> & _)
                                       |(k0 & r & r0 & Hr & -> & _ & Hmoves & _)]]).
    + by left.
    + rewrite lookup_insert. case_decide as Hk; [|by left].
      subst c. intros [= <-]. right. left.
      split; [done|]. split; [done|]. by exists ws, f.
    + rewrite lookup_insert. case_decide as Hk; [|by left].
      subst k0. intros [= <-]. right. right. exists r, ws.
      split; [done|]. split; [done|]. left. by exists f.
  - destruct (readyState_open w ws) eqn:Hopen; [|intros [= <- _]; by left].
    pose proof (server_on_close_shape grid (set_readyState ws false w) ws) as Hshape.
    destruct (server_on_close grid _ ws) as [w1 out1]. intros [= <- _].
    cbn [fst snd] in Hshape.
    destruct Hshape as (_ & _ & _ & _ & [[-> _]|(k0 & r & _ & Hr & Hcase)]);
      [by left|]. cbn [rooms set_readyState set_sockets] in *.
    destruct Hcase as [[-> _]|(Hhost & -> & _)].
    + rewrite lookup_delete. case_decide; [done|by left].
    + rewrite lookup_insert. case_decide as Hk; [|by left].
      subst k0. intros [= <-]. right. right. exists r, ws.
      split; [done|]. split; [done|]. by right.
Qed.

(** A callback hands out at most one identity, the next one, and never
    forgets a socket. *)
Lemma step_sockets grid fuel w ev w' out :
  server_step grid fuel w ev = Returns w' out →
  (nextId w' = nextId w
   ∧ ∀ ws, is_Some (sockets w' !! ws) ↔ is_Some (sockets w !! ws))
  ∨ (ev = Connect ∧ nextId w' = S (nextId w)
     ∧ sockets w' = <[nextId w := Socket None None true true]> (sockets w)).
Proof.
  unfold server_step. destruct ev as [|ws|ws f|ws]; cbn [step].
  - intros [= <- _]. by right.
  - destruct (readyState_open w ws); intros [= <- _]; by left.
  - destruct (readyState_open w ws) eqn:Hopen; [|intros [= <- _]; by left].
    intros H%server_on_message_shape; [|done]. left.
    destruct H as (Hn & _ & [Hs|(c & ro & Hs)] & _); rewrite Hn, Hs;
      (split; [done|]); [done|].
    intros ws'. by rewrite lookup_alter_is_Some.
  - destruct (readyState_open w ws) eqn:Hopen; [|intros [= <- _]; by left].
    pose proof (server_on_close_shape grid (set_readyState ws false w) ws) as Hshape.
    destruct (server_on_close grid _ ws) as [w1 out1]. intros [= <- _].
    cbn [fst snd] in Hshape. destruct Hshape as (Hn & _ & Hs & _).
    rewrite Hn, Hs. left. split; [done|].
    intros ws'. cbn. by rewrite lookup_alter_is_Some.
Qed.

Lemma step_sound grid fuel w ev w' out :
  world_sound grid w →
  server_step grid fuel w ev = Returns w' out →
  world_sound grid w'.
Proof.
  intros (Hpos & Hsock & Hrooms) Hstep.
  assert (nextId w ≤ nextId w') as Hn.
  { destruct (step_sockets _ _ _ _ _ _ Hstep) as [[-> _]|(_ & -> & _)]; lia. }
  split; [lia|]. split.
  - intros ws.
    destruct (step_sockets _ _ _ _ _ _ Hstep) as [[-> Hs]|(_ & -> & ->)];
      [by rewrite Hs|].
    rewrite lookup_insert_is_Some, Hsock.
    destruct (decide (nextId w = ws)); [subst; split; [lia|by left]|].
    split; [intros [?|[_ ?]]; [done|lia]|]. intros ?. right. split; [done|lia].
  - intros k r' Hr'.
    destruct (step_room _ _ _ _ _ _ _ _ Hstep Hr')
      as [Hr|[(_ & _ & ws & f & _ & Hopen & ->)
             |(r & ws & Hr & Hopen & [(f & _ & Hmv)|(_ & -> & _)])]].
    + eapply room_sound_mono; [exact Hn|]. by eapply Hrooms.
    + apply room_sound_created.
      apply readyState_open_is_Some, Hsock in Hopen. lia.
    + eapply room_sound_moves; [| |exact Hmv].
      * apply readyState_open_is_Some, Hsock in Hopen. lia.
      * eapply room_sound_mono; [exact Hn|]. by eapply Hrooms.
    + apply room_sound_leaves. eapply room_sound_mono; [exact Hn|]. by eapply Hrooms.
Qed.

Lemma reachable_sound grid w : server_reachable grid w → world_sound grid w.
Proof.
  induction 1 as [e|fuel w ev w' out _ IH Hstep].
  - split; [cbn; lia|]. split; [|by intros k r].
    intros ws. cbn. rewrite lookup_empty. split; [by intros [? ?]|lia].
  - by eapply step_sound.
Qed.

Lemma server_reachable_grid w : reachable_grid w → server_reachable true w.
Proof. done. Qed.

Lemma server_reachable_serverjs w : reachable_serverjs w → server_reachable false w.
Proof. done. Qed.

(** ** Rejections *)

(** A frame answered with an [error] changed nothing: when a message
    callback of either server returns and one of its sends is an [error],
    the world is as it was and that error, addressed to the sender, is the
    only send. *)
Theorem error_reply_changes_nothing grid fuel w ws f w' out c e :
  readyState_open w ws = true →
  server_on_message grid fuel w ws f = Returns w' out →
  (c, error e) ∈ out →
  w' = w ∧ out = [(ws, error e)].
Proof.
  intros Hopen Hrun Hin.
  destruct (server_on_message_shape _ _ _ _ _ _ _ Hopen Hrun)
    as (_ & _ & _ & [(-> & e0 & ->)|[(k & _ & _ & _ & _ & ->)
                                    |(k & r & r' & _ & _ & _ & _ & Hout)]]).
  - apply list_elem_of_singleton in Hin as [= -> ->]. done.
  - by apply list_elem_of_singleton in Hin.
  - by destruct (Hout _ Hin).
Qed.

(** A vote sent while the room is still in the lobby. *)
Lemma error_reply_changes_nothing_witness :
  server_on_message true 0 grid_five 2 (vote_frame "p3")
  = Returns grid_five [(2, error "not_in_voting_phase")].
Proof.
  assert (readyState_open grid_five 2 = true) as H1 by (vm_compute; reflexivity).
  assert (server_on_message true 0 grid_five 2 (vote_frame "p3")
          = Returns (world_of (server_on_message true 0 grid_five 2 (vote_frame "p3"))
                              grid_five)
                    [(2, error "not_in_voting_phase")]) as H2
    by (vm_compute; reflexivity).
  destruct (error_reply_changes_nothing true 0 grid_five 2 (vote_frame "p3") _ _
              2 "not_in_voting_phase" H1 H2 ltac:(constructor)) as [Hw _].
  rewrite Hw in H2. exact H2.
Defined.

(** ** One frame, one room *)

(** A frame changes no room but the one its sender is bound to when the
    callback returns (the room it created, joined or plays in), hands out no
    identity, and leaves every other socket, and the sender's own liveness
    and ready state, alone. *)
Theorem frame_touches_one_room grid fuel w ws f w' out :
  readyState_open w ws = true →
  server_on_message grid fuel w ws f = Returns w' out →
  (∀ k, roomCode_of w' ws ≠ Some k → rooms w' !! k = rooms w !! k)
  ∧ (∀ ws', ws' ≠ ws → sockets w' !! ws' = sockets w !! ws')
  ∧ (∀ ws', readyState_open w' ws' = readyState_open w ws')
  ∧ (∀ ws', isAlive <$> sockets w' !! ws' = isAlive <$> sockets w !! ws')
  ∧ nextId w' = nextId w.
Proof.
  intros Hopen Hrun.
  destruct (server_on_message_shape _ _ _ _ _ _ _ Hopen Hrun)
    as (Hn & _ & Hsock & Hcase).
  split; [|split; [|split; [|split; [|done]]]].
  - destruct Hcase as [(-> & _)|[(c & _ & _ & -> & Hb & _)
                                |(k0 & r & r' & _ & -> & Hb & _)]]; [done| |];
      intros k Hk; apply lookup_insert_ne; congruence.
  - intros ws' Hne. destruct Hsock as [->|(c & ro & ->)]; [done|].
    by apply lookup_alter_ne.
  - intros ws'. unfold readyState_open.
    destruct Hsock as [->|(c & ro & ->)]; [done|].
    destruct (decide (ws = ws')) as [<-|Hne].
    + rewrite lookup_alter_eq. by destruct (sockets w !! ws).
    + by rewrite lookup_alter_ne.
  - intros ws'. destruct Hsock as [->|(c & ro & ->)]; [done|].
    destruct (decide (ws = ws')) as [<-|Hne].
    + rewrite lookup_alter_eq. by destruct (sockets w !! ws).
    + by rewrite lookup_alter_ne.
Qed.

(** Every send of a message callback goes to the sender or to a member
    (player or host) of the room the sender is bound to afterwards. *)
Theorem replies_stay_in_the_room grid fuel w ws f w' out c m :
  readyState_open w ws = true →
  server_on_message grid fuel w ws f = Returns w' out →
  (c, m) ∈ out →
  c = ws
  ∨ ∃ k r, roomCode_of w' ws = Some k ∧ rooms w' !! k = Some r ∧ c ∈ clients_of r.
Proof.
  intros Hopen Hrun Hin.
  destruct (server_on_message_shape _ _ _ _ _ _ _ Hopen Hrun)
    as (_ & _ & _ & [(-> & e0 & ->)|[(k & _ & _ & _ & _ & ->)
                                    |(k & r & r' & _ & Hrooms & Hb & _ & Hout)]]).
  - apply list_elem_of_singleton in Hin as [= -> _]. by left.
  - apply list_elem_of_singleton in Hin as [= -> _]. by left.
  - right. exists k, r'. split; [done|]. split; [by rewrite Hrooms, lookup_insert_eq|].
    by destruct (Hout _ Hin).
Qed.

(** Ann (socket 2), seated in [K7PQ], joins [AHSH]: [K7PQ] is as it was,
    her seat there included. *)
Lemma frame_touches_one_room_witness :
  rooms (world_of (server_on_message true 0 grid_two_rooms 2 (join_frame "AHSH" "Ann"))
                  grid_two_rooms) !! "K7PQ"
  = rooms grid_two_rooms !! "K7PQ".
Proof.
  assert (readyState_open grid_two_rooms 2 = true) as H1 by (vm_compute; reflexivity).
  assert (server_on_message true 0 grid_two_rooms 2 (join_frame "AHSH" "Ann")
          = Returns
              (world_of (server_on_message true 0 grid_two_rooms 2
                           (join_frame "AHSH" "Ann")) grid_two_rooms)
              (sent_of (server_on_message true 0 grid_two_rooms 2
                          (join_frame "AHSH" "Ann")))) as H2
    by (vm_compute; reflexivity).
  assert (roomCode_of
            (world_of (server_on_message true 0 grid_two_rooms 2
                         (join_frame "AHSH" "Ann")) grid_two_rooms) 2
          ≠ Some "K7PQ") as H3 by (vm_compute; discriminate).
  exact (proj1 (frame_touches_one_room true 0 grid_two_rooms 2 _ _ _ H1 H2) "K7PQ" H3).
Defined.

(** Ann's hint in the scenario: Ben (socket 3) is told of the progress, and
    he is a member of Ann's room. *)
Lemma replies_stay_in_the_room_witness :
  ∃ k r,
    roomCode_of
      (world_of (server_on_message true 0 grid_hint_phase 2 (hint_frame "sour"))
                grid_hint_phase) 2 = Some k
    ∧ rooms (world_of (server_on_message true 0 grid_hint_phase 2 (hint_frame "sour"))
                      grid_hint_phase) !! k = Some r
    ∧ 3 ∈ clients_of r.
Proof.
  assert (readyState_open grid_hint_phase 2 = true) as H1 by (vm_compute; reflexivity).
  assert (server_on_message true 0 grid_hint_phase 2 (hint_frame "sour")
          = Returns
              (world_of (server_on_message true 0 grid_hint_phase 2 (hint_frame "sour"))
                        grid_hint_phase)
              (to_everyone (hint_progress 1 4))) as H2
    by (vm_compute; reflexivity).
  assert ((3, hint_progress 1 4) ∈ to_everyone (hint_progress 1 4)) as H3
    by (unfold to_everyone; cbn [map]; right; left).
  destruct (replies_stay_in_the_room true 0 grid_hint_phase 2 _ _ _ 3 _ H1 H2 H3)
    as [Heq|Hroom]; [discriminate Heq|exact Hroom].
Defined.

(** ** Phases and seats *)

(** Between two callbacks the phase of a room stays, or moves one edge
    forward in the order of play (hint, accusation, voting, chameleon_guess,
    finished in the grid version; hint, voting, finished in server.js), or is
    set by a frame from the room's host: to hint by [host_start_game], from
    any phase, and in the grid version to lobby by [host_reset]. *)
Theorem phase_transitions grid fuel w ev w' out k r r' :
  server_step grid fuel w ev = Returns w' out →
  rooms w !! k = Some r →
  rooms w' !! k = Some r' →
  state r' = state r
  ∨ state r' ∈ forward grid (state r)
  ∨ ∃ ws f, ev = Receive ws f ∧ hostWs r = Some ws
            ∧ state r' ∈ Hint :: (if grid then [Lobby] else []).
Proof.
  intros Hstep Hr Hr'.
  destruct (step_room _ _ _ _ _ _ _ _ Hstep Hr')
    as [Hsame|[(Hnone & _)|(r0 & ws & Hr0 & _ & [(f & -> & Hmv)|(_ & -> & _)])]].
  - left. congruence.
  - congruence.
  - assert (r0 = r) as -> by congruence.
    destruct Hmv as (_ & _ & _ & _ & _ & [Hst|[[Hh Hst]|Hst]] & _); eauto 10.
  - assert (r0 = r) as -> by congruence. by left.
Qed.

(** Dee's vote completes the round against Ben: voting to chameleon_guess. *)
Lemma phase_transitions_witness :
  (state <$> rooms grid_last_vote !! "K7PQ") = Some Voting
  ∧ (state <$> rooms (world_of (server_step true 0 grid_last_vote
                                   (Receive 5 (vote_frame "p3"))) grid_last_vote)
                 !! "K7PQ") = Some ChameleonGuess
  ∧ ChameleonGuess ∈ forward true Voting.
Proof.
  assert (server_step true 0 grid_last_vote (Receive 5 (vote_frame "p3"))
          = Returns
              (world_of (server_step true 0 grid_last_vote
                           (Receive 5 (vote_frame "p3"))) grid_last_vote)
              (sent_of (server_step true 0 grid_last_vote
                          (Receive 5 (vote_frame "p3"))))) as H1
    by (vm_compute; reflexivity).
  assert (rooms grid_last_vote !! "K7PQ" = Some (room_K7PQ grid_last_vote)) as H2
    by (vm_compute; reflexivity).
  assert (rooms (world_of (server_step true 0 grid_last_vote
                             (Receive 5 (vote_frame "p3"))) grid_last_vote) !! "K7PQ"
          = Some (room_K7PQ grid_caught)) as H3 by (vm_compute; reflexivity).
  assert (state (room_K7PQ grid_last_vote) = Voting) as H4 by (vm_compute; reflexivity).
  assert (state (room_K7PQ grid_caught) = ChameleonGuess) as H5
    by (vm_compute; reflexivity).
  pose proof (phase_transitions true 0 grid_last_vote _ _ _ "K7PQ" _ _ H1 H2 H3) as Hph.
  rewrite H2, H3. cbn [fmap option_fmap option_map]. rewrite H4, H5.
  split; [reflexivity|]. split; [reflexivity|].
  rewrite H4, H5 in Hph.
  destruct Hph as [Hph|[Hph|(ws & f & _ & _ & Hph)]];
    [discriminate Hph|exact Hph|].
  exfalso. revert Hph. cbn. intros Hph.
  repeat (apply elem_of_cons in Hph as [Hph|Hph]; [discriminate Hph|]).
  by apply elem_of_nil in Hph.
Defined.

(** A callback never changes the code, host, capacity or minimum of a
    room; its seats stay as they are unless the callback is the close of a
    socket that is not the host, which takes that socket's seats out, or a
    [join_room] with a truthy name that has a [slice] method (a non-empty
    string or an array) while the room is in the lobby and below capacity,
    which adds one seat for the sender at the end, named by what
    [name.slice(0, 20)] returns. *)
Theorem seats_change_by_join_and_close grid fuel w ev w' out k r r' :
  server_step grid fuel w ev = Returns w' out →
  rooms w !! k = Some r →
  rooms w' !! k = Some r' →
  code r' = code r ∧ hostWs r' = hostWs r
  ∧ capacity r' = capacity r ∧ minPlayers r' = minPlayers r
  ∧ (players r' = players r
     ∨ (∃ ws, ev = Close ws ∧ hostWs r ≠ Some ws
              ∧ players r' = filter (fun p => player_id p ≠ ws_id ws) (players r))
     ∨ (∃ ws f nm, ev = Receive ws f ∧ type f = VStr "join_room"
                   ∧ truthy (field "name" f) = true
                   ∧ slice 20 (field "name" f) = Some nm
                   ∧ state r = Lobby ∧ state r' = Lobby
                   ∧ length (players r) < capacity r
                   ∧ players r' = players r ++ [seat ws nm])).
Proof.
  intros Hstep Hr Hr'.
  destruct (step_room _ _ _ _ _ _ _ _ Hstep Hr')
    as [Hsame|[(Hnone & _)|(r0 & ws & Hr0 & _ & [(f & -> & Hmv)|(-> & -> & Hh)])]].
  - assert (r' = r) as -> by congruence. auto 10.
  - congruence.
  - assert (r0 = r) as -> by congruence.
    destruct Hmv as (? & ? & ? & ? & [Hpl|(? & ? & ? & ? & ? & ? & nm & ? & ?)] & _).
    + auto 10.
    + repeat (split; [done|]). right. right. exists ws, f, nm. auto 10.
  - assert (r0 = r) as -> by congruence.
    repeat (split; [done|]). right. left. exists ws. auto.
Qed.

(** Socket 2, already seated in the lobby of [K7PQ], joins it again, this
    time under a name that is an array: the host reference is untouched and
    the room has a sixth seat, named by the array. *)
Lemma seats_change_by_join_and_close_witness :
  hostWs (room_K7PQ (world_of (server_step true 0 grid_five
                                 (Receive 2 array_name_frame)) grid_five))
  = hostWs (room_K7PQ grid_five)
  ∧ players (room_K7PQ (world_of (server_step true 0 grid_five
                                    (Receive 2 array_name_frame)) grid_five))
    = players (room_K7PQ grid_five) ++ [seat 2 (VArr [VStr "Ann"; VNum "7"])].
Proof.
  assert (server_step true 0 grid_five (Receive 2 array_name_frame)
          = Returns
              (world_of (server_step true 0 grid_five
                           (Receive 2 array_name_frame)) grid_five)
              (sent_of (server_step true 0 grid_five
                          (Receive 2 array_name_frame)))) as H1
    by (vm_compute; reflexivity).
  assert (rooms grid_five !! "K7PQ" = Some (room_K7PQ grid_five)) as H2
    by (vm_compute; reflexivity).
  assert (rooms (world_of (server_step true 0 grid_five
                             (Receive 2 array_name_frame)) grid_five) !! "K7PQ"
          = Some (room_K7PQ (world_of (server_step true 0 grid_five
                                         (Receive 2 array_name_frame))
                                      grid_five))) as H3
    by (vm_compute; reflexivity).
  destruct (seats_change_by_join_and_close true 0 grid_five _ _ _ "K7PQ" _ _ H1 H2 H3)
    as (_ & Hhost & _).
  split; [exact Hhost|]. vm_compute. reflexivity.
Defined.

(** server.js has no way back to the lobby: once a room has left it, no
    callback returns it there, and since [join_room] is refused outside the
    lobby the room never gains a seat again. *)
Theorem serverjs_no_way_back_to_lobby fuel w ev w' out k r r' :
  server_step false fuel w ev = Returns w' out →
  rooms w !! k = Some r →
  rooms w' !! k = Some r' →
  state r ≠ Lobby →
  state r' ≠ Lobby ∧ players r' `sublist_of` players r.
Proof.
  intros Hstep Hr Hr' Hst.
  destruct (step_room _ _ _ _ _ _ _ _ Hstep Hr')
    as [Hsame|[(Hnone & _)|(r0 & ws & Hr0 & _ & [(f & -> & Hmv)|(-> & -> & Hh)])]].
  - assert (r' = r) as -> by congruence. done.
  - congruence.
  - assert (r0 = r) as -> by congruence.
    destruct Hmv as (_ & _ & _ & _ & [->|(? & _)] & Hph & _); [|done].
    split; [|done].
    destruct Hph as [->|[[_ Hin]|Hin]]; [done| |].
    + apply list_elem_of_singleton in Hin as ->. done.
    + destruct (state r); cbn in Hin;
        repeat (apply elem_of_cons in Hin as [->|Hin]);
        try (by apply elem_of_nil in Hin); done.
  - assert (r0 = r) as -> by congruence. split; [done|]. apply sublist_filter.
Qed.

(** The last vote of the scenario in server.js: the room goes from voting
    to finished, not to the lobby. *)
Lemma serverjs_no_way_back_to_lobby_witness :
  players (room_K7PQ (world_of (server_step false 0 serverjs_last_vote
                                  (Receive 5 (vote_frame "p3"))) serverjs_last_vote))
  `sublist_of` players (room_K7PQ serverjs_last_vote).
Proof.
  assert (server_step false 0 serverjs_last_vote (Receive 5 (vote_frame "p3"))
          = Returns
              (world_of (server_step false 0 serverjs_last_vote
                           (Receive 5 (vote_frame "p3"))) serverjs_last_vote)
              (sent_of (server_step false 0 serverjs_last_vote
                          (Receive 5 (vote_frame "p3"))))) as H1
    by (vm_compute; reflexivity).
  assert (rooms serverjs_last_vote !! "K7PQ" = Some (room_K7PQ serverjs_last_vote)) as H2
    by (vm_compute; reflexivity).
  assert (rooms (world_of (server_step false 0 serverjs_last_vote
                             (Receive 5 (vote_frame "p3"))) serverjs_last_vote)
            !! "K7PQ"
          = Some (room_K7PQ (world_of (server_step false 0 serverjs_last_vote
                                         (Receive 5 (vote_frame "p3")))
                                      serverjs_last_vote))) as H3
    by (vm_compute; reflexivity).
  assert (state (room_K7PQ serverjs_last_vote) ≠ Lobby) as H4
    by (vm_compute; discriminate).
  exact (proj2 (serverjs_no_way_back_to_lobby 0 serverjs_last_vote _ _ _ "K7PQ" _ _
                  H1 H2 H3 H4)).
Defined.

(** ** Invariants of the identities *)

Lemma ws_id_inj a b : ws_id a = ws_id b → a = b.
Proof. unfold ws_id. intros [= H]. by apply pretty_nat_inj in H. Qed.

(** In every world a server can reach, each room has a host and the host
    is a connection the server knows; each seat carries the identity of the
    connection that took it, a connection the server knows, and a name that
    is a string of 1 to 20 characters or an array of at most 20 elements
    (the name of a join frame may be an array, which [slice] cuts like a
    string); in server.js, which logs the name, one that has a string
    conversion. *)
Theorem members_are_connections grid w k r :
  server_reachable grid w →
  rooms w !! k = Some r →
  (∃ h, hostWs r = Some h ∧ is_Some (sockets w !! h))
  ∧ ∀ p, p ∈ players r →
         player_id p = ws_id (player_ws p)
         ∧ is_Some (sockets w !! player_ws p)
         ∧ ((∃ s, player_name p = VStr s ∧ 0 < String.length s ≤ 20)
            ∨ (∃ l, player_name p = VArr l ∧ length l ≤ 20))
         ∧ (grid = false → renders (player_name p) = true).
Proof.
  intros (_ & Hsock & Hrooms)%reachable_sound Hr.
  destruct (Hrooms k r Hr) as ((h & Hh & Hlt) & Hpl & _). split.
  - exists h. split; [done|]. by apply Hsock.
  - intros p Hp. destruct (Hpl p Hp) as (? & ? & ? & ?).
    split; [done|]. split; [by apply Hsock|done].
Qed.

Lemma members_are_connections_witness :
  ∃ h, hostWs (room_K7PQ grid_last_vote) = Some h
       ∧ is_Some (sockets grid_last_vote !! h).
Proof.
  assert (rooms grid_last_vote !! "K7PQ" = Some (room_K7PQ grid_last_vote)) as H1
    by (vm_compute; reflexivity).
  exact (proj1 (members_are_connections true grid_last_vote "K7PQ" _
                  (server_reachable_grid _ reachable_grid_last_vote) H1)).
Defined.

(** In every world a server can reach, the hints and the votes of a room
    have one entry per key, every key is the identity of a connection the
    server knows, every hint has 1 to 50 characters, and in the grid version
    every vote target is truthy. *)
Theorem hints_and_votes_are_keyed_by_connections grid w k r :
  server_reachable grid w →
  rooms w !! k = Some r →
  NoDup (keys (hints r)) ∧ NoDup (keys (votes r))
  ∧ (∀ i h, (i, h) ∈ hints r →
            0 < String.length h ≤ 50
            ∧ ∃ ws, i = ws_id ws ∧ is_Some (sockets w !! ws))
  ∧ (∀ i t, (i, t) ∈ votes r →
            (grid = true → truthy t = true)
            ∧ ∃ ws, i = ws_id ws ∧ is_Some (sockets w !! ws)).
Proof.
  intros (_ & Hsock & Hrooms)%reachable_sound Hr.
  destruct (Hrooms k r Hr) as (_ & _ & Hhi & Hvo & Hndh & Hndv & _).
  split; [done|]. split; [done|]. split.
  - intros i h Hin. destruct (Hhi i h Hin) as (? & ws & ? & ?).
    split; [done|]. exists ws. split; [done|]. by apply Hsock.
  - intros i t Hin. destruct (Hvo i t Hin) as (? & _ & ws & ? & ?).
    split; [done|]. exists ws. split; [done|]. by apply Hsock.
Qed.

Lemma hints_and_votes_are_keyed_by_connections_witness :
  NoDup (keys (hints (room_K7PQ grid_last_vote)))
  ∧ NoDup (keys (votes (room_K7PQ grid_last_vote))).
Proof.
  assert (rooms grid_last_vote !! "K7PQ" = Some (room_K7PQ grid_last_vote)) as H1
    by (vm_compute; reflexivity).
  destruct (hints_and_votes_are_keyed_by_connections true grid_last_vote "K7PQ" _
              (server_reachable_grid _ reachable_grid_last_vote) H1)
    as (Hh & Hv & _).
  split; [exact Hh|exact Hv].
Defined.

(** In every world a server can reach, a room is in one of the phases the
    server rests in (never in reveal, which is set and overwritten within one
    callback; never in accusation or chameleon_guess in server.js), and
    outside the lobby its round is set up: the secret word is defined and is a
    word of a card, and the chameleon is a string. *)
Theorem rooms_rest_in_known_phases grid w k r :
  server_reachable grid w →
  rooms w !! k = Some r →
  state r ∈ phases grid
  ∧ (state r ≠ Lobby →
     ∃ s c, secret_word r = Some (VStr s) ∧ s ∈ all_words ∧ chameleonId r = VStr c).
Proof.
  intros Hw Hr. split.
  - apply reachable_sound in Hw as (_ & _ & Hrooms).
    by destruct (Hrooms k r Hr) as (_ & _ & _ & _ & _ & _ & ? & _).
  - intros Hst.
    assert (started r) as Hstarted.
    { destruct grid.
      + apply reachable_grid_ok in Hw. destruct (Hw k r Hr) as (_ & _ & _ & _ & _ & H & _).
        by apply H.
      + apply reachable_serverjs_ok in Hw.
        destruct (Hw k r Hr) as (_ & _ & _ & _ & _ & H & _). by apply H. }
    destruct (started_secret_word r Hstarted) as (s & Hs & Hin).
    destruct Hstarted as (_ & _ & _ & c & _ & _ & _ & _ & _ & _ & Hc).
    by exists s, c.
Qed.

Lemma rooms_rest_in_known_phases_witness :
  ∃ s c, secret_word (room_K7PQ grid_last_vote) = Some (VStr s)
         ∧ s ∈ all_words ∧ chameleonId (room_K7PQ grid_last_vote) = VStr c.
Proof.
  assert (rooms grid_last_vote !! "K7PQ" = Some (room_K7PQ grid_last_vote)) as H1
    by (vm_compute; reflexivity).
  assert (state (room_K7PQ grid_last_vote) ≠ Lobby) as H2 by (vm_compute; discriminate).
  exact (proj2 (rooms_rest_in_known_phases true grid_last_vote "K7PQ" _
                  (server_reachable_grid _ reachable_grid_last_vote) H1) H2).
Defined.

(** ** Exceptions *)

Lemma create_room_no_throw send fuel w ws w' out :
  create_room send fuel w ws ≠ Throws w' out.
Proof. unfold create_room. by repeat case_match. Qed.

Lemma join_room_throws send logs w ws f w' out :
  join_room send logs w ws f = Throws w' out
  ↔ out = []
    ∧ ∃ k r, joinable w f k r
        ∧ ( (slice 20 (field "name" f) = None ∧ w' = w)
          ∨ (logs = true ∧ renders (field "name" f) = false
             ∧ ∃ nm, slice 20 (field "name" f) = Some nm
                     ∧ w' = bind_socket ws k player_role
                              (put_room k (set_players (players r ++ [seat ws nm]) r)
                                        w)) ).
Proof.
  unfold join_room, joinable. split.
  - intros H. repeat case_match; simplify_eq.
    all: match goal with H : negb (truthy _) || _ = false |- _ =>
           apply orb_false_iff in H as [Hc Hn] end.
    all: known_tests; apply truthy_VStr in Hc.
    all: match goal with H : (_ <=? _) = false |- _ => apply Nat.leb_gt in H end.
    all: match goal with H : rooms_get _ _ = Some _ |- _ => cbn [rooms_get] in H end.
    all: split; [done|]; eexists _, _; split; [done|].
    + right. match goal with H : _ && _ = true |- _ =>
        apply andb_prop in H as [-> H]; apply negb_true_iff in H end.
      split; [done|]. split; [done|]. by eexists.
    + by left.
  - intros (-> & k & r & (Hc & Hk & Hr & Hlen & Hst & Hn) & Hcase).
    apply truthy_VStr in Hk. rewrite Hc, Hk, Hn. cbn [negb orb rooms_get].
    rewrite Hr. apply Nat.leb_gt in Hlen. rewrite Hlen.
    rewrite bool_decide_eq_true_2 by done. cbn [negb].
    destruct Hcase as [[-> ->]|(-> & Hrd & nm & -> & ->)]; [done|].
    by rewrite Hrd.
Qed.

Lemma start_draws_in_range b w ws k r :
  world_ok b w → room_of_socket w ws = Some (k, r) →
  (length (players r) <? minPlayers r) = false →
  ∃ ch cat,
    players r !! (start_draws w r).2 = Some ch
    ∧ CATEGORIES !! (start_draws w r).1.1.1 = Some cat.
Proof.
  intros Hw Hr Hlen. apply Nat.ltb_ge in Hlen.
  destruct (room_of_socket_ok _ _ _ _ _ Hw Hr) as (_ & _ & _ & Hmin & _).
  unfold start_draws. cbn [fst snd].
  destruct (lookup_lt_is_Some_2 (players r)
              (floor_random (entropy w (rng w + 3)) (length (players r)))) as [ch Hch];
    [apply floor_random_lt; lia|].
  destruct (lookup_lt_is_Some_2 CATEGORIES
              (floor_random (entropy w (rng w)) (length CATEGORIES))) as [cat Hcat];
    [apply floor_random_lt; cbn; lia|].
  eauto.
Qed.

Lemma grid_start_no_throw w ws w' out :
  world_ok true w → GridServer.host_start_game w ws ≠ Throws w' out.
Proof.
  intros Hw H. unfold GridServer.host_start_game in H.
  destruct (room_of_socket w ws) as [[k r]|] eqn:Hr; [|done].
  destruct (negb _); [done|].
  destruct (_ <? _) eqn:Hlen; [done|].
  destruct (start_draws_in_range _ _ _ _ _ Hw Hr Hlen) as (ch & cat & Hch & Hcat).
  destruct (start_draws w r) as [[[ci i] j] n]. cbn [fst snd] in *.
  by rewrite Hch, Hcat in H.
Qed.

(** In server.js every name was converted for the log when its seat was
    taken, so the log line of [host_start_game] converts it again. *)
Lemma serverjs_start_no_throw w ws w' out :
  world_ok false w → world_sound false w →
  ServerJs.host_start_game w ws ≠ Throws w' out.
Proof.
  intros Hw (_ & _ & Hrooms) H. unfold ServerJs.host_start_game in H.
  destruct (room_of_socket w ws) as [[k r]|] eqn:Hr; [|done].
  destruct (negb _); [done|].
  destruct (_ <? _) eqn:Hlen; [done|].
  destruct (start_draws_in_range _ _ _ _ _ Hw Hr Hlen) as (ch & cat & Hch & Hcat).
  destruct (start_draws w r) as [[[ci i] j] n]. cbn [fst snd] in *.
  rewrite Hch, Hcat in H.
  apply room_of_socket_Some in Hr as [_ Hr].
  destruct (Hrooms k r Hr) as (_ & Hpl & _).
  destruct (Hpl ch) as (_ & _ & _ & Hrd); [by eapply list_elem_of_lookup_2|].
  by rewrite Hrd in H.
Qed.

Lemma room_of_socket_secret_word b w ws k r :
  world_ok b w → room_of_socket w ws = Some (k, r) → state r ≠ Lobby →
  ∃ s, secret_word r = Some (VStr s).
Proof.
  intros Hw Hr Hst.
  destruct (room_of_socket_ok _ _ _ _ _ Hw Hr) as (_ & _ & _ & _ & _ & Hstarted & _).
  destruct (started_secret_word r (Hstarted Hst)) as (s & Hs & _). eauto.
Qed.

Lemma grid_vote_throws w ws f w' out :
  world_ok true w →
  GridServer.vote w ws f = Throws w' out
  ↔ out = []
    ∧ ∃ k r, room_of_socket w ws = Some (k, r) ∧ state r = Voting
        ∧ w' = put_room k (with_vote ws f r) w
        ∧ truthy (field "targetId" f) = true
        ∧ length (keys (votes (with_vote ws f r))) = length (players r)
        ∧ forallb renders (values (votes (with_vote ws f r))) = false.
Proof.
  intros Hw. unfold GridServer.vote. split.
  - intros H. destruct (room_of_socket w ws) as [[k r]|] eqn:Hr; [|done].
    destruct (decide (state r = Voting)) as [Hst|Hst];
      [|by rewrite bool_decide_eq_false_2 in H].
    destruct (room_of_socket_secret_word _ _ _ _ _ Hw Hr) as [s Hs]; [congruence|].
    repeat case_match; simplify_eq;
      try match goal with H : secret_word _ = None |- _ =>
            change (secret_word r = None) in H; congruence end.
    known_tests.
    match goal with H : (_ =? _) = true |- _ => apply Nat.eqb_eq in H end.
    match goal with H : negb (forallb _ _) = true |- _ =>
      apply negb_true_iff in H end.
    split; [done|]. exists k, r. done.
  - intros (-> & k & r & -> & Hst & -> & Ht & Hlen & Hrd).
    rewrite bool_decide_eq_true_2 by done. rewrite Ht. cbn [negb].
    fold (with_vote ws f r). change (players (with_vote ws f r)) with (players r).
    by rewrite Hlen, Nat.eqb_refl, Hrd.
Qed.

(** The votes of a room of server.js were each converted for the log, so
    its tally converts them again. *)
Lemma serverjs_votes_render w k r ws f :
  world_sound false w → rooms w !! k = Some r →
  renders (field "targetId" f) = true →
  forallb renders (values (votes (with_vote ws f r))) = true.
Proof.
  intros (_ & _ & Hrooms) Hr Ht.
  destruct (Hrooms k r Hr) as (_ & _ & _ & Hvo & _).
  apply forallb_forall. intros t Hin. apply list_elem_of_In in Hin.
  apply list_elem_of_fmap in Hin as ([i t'] & -> & Hin).
  apply elem_of_obj_set in Hin as [[= -> ->]|Hin]; [done|].
  destruct (Hvo i t' Hin) as (_ & Hrd & _). by apply Hrd.
Qed.

Lemma serverjs_vote_throws w ws f w' out :
  world_ok false w → world_sound false w →
  ServerJs.vote w ws f = Throws w' out
  ↔ out = []
    ∧ ∃ k r, room_of_socket w ws = Some (k, r) ∧ state r = Voting
        ∧ w' = put_room k (with_vote ws f r) w
        ∧ renders (field "targetId" f) = false.
Proof.
  intros Hw Hsound. unfold ServerJs.vote. split.
  - intros H. destruct (room_of_socket w ws) as [[k r]|] eqn:Hr; [|done].
    destruct (decide (state r = Voting)) as [Hst|Hst];
      [|by rewrite bool_decide_eq_false_2 in H].
    destruct (room_of_socket_secret_word _ _ _ _ _ Hw Hr) as [s Hs]; [congruence|].
    rewrite bool_decide_eq_true_2 in H by done. cbn [negb] in H.
    destruct (renders (field "targetId" f)) eqn:Hrd; cbn [negb] in H.
    + fold (with_vote ws f r) in H.
      rewrite (serverjs_votes_render w k r ws f Hsound) in H;
        [|by apply room_of_socket_Some in Hr as [_ ?]|done].
      cbn [negb] in H. change (secret_word (with_vote ws f r)) with (secret_word r) in H.
      rewrite Hs in H. by destruct (_ =? _).
    + injection H as <- <-. split; [done|]. eexists _, _. eauto.
  - intros (-> & k & r & -> & Hst & -> & Hrd).
    rewrite bool_decide_eq_true_2 by done. by rewrite Hrd.
Qed.

Lemma grid_chameleon_guess_throws w ws f w' out :
  world_ok true w →
  GridServer.chameleon_guess w ws f = Throws w' out
  ↔ out = [] ∧ w' = w
    ∧ (∃ k r, room_of_socket w ws = Some (k, r) ∧ state r = ChameleonGuess
              ∧ chameleonId r = VStr (ws_id ws))
    ∧ truthy (field "guess" f) = true ∧ ∀ s, field "guess" f ≠ VStr s.
Proof.
  intros Hw. unfold GridServer.chameleon_guess. split.
  - intros H. destruct (room_of_socket w ws) as [[k r]|] eqn:Hr; [|done].
    destruct (decide (state r = ChameleonGuess)) as [Hst|Hst];
      [|by rewrite bool_decide_eq_false_2 in H].
    destruct (room_of_socket_secret_word _ _ _ _ _ Hw Hr) as [s Hs]; [congruence|].
    rewrite Hs in H. cbn [mbind option_bind] in H. unfold GridServer.guess_correct in H.
    repeat case_match; simplify_eq; known_tests.
    all: match goal with H : strict_eq (VStr _) _ = true |- _ =>
           symmetry in H; destruct (chameleonId r) eqn:Hc; try done;
           cbn [strict_eq] in H; symmetry in H; apply String.eqb_eq in H; subst end.
    all: split; [done|]; split; [done|]; split; [by eexists _, _|]; done.
  - intros (-> & -> & (k & r & Hr & Hst & Hc) & Hg & Hno). rewrite Hr.
    rewrite bool_decide_eq_true_2 by done. rewrite Hc. cbn [negb strict_eq].
    rewrite String.eqb_refl. cbn [negb].
    destruct (room_of_socket_secret_word _ _ _ _ _ Hw Hr) as [s Hs]; [congruence|].
    rewrite Hs. cbn [mbind option_bind]. unfold GridServer.guess_correct.
    rewrite Hg. cbn [negb].
    destruct (field "guess" f); try done. by destruct (Hno s0).
Qed.

Lemma grid_dispatch fuel w ws f :
  (type f = VStr "join_room" →
   GridServer.on_message fuel w ws f = join_room GridServer.send false w ws f)
  ∧ (type f = VStr "vote" → GridServer.on_message fuel w ws f = GridServer.vote w ws f)
  ∧ (type f = VStr "chameleon_guess" →
     GridServer.on_message fuel w ws f = GridServer.chameleon_guess w ws f).
Proof. unfold GridServer.on_message. repeat split; by intros ->. Qed.

Lemma serverjs_dispatch fuel w ws f :
  (type f = VStr "join_room" →
   ServerJs.on_message fuel w ws f = join_room ServerJs.send true w ws f)
  ∧ (type f = VStr "vote" → ServerJs.on_message fuel w ws f = ServerJs.vote w ws f).
Proof. unfold ServerJs.on_message. repeat split; by intros ->. Qed.

(** When a message callback throws.  In a world a server can reach, the
    callback of a frame throws in exactly these cases, always with nothing
    sent:
    - [join_room] into a room that would take the sender (it exists, is in
      the lobby and has a free seat; the name is truthy), when the name has
      no [slice] method (it is neither a string nor an array): nothing has
      changed; or, in server.js, when it has one but no string conversion
      (an array that holds an object with a key [toString]): the seat is
      taken and the sender bound to the room, the log line throws before
      the [room_update];
    - [vote] in a voting room: in server.js when the target has no string
      conversion (the log line), in the grid version when the vote is the
      last one missing and some recorded target has none (the tally); the
      vote is recorded;
    - [chameleon_guess] from the chameleon in the chameleon_guess phase of
      the grid version, when the guess is truthy and no string: nothing has
      changed.
    No other frame makes a callback throw: the draws of [host_start_game]
    are inside the card list, the grid and the player list, and the secret
    word of a started round is defined. *)
Theorem callback_throws_exactly_when grid fuel w ws f w' out :
  server_reachable grid w →
  server_on_message grid fuel w ws f = Throws w' out
  ↔ out = []
    ∧ ( (type f = VStr "join_room"
         ∧ ∃ k r, joinable w f k r
             ∧ ( (slice 20 (field "name" f) = None ∧ w' = w)
               ∨ (grid = false ∧ renders (field "name" f) = false
                  ∧ ∃ nm, slice 20 (field "name" f) = Some nm
                          ∧ w' = bind_socket ws k player_role
                                   (put_room k
                                      (set_players (players r ++ [seat ws nm]) r) w)) ))
      ∨ (type f = VStr "vote"
         ∧ ∃ k r, room_of_socket w ws = Some (k, r) ∧ state r = Voting
             ∧ w' = put_room k (with_vote ws f r) w
             ∧ (if grid
                then truthy (field "targetId" f) = true
                     ∧ length (keys (votes (with_vote ws f r))) = length (players r)
                     ∧ forallb renders (values (votes (with_vote ws f r))) = false
                else renders (field "targetId" f) = false))
      ∨ (grid = true ∧ type f = VStr "chameleon_guess" ∧ w' = w
         ∧ (∃ k r, room_of_socket w ws = Some (k, r) ∧ state r = ChameleonGuess
                   ∧ chameleonId r = VStr (ws_id ws))
         ∧ truthy (field "guess" f) = true ∧ ∀ s, field "guess" f ≠ VStr s) ).
Proof.
  intros Hw. pose proof (reachable_sound _ _ Hw) as Hsound.
  destruct grid; cbn [server_on_message].
  - apply reachable_grid_ok in Hw.
    destruct (grid_dispatch fuel w ws f) as (Hjoin & Hvote & Hguess). split.
    + unfold GridServer.on_message.
      destruct (case_ _ "create_room"); [by intros ?%create_room_no_throw|].
      destruct (case_ _ "join_room") eqn:Hj.
      { apply case_type in Hj.
        intros (-> & k & r & Hjn & [Hcase|(? & _)])%join_room_throws; [|done].
        split; [done|]. left. split; [done|]. eauto 10. }
      destruct (case_ _ "host_start_game"); [by intros ?%grid_start_no_throw|].
      destruct (case_ _ "submit_hint").
      { unfold GridServer.submit_hint. intros H. by repeat case_match. }
      destruct (case_ _ "accuse").
      { unfold GridServer.accuse. intros H. by repeat case_match. }
      destruct (case_ _ "vote") eqn:Hv.
      { apply case_type in Hv.
        intros (-> & k & r & ? & ? & ? & ? & ? & ?)%grid_vote_throws; [|done].
        split; [done|]. right. left. split; [done|]. eauto 10. }
      destruct (case_ _ "chameleon_guess") eqn:Hg.
      { apply case_type in Hg.
        intros (-> & -> & ? & ? & ?)%grid_chameleon_guess_throws; [|done].
        split; [done|]. right. right. auto 10. }
      destruct (case_ _ "host_reset"); [|done].
      unfold GridServer.host_reset. intros H. by repeat case_match.
    + intros (-> & [(Ht & k & r & Hjn & [Hcase|(? & _)])
                   |[(Ht & k & r & ? & ? & ? & ? & ? & ?)
                    |(_ & Ht & -> & ? & ? & ?)]]); [|done| |].
      * rewrite (Hjoin Ht). apply join_room_throws. split; [done|]. eauto 10.
      * rewrite (Hvote Ht). apply grid_vote_throws; [done|]. split; [done|]. eauto 10.
      * rewrite (Hguess Ht). by apply grid_chameleon_guess_throws.
  - apply reachable_serverjs_ok in Hw.
    destruct (serverjs_dispatch fuel w ws f) as (Hjoin & Hvote). split.
    + unfold ServerJs.on_message.
      destruct (case_ _ "create_room"); [by intros ?%create_room_no_throw|].
      destruct (case_ _ "join_room") eqn:Hj.
      { apply case_type in Hj.
        intros (-> & k & r & Hjn & Hcase)%join_room_throws.
        split; [done|]. left. split; [done|]. exists k, r. split; [done|].
        destruct Hcase as [?|(_ & ? & ?)]; [by left|right; auto]. }
      destruct (case_ _ "host_start_game"); [by intros ?%serverjs_start_no_throw|].
      destruct (case_ _ "submit_hint").
      { unfold ServerJs.submit_hint. intros H. by repeat case_match. }
      destruct (case_ _ "vote") eqn:Hv; [|done].
      apply case_type in Hv.
      intros (-> & k & r & ? & ? & ? & ?)%serverjs_vote_throws; [|done..].
      split; [done|]. right. left. split; [done|]. eauto 10.
    + intros (-> & [(Ht & k & r & Hjn & Hcase)
                   |[(Ht & k & r & ? & ? & ? & ?)|(? & _)]]); [| |done].
      * rewrite (Hjoin Ht). apply join_room_throws. split; [done|].
        exists k, r. split; [done|].
        destruct Hcase as [?|(_ & ? & ?)]; [by left|right; auto].
      * rewrite (Hvote Ht). apply serverjs_vote_throws; [done..|].
        split; [done|]. eauto 10.
Qed.

(** Three frames that throw: a join whose name is the number 7 (the grid
    version; nothing has changed), and in server.js a join whose name is an
    array holding an object with a key [toString], and a vote for such an
    object. *)
Lemma callback_throws_exactly_when_witness :
  server_on_message true 0 grid_five 2
    (Frame (VStr "join_room") [("code", VStr "K7PQ"); ("name", VNum "7")])
  = Throws grid_five []
  ∧ (∃ w', server_on_message false 0 serverjs_five 2
             (Frame (VStr "join_room")
                    [("code", VStr "K7PQ"); ("name", VArr [unprintable])])
           = Throws w' []
           ∧ (length ∘ players) <$> rooms w' !! "K7PQ" = Some 6)
  ∧ server_on_message false 0 serverjs_last_vote 5
      (Frame (VStr "vote") [("targetId", unprintable)])
    = Throws
        (put_room "K7PQ"
           (with_vote 5 (Frame (VStr "vote") [("targetId", unprintable)])
                      (room_K7PQ serverjs_last_vote))
           serverjs_last_vote) [].
Proof.
  assert (server_reachable true grid_five) as Hg
    by apply (server_reachable_grid _ (reachable_after_run _ _ _ _ _ _
                                         (reachable_boot _ _ _ _))).
  assert (server_reachable false serverjs_five) as Hj
    by apply (server_reachable_serverjs _ (reachable_after_run _ _ _ _ _ _
                                             (reachable_boot _ _ _ _))).
  assert (rooms grid_five !! "K7PQ" = Some (room_K7PQ grid_five)) as H1
    by (vm_compute; reflexivity).
  assert (rooms serverjs_five !! "K7PQ" = Some (room_K7PQ serverjs_five)) as H2
    by (vm_compute; reflexivity).
  assert (length (players (room_K7PQ grid_five)) < capacity (room_K7PQ grid_five)) as H3
    by (vm_compute; lia).
  assert (length (players (room_K7PQ serverjs_five))
          < capacity (room_K7PQ serverjs_five)) as H4 by (vm_compute; lia).
  assert (state (room_K7PQ grid_five) = Lobby) as H5 by (vm_compute; reflexivity).
  assert (state (room_K7PQ serverjs_five) = Lobby) as H6 by (vm_compute; reflexivity).
  assert (room_of_socket serverjs_last_vote 5
          = Some ("K7PQ", room_K7PQ serverjs_last_vote)) as H7
    by (vm_compute; reflexivity).
  assert (state (room_K7PQ serverjs_last_vote) = Voting) as H8
    by (vm_compute; reflexivity).
  assert ("K7PQ" ≠ "") as H9 by discriminate.
  split; [|split].
  - apply (callback_throws_exactly_when true 0 grid_five 2 _ _ _ Hg).
    split; [reflexivity|]. left. split; [reflexivity|].
    exists "K7PQ", (room_K7PQ grid_five).
    split; [exact (conj eq_refl (conj H9 (conj H1 (conj H3 (conj H5 eq_refl)))))|].
    left. split; reflexivity.
  - eexists. split.
    + apply (callback_throws_exactly_when false 0 serverjs_five 2 _ _ _ Hj).
      split; [reflexivity|]. left. split; [reflexivity|].
      exists "K7PQ", (room_K7PQ serverjs_five).
      split; [exact (conj eq_refl (conj H9 (conj H2 (conj H4 (conj H6 eq_refl)))))|].
      right. split; [reflexivity|]. split; [reflexivity|].
      eexists. split; reflexivity.
    + vm_compute. reflexivity.
  - apply (callback_throws_exactly_when false 0 serverjs_last_vote 5 _ _ _
             (server_reachable_serverjs _ reachable_serverjs_last_vote)).
    split; [reflexivity|]. right. left. split; [reflexivity|].
    exists "K7PQ", (room_K7PQ serverjs_last_vote).
    split; [exact H7|]. split; [exact H8|]. split; reflexivity.
Defined.

(** ** Starting a round *)





(** ** A player disconnects *)

Lemma roomCode_of_set_readyState ws b w ws' :
  roomCode_of (set_readyState ws b w) ws' = roomCode_of w ws'.
Proof.
  unfold roomCode_of, set_readyState. cbn.
  destruct (decide (ws = ws')) as [<-|Hne].
  - rewrite lookup_alter_eq. by destruct (sockets w !! ws).
  - by rewrite lookup_alter_ne.
Qed.

Lemma readyState_open_set_readyState_ne ws b w ws' :
  ws ≠ ws' → readyState_open (set_readyState ws b w) ws' = readyState_open w ws'.
Proof.
  intros Hne. unfold readyState_open, set_readyState. cbn.
  by rewrite lookup_alter_ne.
Qed.

Lemma readyState_open_set_readyState_eq ws w :
  readyState_open (set_readyState ws false w) ws = false.
Proof.
  unfold readyState_open, set_readyState. cbn. rewrite lookup_alter_eq.
  by destruct (sockets w !! ws).
Qed.

Lemma room_key_nonempty b w k r : world_ok b w → rooms w !! k = Some r → k ≠ "".
Proof. intros Hw Hr. destruct (Hw k r Hr) as (_ & Hlen & _). by intros ->. Qed.

(** Grid version: in a world the server can reach, when a socket that is
    not the host of the room it is bound to closes, the room stays in the
    store without that socket's seats, no other room changes, and the
    [room_update] goes to every remaining member whose socket is open, the
    host, who is always there, included.  The room is never deleted by a
    player leaving. *)
Theorem grid_room_outlives_its_players fuel w ws k r :
  reachable_grid w →
  readyState_open w ws = true →
  roomCode_of w ws = Some k →
  rooms w !! k = Some r →
  hostWs r ≠ Some ws →
  ∃ w' h,
    server_step true fuel w (Close ws)
    = Returns w'
        (broadcast (set_readyState ws false w) (clients_of (leaves ws r))
           (room_update (getPublicRoomState (leaves ws r))))
    ∧ rooms w' = <[k := leaves ws r]> (rooms w)
    ∧ hostWs r = Some h
    ∧ (readyState_open w h = true →
       (h, room_update (getPublicRoomState (leaves ws r)))
       ∈ broadcast (set_readyState ws false w) (clients_of (leaves ws r))
           (room_update (getPublicRoomState (leaves ws r)))).
Proof.
  intros Hw Hopen Hk Hr Hhost.
  pose proof (room_key_nonempty _ _ _ _ (reachable_grid_ok _ Hw) Hr) as Hne.
  apply server_reachable_grid, reachable_sound in Hw as (_ & _ & Hrooms).
  destruct (Hrooms k r Hr) as ((h & Hh & _) & _).
  assert (h ≠ ws) as Hhw by congruence.
  eexists _, h. split; [|split; [|split; [exact Hh|]]].
  - unfold server_step. cbn [step]. rewrite Hopen.
    cbn [server_on_close]. unfold GridServer.on_close.
    rewrite roomCode_of_set_readyState, Hk.
    apply truthy_VStr in Hne. rewrite Hne. cbn [negb rooms set_readyState set_sockets].
    rewrite Hr, bool_decide_eq_false_2 by done.
    change (clients_of (set_players _ r)) with (clients_of (leaves ws r)).
    assert (length (clients_of (leaves ws r)) ≠ 0) as Hlen.
    { unfold clients_of. rewrite length_app. cbn [hostWs leaves set_players].
      rewrite Hh. cbn. lia. }
    apply Nat.eqb_neq in Hlen. rewrite Hlen. reflexivity.
  - reflexivity.
  - intros Hho. apply elem_of_broadcast.
    + by apply host_in_clients.
    + by rewrite readyState_open_set_readyState_ne.
Qed.

(** Socket 2 leaves the five-seat lobby of the grid version: four seats
    remain and the host is told. *)
Lemma grid_room_outlives_its_players_witness :
  ∃ w',
    rooms w' = <["K7PQ" := leaves 2 (room_K7PQ grid_five)]> (rooms grid_five)
    ∧ length (players (leaves 2 (room_K7PQ grid_five))) = 4
    ∧ (1, room_update (getPublicRoomState (leaves 2 (room_K7PQ grid_five))))
      ∈ broadcast (set_readyState 2 false grid_five)
          (clients_of (leaves 2 (room_K7PQ grid_five)))
          (room_update (getPublicRoomState (leaves 2 (room_K7PQ grid_five)))).
Proof.
  assert (readyState_open grid_five 2 = true) as H1 by (vm_compute; reflexivity).
  assert (roomCode_of grid_five 2 = Some "K7PQ") as H2 by (vm_compute; reflexivity).
  assert (rooms grid_five !! "K7PQ" = Some (room_K7PQ grid_five)) as H3
    by (vm_compute; reflexivity).
  assert (hostWs (room_K7PQ grid_five) ≠ Some 2) as H4 by (vm_compute; discriminate).
  assert (hostWs (room_K7PQ grid_five) = Some 1) as H5 by (vm_compute; reflexivity).
  assert (readyState_open grid_five 1 = true) as H6 by (vm_compute; reflexivity).
  assert (length (players (leaves 2 (room_K7PQ grid_five))) = 4) as H7
    by (vm_compute; reflexivity).
  destruct (grid_room_outlives_its_players 0 grid_five 2 "K7PQ" _
              (reachable_after_run _ _ _ _ _ _ (reachable_boot _ _ _ _))
              H1 H2 H3 H4) as (w' & h & _ & Hrooms & Hh & Htold).
  rewrite H5 in Hh. injection Hh as <-.
  exists w'. split; [exact Hrooms|]. split; [exact H7|exact (Htold H6)].
Defined.

(** server.js: when a socket that is not the host of the room it is bound
    to closes, the [room_update] goes to the remaining seats only, never to
    the host as such; and when no seat remains the room is deleted although
    its host is still connected and still bound to its code: the host is told
    nothing, and its next [host_start_game] is answered [not_host_or_room]. *)
Theorem serverjs_room_dies_with_its_last_seat fuel w ws k r h :
  reachable_serverjs w →
  readyState_open w ws = true →
  roomCode_of w ws = Some k →
  rooms w !! k = Some r →
  hostWs r = Some h →
  h ≠ ws →
  ∃ w',
    server_step false fuel w (Close ws)
    = Returns w'
        (broadcast (set_readyState ws false w) (map player_ws (players (leaves ws r)))
           (room_update (getPublicRoomState (leaves ws r))))
    ∧ rooms w'
      = (if decide (players (leaves ws r) = []) then delete k (rooms w)
         else <[k := leaves ws r]> (rooms w))
    ∧ (players (leaves ws r) = [] →
       roomCode_of w h = Some k →
       readyState_open w h = true →
       ∀ f, type f = VStr "host_start_game" →
            server_on_message false fuel w' h f
            = Returns w' [(h, error "not_host_or_room")]).
Proof.
  intros Hw Hopen Hk Hr Hh Hhw.
  pose proof (room_key_nonempty _ _ _ _ (reachable_serverjs_ok _ Hw) Hr) as Hne.
  assert (hostWs r ≠ Some ws) as Hhost by congruence.
  assert (server_step false fuel w (Close ws)
          = (let '(w', out) := ServerJs.on_close (set_readyState ws false w) ws in
             Returns w' out)) as Hstep.
  { unfold server_step. cbn [step]. by rewrite Hopen. }
  unfold ServerJs.on_close in Hstep.
  rewrite roomCode_of_set_readyState, Hk in Hstep.
  apply truthy_VStr in Hne. rewrite Hne in Hstep.
  cbn [negb rooms set_readyState set_sockets] in Hstep.
  rewrite Hr, bool_decide_eq_false_2 in Hstep by done.
  change (set_players _ r) with (leaves ws r) in Hstep.
  destruct (decide (players (leaves ws r) = [])) as [Hnil|Hsome].
  - rewrite Hnil in Hstep. cbn [map length Nat.eqb negb] in Hstep.
    eexists. split; [rewrite Hnil; exact Hstep|].
    split; [reflexivity|]. intros _ Hkh Hoh f Ht.
    cbn [server_on_message]. unfold ServerJs.on_message. rewrite Ht.
    cbn [case_ strict_eq]. cbn. unfold ServerJs.host_start_game, room_of_socket.
    change (roomCode_of (set_rooms _ _) h) with (roomCode_of (set_readyState ws false w) h).
    rewrite roomCode_of_set_readyState, Hkh. cbn. rewrite lookup_delete_eq. cbn.
    unfold ServerJs.send.
    change (readyState_open (set_rooms _ _) h)
      with (readyState_open (set_readyState ws false w) h).
    by rewrite readyState_open_set_readyState_ne, Hoh.
  - assert (length (map player_ws (players (leaves ws r))) ≠ 0) as Hlen.
    { rewrite length_map. by destruct (players (leaves ws r)). }
    apply Nat.eqb_neq in Hlen. rewrite Hlen in Hstep. cbn [negb] in Hstep.
    eexists. split; [exact Hstep|]. split; [reflexivity|]. done.
Qed.

(** Ann, the only player of [K7PQ] in server.js, disconnects: the room is
    gone, nothing is sent, and the host's start is refused. *)
Lemma serverjs_room_dies_with_its_last_seat_witness :
  ∃ w',
    server_step false 0 serverjs_one_player (Close 2) = Returns w' []
    ∧ rooms w' !! "K7PQ" = None
    ∧ server_on_message false 0 w' 1 start_frame
      = Returns w' [(1, error "not_host_or_room")].
Proof.
  assert (readyState_open serverjs_one_player 2 = true) as H1
    by (vm_compute; reflexivity).
  assert (roomCode_of serverjs_one_player 2 = Some "K7PQ") as H2
    by (vm_compute; reflexivity).
  assert (rooms serverjs_one_player !! "K7PQ" = Some (room_K7PQ serverjs_one_player))
    as H3 by (vm_compute; reflexivity).
  assert (hostWs (room_K7PQ serverjs_one_player) = Some 1) as H4
    by (vm_compute; reflexivity).
  assert (players (leaves 2 (room_K7PQ serverjs_one_player)) = []) as H5
    by (vm_compute; reflexivity).
  assert (roomCode_of serverjs_one_player 1 = Some "K7PQ") as H6
    by (vm_compute; reflexivity).
  assert (readyState_open serverjs_one_player 1 = true) as H7
    by (vm_compute; reflexivity).
  destruct (serverjs_room_dies_with_its_last_seat 0 serverjs_one_player 2 "K7PQ" _ 1
              (reachable_after_run _ _ _ _ _ _ (reachable_boot _ _ _ _))
              H1 H2 H3 H4 ltac:(discriminate))
    as (w' & Hstep & Hrooms & Hnext).
  rewrite H5 in Hstep, Hrooms. cbn [map] in Hstep.
  exists w'. split; [exact Hstep|]. split.
  - rewrite Hrooms. cbn. apply lookup_delete_eq.
  - exact (Hnext H5 H6 H7 start_frame eq_refl).
Defined.

(** ** Sending a hint or a vote again *)

Lemma obj_set_twice {V} k (v1 v2 : V) o :
  obj_set k v2 (obj_set k v1 o) = obj_set k v2 o.
Proof.
  induction o as [|[k' v'] o IH]; cbn.
  - by rewrite String.eqb_refl.
  - destruct (String.eqb k k') eqn:Hk; cbn.
    + by rewrite String.eqb_refl.
    + by rewrite Hk, IH.
Qed.

Lemma keys_obj_set_same {V} k (v1 v2 : V) o :
  keys (obj_set k v1 o) = keys (obj_set k v2 o).
Proof. by rewrite !keys_obj_set. Qed.

Lemma put_room_twice k r1 r2 w : put_room k r2 (put_room k r1 w) = put_room k r2 w.
Proof. unfold put_room, set_rooms. cbn. by rewrite insert_insert_eq. Qed.

Lemma room_of_socket_put_room w ws k r r' :
  room_of_socket w ws = Some (k, r) →
  room_of_socket (put_room k r' w) ws = Some (k, r').
Proof.
  intros [Hb _]%room_of_socket_Some. apply room_of_socket_Some.
  split; [done|]. by rewrite rooms_put_room, lookup_insert_eq.
Qed.

(** A hint of 1 to 50 characters that does not complete the round. *)
Lemma submit_hint_incomplete grid fuel w ws k r h :
  room_of_socket w ws = Some (k, r) →
  state r = Hint →
  h ≠ "" → String.length h ≤ 50 →
  length (keys (obj_set (ws_id ws) h (hints r))) ≠ length (players r) →
  server_on_message grid fuel w ws (hint_frame h)
  = Returns (put_room k (set_hints (obj_set (ws_id ws) h (hints r)) r) w)
      (broadcast w (clients_of r)
         (hint_progress (length (keys (obj_set (ws_id ws) h (hints r))))
                        (length (players r)))).
Proof.
  intros Hr Hst Hne Hlen Hcount.
  apply truthy_VStr in Hne. apply Nat.eqb_neq in Hcount.
  assert ((50 <? String.length h) = false) as Hlt by (apply Nat.ltb_ge; lia).
  destruct grid; cbn [server_on_message].
  - change (GridServer.on_message fuel w ws (hint_frame h))
      with (GridServer.submit_hint w ws (hint_frame h)).
    unfold GridServer.submit_hint. rewrite Hr, bool_decide_eq_true_2 by done.
    change (field "hint" (hint_frame h)) with (VStr h).
    rewrite Hne, Hlt, slice0_short by done. cbn [negb orb].
    cbn [hints players set_hints]. by rewrite Hcount.
  - change (ServerJs.on_message fuel w ws (hint_frame h))
      with (ServerJs.submit_hint w ws (hint_frame h)).
    unfold ServerJs.submit_hint. rewrite Hr, bool_decide_eq_true_2 by done.
    change (field "hint" (hint_frame h)) with (VStr h).
    rewrite Hne, slice0_short by done. cbn [negb orb].
    cbn [hints players set_hints]. by rewrite Hcount.
Qed.

(** While the round of hints is not complete a socket can replace its
    hint: after a hint of 1 to 50 characters that left the room in the hint
    phase, a second one from the same socket is handled exactly as if the
    first had never been sent, same world and same sends, and both report the
    same progress.  Both servers. *)
Theorem hint_can_be_replaced grid fuel w ws k r h1 h2 :
  room_of_socket w ws = Some (k, r) →
  state r = Hint →
  h1 ≠ "" → String.length h1 ≤ 50 →
  h2 ≠ "" → String.length h2 ≤ 50 →
  length (keys (obj_set (ws_id ws) h1 (hints r))) ≠ length (players r) →
  server_on_message grid fuel
    (world_of (server_on_message grid fuel w ws (hint_frame h1)) w) ws
    (hint_frame h2)
  = server_on_message grid fuel w ws (hint_frame h2)
  ∧ sent_of (server_on_message grid fuel w ws (hint_frame h2))
    = sent_of (server_on_message grid fuel w ws (hint_frame h1))
  ∧ ∀ r2, room_of_socket (world_of (server_on_message grid fuel w ws (hint_frame h2)) w)
            ws = Some (k, r2) →
          obj_get (ws_id ws) (hints r2) = Some h2.
Proof.
  intros Hr Hst Hne1 Hlen1 Hne2 Hlen2 Hcount.
  assert (length (keys (obj_set (ws_id ws) h2 (hints r))) ≠ length (players r)) as Hcount2
    by (by rewrite (keys_obj_set_same _ h2 h1)).
  rewrite (submit_hint_incomplete grid fuel w ws k r h1) by done.
  rewrite (submit_hint_incomplete grid fuel w ws k r h2) by done.
  cbn [world_of sent_of]. split; [|split].
  - erewrite submit_hint_incomplete;
      [|by apply (room_of_socket_put_room _ _ _ r)|done..|
       cbn [hints players set_hints]; by rewrite obj_set_twice].
    cbn [hints players set_hints]. rewrite obj_set_twice, put_room_twice.
    reflexivity.
  - by rewrite (keys_obj_set_same _ h2 h1).
  - intros r2 Hr2. rewrite (room_of_socket_put_room _ _ _ r) in Hr2 by done.
    injection Hr2 as <-. cbn [hints set_hints]. apply obj_get_set_eq.
Qed.

(** Ann replaces her hint "sour" by "tart" while three hints are missing. *)
Lemma hint_can_be_replaced_witness :
  server_on_message true 0
    (world_of (server_on_message true 0 grid_hint_phase 2 (hint_frame "sour"))
              grid_hint_phase) 2 (hint_frame "tart")
  = server_on_message true 0 grid_hint_phase 2 (hint_frame "tart").
Proof.
  assert (room_of_socket grid_hint_phase 2 = Some ("K7PQ", room_K7PQ grid_hint_phase))
    as H1 by (vm_compute; reflexivity).
  assert (state (room_K7PQ grid_hint_phase) = Hint) as H2 by (vm_compute; reflexivity).
  assert (length (keys (obj_set (ws_id 2) "sour" (hints (room_K7PQ grid_hint_phase))))
          ≠ length (players (room_K7PQ grid_hint_phase))) as H3
    by (vm_compute; discriminate).
  exact (proj1 (hint_can_be_replaced true 0 grid_hint_phase 2 "K7PQ" _ "sour" "tart"
                  H1 H2 ltac:(discriminate) ltac:(cbn; lia)
                  ltac:(discriminate) ltac:(cbn; lia) H3)).
Defined.

(** A vote for a non-empty string that does not complete the round. *)
Lemma vote_incomplete grid fuel w ws k r t :
  room_of_socket w ws = Some (k, r) →
  state r = Voting →
  t ≠ "" →
  length (keys (obj_set (ws_id ws) (VStr t) (votes r))) ≠ length (players r) →
  server_on_message grid fuel w ws (vote_frame t)
  = Returns (put_room k (set_votes (obj_set (ws_id ws) (VStr t) (votes r)) r) w)
      (broadcast w (clients_of r)
         (vote_progress (length (keys (obj_set (ws_id ws) (VStr t) (votes r))))
                        (length (players r)))).
Proof.
  intros Hr Hst Hne Hcount.
  apply truthy_VStr in Hne. apply Nat.eqb_neq in Hcount.
  destruct grid; cbn [server_on_message].
  - change (GridServer.on_message fuel w ws (vote_frame t))
      with (GridServer.vote w ws (vote_frame t)).
    unfold GridServer.vote. rewrite Hr, bool_decide_eq_true_2 by done.
    change (field "targetId" (vote_frame t)) with (VStr t).
    rewrite Hne. cbn [negb votes players set_votes]. by rewrite Hcount.
  - change (ServerJs.on_message fuel w ws (vote_frame t))
      with (ServerJs.vote w ws (vote_frame t)).
    unfold ServerJs.vote. rewrite Hr, bool_decide_eq_true_2 by done.
    change (field "targetId" (vote_frame t)) with (VStr t).
    cbn [negb votes players set_votes]. by rewrite Hcount.
Qed.

(** While the vote is not complete a socket can change its vote: after a
    vote that left the room voting, a second one from the same socket is
    handled exactly as if the first had never been sent, and the recorded vote
    of that socket is the second target.  Both servers. *)
Theorem vote_can_be_changed grid fuel w ws k r t1 t2 :
  room_of_socket w ws = Some (k, r) →
  state r = Voting →
  t1 ≠ "" → t2 ≠ "" →
  length (keys (obj_set (ws_id ws) (VStr t1) (votes r))) ≠ length (players r) →
  server_on_message grid fuel
    (world_of (server_on_message grid fuel w ws (vote_frame t1)) w) ws
    (vote_frame t2)
  = server_on_message grid fuel w ws (vote_frame t2)
  ∧ sent_of (server_on_message grid fuel w ws (vote_frame t2))
    = sent_of (server_on_message grid fuel w ws (vote_frame t1))
  ∧ ∀ r2, room_of_socket (world_of (server_on_message grid fuel w ws (vote_frame t2)) w)
            ws = Some (k, r2) →
          obj_get (ws_id ws) (votes r2) = Some (VStr t2).
Proof.
  intros Hr Hst Hne1 Hne2 Hcount.
  assert (length (keys (obj_set (ws_id ws) (VStr t2) (votes r))) ≠ length (players r))
    as Hcount2 by (by rewrite (keys_obj_set_same _ (VStr t2) (VStr t1))).
  rewrite (vote_incomplete grid fuel w ws k r t1) by done.
  rewrite (vote_incomplete grid fuel w ws k r t2) by done.
  cbn [world_of sent_of]. split; [|split].
  - erewrite vote_incomplete;
      [|by apply (room_of_socket_put_room _ _ _ r)|done..|
       cbn [votes players set_votes]; by rewrite obj_set_twice].
    cbn [votes players set_votes]. rewrite obj_set_twice, put_room_twice.
    reflexivity.
  - by rewrite (keys_obj_set_same _ (VStr t2) (VStr t1)).
  - intros r2 Hr2. rewrite (room_of_socket_put_room _ _ _ r) in Hr2 by done.
    injection Hr2 as <-. cbn [votes set_votes]. apply obj_get_set_eq.
Qed.

(** In server.js Ann changes her vote from p3 to p4 while two votes are
    missing. *)
Lemma vote_can_be_changed_witness :
  server_on_message false 0
    (world_of (server_on_message false 0 serverjs_two_votes 2 (vote_frame "p3"))
              serverjs_two_votes) 2 (vote_frame "p4")
  = server_on_message false 0 serverjs_two_votes 2 (vote_frame "p4").
Proof.
  assert (room_of_socket serverjs_two_votes 2
          = Some ("K7PQ", room_K7PQ serverjs_two_votes)) as H1
    by (vm_compute; reflexivity).
  assert (state (room_K7PQ serverjs_two_votes) = Voting) as H2
    by (vm_compute; reflexivity).
  assert (length (keys (obj_set (ws_id 2) (VStr "p3")
                          (votes (room_K7PQ serverjs_two_votes))))
          ≠ length (players (room_K7PQ serverjs_two_votes))) as H3
    by (vm_compute; discriminate).
  exact (proj1 (vote_can_be_changed false 0 serverjs_two_votes 2 "K7PQ" _
                  "p3" "p4" H1 H2 ltac:(discriminate) ltac:(discriminate) H3)).
Defined.

(** ** Identities *)

(** In a world a server can reach, the identity the next connection is
    given is new: no socket the server knows has it, no room has it as host
    or in a seat, and no hint or vote is stored under it. *)
Theorem new_connection_gets_a_fresh_identity grid w :
  server_reachable grid w →
  ∃ n,
    (on_connection w).2 = [(n, connected (ws_id n))]
    ∧ nextId (on_connection w).1 = S n
    ∧ sockets (on_connection w).1 = <[n := Socket None None true true]> (sockets w)
    ∧ sockets w !! n = None
    ∧ (∀ ws, is_Some (sockets w !! ws) → ws_id ws ≠ ws_id n)
    ∧ (∀ k r, rooms w !! k = Some r →
              hostWs r ≠ Some n
              ∧ (∀ p, p ∈ players r → player_id p ≠ ws_id n)
              ∧ (ws_id n ∉ keys (hints r)) ∧ (ws_id n ∉ keys (votes r))).
Proof.
  intros (Hpos & Hsock & Hrooms)%reachable_sound. exists (nextId w).
  split; [done|]. split; [done|]. split; [done|]. split; [|split].
  - apply eq_None_not_Some. rewrite Hsock. lia.
  - intros ws Hws%Hsock Heq%ws_id_inj. lia.
  - intros k r Hr.
    destruct (Hrooms k r Hr) as ((h & Hh & Hlt) & Hpl & Hhi & Hvo & _).
    split; [|split; [|split]].
    + rewrite Hh. intros [= ->]. lia.
    + intros p Hp Heq. destruct (Hpl p Hp) as (Hid & ? & _).
      rewrite Hid in Heq. apply ws_id_inj in Heq. lia.
    + intros ([i x] & Hi & Hin)%list_elem_of_fmap. cbn in Hi. subst i.
      destruct (Hhi _ _ Hin) as (_ & ws & Heq%ws_id_inj & ?). lia.
    + intros ([i x] & Hi & Hin)%list_elem_of_fmap. cbn in Hi. subst i.
      destruct (Hvo _ _ Hin) as (_ & _ & ws & Heq%ws_id_inj & ?). lia.
Qed.

(** The sixth connection of the scenario is p6. *)
Lemma new_connection_gets_a_fresh_identity_witness :
  ∃ n, (on_connection grid_last_vote).2 = [(n, connected (ws_id n))]
       ∧ sockets grid_last_vote !! n = None.
Proof.
  destruct (new_connection_gets_a_fresh_identity true grid_last_vote
              (server_reachable_grid _ reachable_grid_last_vote))
    as (n & Hout & _ & _ & Hnew & _).
  exists n. split; [exact Hout|exact Hnew].
Defined.

(** ** The heartbeat *)

Lemma step_keeps_isAlive grid fuel w ev w' out ws :
  server_step grid fuel w ev = Returns w' out →
  ws < nextId w →
  nextId w ≤ nextId w'
  ∧ isAlive <$> sockets w' !! ws = isAlive <$> sockets w !! ws.
Proof.
  unfold server_step. destruct ev as [|ws0|ws0 f|ws0]; cbn [step].
  - intros [= <- _] Hws. cbn. split; [lia|]. rewrite lookup_insert_ne by lia. done.
  - destruct (readyState_open w ws0); intros [= <- _]; done.
  - destruct (readyState_open w ws0) eqn:Hopen; [|intros [= <- _]; done].
    intros H%server_on_message_shape Hws; [|done].
    destruct H as (-> & _ & [->|(c & ro & ->)] & _); [done|]. split; [done|].
    destruct (decide (ws0 = ws)) as [->|Hne].
    + rewrite lookup_alter_eq. by destruct (sockets w !! ws).
    + by rewrite lookup_alter_ne.
  - destruct (readyState_open w ws0) eqn:Hopen; [|intros [= <- _]; done].
    pose proof (server_on_close_shape grid (set_readyState ws0 false w) ws0) as Hshape.
    destruct (server_on_close grid _ ws0) as [w1 out1]. intros [= <- _] Hws.
    cbn [fst snd] in Hshape. destruct Hshape as (-> & _ & -> & _).
    split; [done|]. cbn. destruct (decide (ws0 = ws)) as [->|Hne].
    + rewrite lookup_alter_eq. by destruct (sockets w !! ws).
    + by rewrite lookup_alter_ne.
Qed.

(** No message, connection or close callback touches the liveness flag
    of a socket that exists. *)
Lemma run_keeps_isAlive grid fuel evs : ∀ w w' out ws,
  server_run grid fuel w evs = Some (w', out) →
  ws < nextId w →
  isAlive <$> sockets w' !! ws = isAlive <$> sockets w !! ws.
Proof.
  unfold server_run. induction evs as [|ev evs IH]; intros w w' out ws; cbn [run].
  - by intros [= <- _].
  - destruct (step _ _ _ fuel w ev) as [w1 out1| |] eqn:Hstep; try done.
    destruct (run _ _ _ fuel w1 evs) as [[w2 out2]|] eqn:Hrun; [|done].
    intros [= <- _] Hws.
    destruct (step_keeps_isAlive grid _ _ _ _ _ ws Hstep Hws) as [Hn <-].
    eapply IH; [exact Hrun|lia].
Qed.

Lemma heartbeat_probe w ws :
  (heartbeat w).2 !! ws
  = sockets w !! ws ≫= fun s =>
      if is_open s then Some (if isAlive s then Ping else Terminate) else None.
Proof.
  unfold heartbeat, clients. cbn [snd]. rewrite lookup_fmap.
  destruct (sockets w !! ws) as [s|] eqn:Hs; cbn.
  - destruct (is_open s) eqn:Ho.
    + rewrite (map_lookup_filter_Some_2 _ _ _ s) by done. cbn.
      unfold heartbeat_client. by destruct (isAlive s).
    + rewrite map_lookup_filter_None_2; [done|]. right. intros s' ?. simplify_eq.
      cbn. congruence.
  - rewrite map_lookup_filter_None_2; [done|]. by left.
Qed.

Lemma heartbeat_clears w ws s :
  sockets w !! ws = Some s → is_open s = true →
  isAlive <$> sockets (heartbeat w).1 !! ws = Some false.
Proof.
  intros Hs Ho. unfold heartbeat. cbn. rewrite lookup_fmap, Hs. cbn. rewrite Ho.
  unfold heartbeat_client. destruct (isAlive s) eqn:E; cbn; [done|by rewrite E].
Qed.

Lemma readyState_open_lookup w ws :
  readyState_open w ws = true ↔ ∃ s, sockets w !! ws = Some s ∧ is_open s = true.
Proof.
  unfold readyState_open. destruct (sockets w !! ws) as [s|]; split.
  - intros Ho. by exists s.
  - by intros (s' & [= <-] & Ho).
  - done.
  - by intros (s' & ? & _).
Qed.

(** A socket that was probed by a tick of the timer and has not answered
    with a pong is terminated by the next tick, whatever frames it or anyone
    else sent in between: only a pong counts as a sign of life.  Both
    servers. *)
Theorem silent_socket_is_terminated grid fuel w evs w' out ws :
  ws < nextId w →
  readyState_open w ws = true →
  server_run grid fuel (heartbeat w).1 evs = Some (w', out) →
  readyState_open w' ws = true →
  (heartbeat w').2 !! ws = Some Terminate.
Proof.
  intros Hws (s & Hs & Ho)%readyState_open_lookup Hrun (s' & Hs' & Ho')%readyState_open_lookup.
  pose proof (run_keeps_isAlive _ _ _ _ _ _ ws Hrun Hws) as Hal.
  rewrite (heartbeat_clears w ws s Hs Ho), Hs' in Hal. cbn in Hal.
  rewrite heartbeat_probe, Hs'. cbn. rewrite Ho'. by injection Hal as ->.
Qed.

(** A socket whose pong arrived is pinged, not terminated, by the next
    tick of the timer, whatever callbacks ran in between.  Both servers. *)
Theorem pong_keeps_the_socket grid fuel w evs w' out ws :
  ws < nextId w →
  readyState_open w ws = true →
  server_run grid fuel (on_pong w ws) evs = Some (w', out) →
  readyState_open w' ws = true →
  (heartbeat w').2 !! ws = Some Ping.
Proof.
  intros Hws (s & Hs & Ho)%readyState_open_lookup Hrun (s' & Hs' & Ho')%readyState_open_lookup.
  pose proof (run_keeps_isAlive _ _ _ _ _ _ ws Hrun Hws) as Hal.
  unfold on_pong in Hal. cbn in Hal. rewrite lookup_alter_eq, Hs, Hs' in Hal.
  cbn in Hal. rewrite heartbeat_probe, Hs'. cbn. rewrite Ho'. by injection Hal as ->.
Qed.

(** Ann's socket is probed, then sends a frame but no pong: the next tick
    terminates it. *)
Lemma silent_socket_is_terminated_witness :
  ∃ w' out,
    server_run true 0 (heartbeat grid_five).1 [Receive 2 (vote_frame "p3")]
    = Some (w', out)
    ∧ (heartbeat w').2 !! 2 = Some Terminate.
Proof.
  assert (2 < nextId grid_five) as H1 by (vm_compute; lia).
  assert (readyState_open grid_five 2 = true) as H2 by (vm_compute; reflexivity).
  assert (readyState_open
            (after (server_run true 0 (heartbeat grid_five).1
                      [Receive 2 (vote_frame "p3")]) grid_five) 2 = true) as H3
    by (vm_compute; reflexivity).
  destruct (server_run true 0 (heartbeat grid_five).1 [Receive 2 (vote_frame "p3")])
    as [[w' out]|] eqn:Hrun; [|vm_compute in Hrun; discriminate Hrun].
  cbn [after] in H3. exists w', out. split; [reflexivity|].
  exact (silent_socket_is_terminated true 0 grid_five _ w' out 2 H1 H2 Hrun H3).
Defined.

(** Ann's socket is probed, answers with a pong and sends a frame: the
    next tick pings it again. *)
Lemma pong_keeps_the_socket_witness :
  ∃ w' out,
    server_run true 0 (on_pong (heartbeat grid_five).1 2) [Receive 2 (vote_frame "p3")]
    = Some (w', out)
    ∧ (heartbeat w').2 !! 2 = Some Ping.
Proof.
  assert (2 < nextId (heartbeat grid_five).1) as H1 by (vm_compute; lia).
  assert (readyState_open (heartbeat grid_five).1 2 = true) as H2
    by (vm_compute; reflexivity).
  assert (readyState_open
            (after (server_run true 0 (on_pong (heartbeat grid_five).1 2)
                      [Receive 2 (vote_frame "p3")]) grid_five) 2 = true) as H3
    by (vm_compute; reflexivity).
  destruct (server_run true 0 (on_pong (heartbeat grid_five).1 2)
              [Receive 2 (vote_frame "p3")])
    as [[w' out]|] eqn:Hrun; [|vm_compute in Hrun; discriminate Hrun].
  cbn [after] in H3. exists w', out. split; [reflexivity|].
  exact (pong_keeps_the_socket true 0 (heartbeat grid_five).1 _ w' out 2 H1 H2 Hrun H3).
Defined.

(** ** server.js only writes to open sockets *)

Lemma serverjs_send_open_recipient v x m' c (m : message) :
  (c, m) ∈ ServerJs.send v x m' → readyState_open v c = true.
Proof.
  unfold ServerJs.send. destruct (readyState_open v x) eqn:Ho.
  - by intros [= -> _]%list_elem_of_singleton.
  - by intros ?%elem_of_nil.
Qed.

Lemma broadcast_open v cl m' c (m : message) :
  (c, m) ∈ broadcast v cl m' → readyState_open v c = true.
Proof.
  unfold broadcast. intros (c' & [= -> _] & [Hc _]%list_elem_of_filter)%list_elem_of_fmap.
  exact Hc.
Qed.

Lemma start_messages_open v r cham cat c (m : message) :
  (c, m) ∈ start_messages ServerJs.send v r cham cat → readyState_open v c = true.
Proof.
  unfold start_messages. intros (p & _ & Hin)%list_elem_of_In%in_flat_map.
  apply list_elem_of_In in Hin.
  destruct (strict_eq _ _); by eapply serverjs_send_open_recipient.
Qed.

Lemma start_host_message_open v r cat c (m : message) :
  (c, m) ∈ start_host_message ServerJs.send v r cat → readyState_open v c = true.
Proof.
  unfold start_host_message. destruct (hostWs r).
  - apply serverjs_send_open_recipient.
  - by intros ?%elem_of_nil.
Qed.

Lemma notify_closed_open v r c (m : message) :
  (c, m) ∈ notify_closed ServerJs.send v r → readyState_open v c = true.
Proof.
  unfold notify_closed. intros (p & _ & Hin)%list_elem_of_In%in_flat_map.
  apply list_elem_of_In in Hin. by eapply serverjs_send_open_recipient.
Qed.

Local Ltac sent_to_open Hin :=
  repeat match type of Hin with
    | _ ∈ _ ++ _ => apply elem_of_app in Hin as [Hin|Hin]
    end;
  lazymatch type of Hin with
  | _ ∈ ServerJs.send _ _ _ => apply serverjs_send_open_recipient in Hin
  | _ ∈ broadcast _ _ _ => apply broadcast_open in Hin
  | _ ∈ start_messages _ _ _ _ _ => apply start_messages_open in Hin
  | _ ∈ start_host_message _ _ _ _ => apply start_host_message_open in Hin
  | _ ∈ notify_closed _ _ _ => apply notify_closed_open in Hin
  | _ ∈ [] => by apply elem_of_nil in Hin
  end;
  exact Hin.

Lemma serverjs_create_room_open fuel w ws w' out c m :
  create_room ServerJs.send fuel w ws = Returns w' out →
  (c, m) ∈ out → readyState_open w' c = true.
Proof.
  intros H Hin. unfold create_room in H.
  repeat case_match; simplify_eq. sent_to_open Hin.
Qed.

Lemma serverjs_join_room_open w ws f w' out c m :
  join_room ServerJs.send true w ws f = Returns w' out →
  (c, m) ∈ out → readyState_open w' c = true.
Proof.
  intros H Hin. unfold join_room in H.
  repeat case_match; simplify_eq; sent_to_open Hin.
Qed.

Lemma serverjs_start_open w ws w' out c m :
  ServerJs.host_start_game w ws = Returns w' out →
  (c, m) ∈ out → readyState_open w' c = true.
Proof.
  intros H Hin. unfold ServerJs.host_start_game in H.
  repeat case_match; simplify_eq; sent_to_open Hin.
Qed.

Lemma serverjs_submit_hint_open w ws f w' out c m :
  ServerJs.submit_hint w ws f = Returns w' out →
  (c, m) ∈ out → readyState_open w' c = true.
Proof.
  intros H Hin. unfold ServerJs.submit_hint in H.
  repeat case_match; simplify_eq; sent_to_open Hin.
Qed.

Lemma serverjs_vote_open w ws f w' out c m :
  ServerJs.vote w ws f = Returns w' out →
  (c, m) ∈ out → readyState_open w' c = true.
Proof.
  intros H Hin. unfold ServerJs.vote in H.
  repeat case_match; simplify_eq; sent_to_open Hin.
Qed.

Lemma serverjs_on_message_open fuel w ws f w' out c m :
  ServerJs.on_message fuel w ws f = Returns w' out →
  (c, m) ∈ out → readyState_open w' c = true.
Proof.
  unfold ServerJs.on_message.
  by_case ltac:(apply serverjs_create_room_open).
  by_case ltac:(apply serverjs_join_room_open).
  by_case ltac:(apply serverjs_start_open).
  by_case ltac:(apply serverjs_submit_hint_open).
  by_case ltac:(apply serverjs_vote_open).
  intros [= <- <-] Hin. sent_to_open Hin.
Qed.

Lemma serverjs_on_close_open w ws c m :
  (c, m) ∈ (ServerJs.on_close w ws).2 →
  readyState_open (ServerJs.on_close w ws).1 c = true.
Proof.
  unfold ServerJs.on_close. intros Hin.
  repeat case_match; simplify_eq; cbn [fst snd] in *; sent_to_open Hin.
Qed.

(** server.js never calls [send] on a socket that is not open: every
    delivery of every callback, replies, broadcasts, start messages and close
    notifications alike, goes to a socket whose ready state is OPEN when the
    callback returns. *)
Theorem serverjs_sends_to_open_sockets_only fuel w ev w' out c m :
  server_step false fuel w ev = Returns w' out →
  (c, m) ∈ out →
  readyState_open w' c = true.
Proof.
  unfold server_step. destruct ev as [|ws|ws f|ws]; cbn [step].
  - intros [= <- <-] [= -> _]%list_elem_of_singleton.
    unfold readyState_open. cbn. by rewrite lookup_insert_eq.
  - destruct (readyState_open w ws) eqn:Hopen; intros [= <- <-] Hin.
    + cbn [server_send] in Hin. sent_to_open Hin.
    + by apply elem_of_nil in Hin.
  - destruct (readyState_open w ws) eqn:Hopen.
    + apply serverjs_on_message_open.
    + intros [= <- <-] Hin. by apply elem_of_nil in Hin.
  - destruct (readyState_open w ws) eqn:Hopen.
    + cbn [server_on_close].
      pose proof (serverjs_on_close_open (set_readyState ws false w) ws c m) as Hc.
      destruct (ServerJs.on_close _ ws) as [w1 out1]. intros [= <- <-]. exact Hc.
    + intros [= <- <-] Hin. by apply elem_of_nil in Hin.
Qed.

(** The last vote of the scenario in server.js: Ann's socket, which is
    sent the result, is open. *)
Lemma serverjs_sends_to_open_sockets_only_witness :
  ∃ m,
    (2, m) ∈ sent_of (server_step false 0 serverjs_last_vote
                        (Receive 5 (vote_frame "p3")))
    ∧ readyState_open
        (world_of (server_step false 0 serverjs_last_vote
                     (Receive 5 (vote_frame "p3"))) serverjs_last_vote) 2 = true.
Proof.
  assert (server_step false 0 serverjs_last_vote (Receive 5 (vote_frame "p3"))
          = Returns
              (world_of (server_step false 0 serverjs_last_vote
                           (Receive 5 (vote_frame "p3"))) serverjs_last_vote)
              (sent_of (server_step false 0 serverjs_last_vote
                          (Receive 5 (vote_frame "p3"))))) as H1
    by (vm_compute; reflexivity).
  assert (∃ m, (2, m) ∈ sent_of (server_step false 0 serverjs_last_vote
                                   (Receive 5 (vote_frame "p3")))) as [m H2]
    by (eexists; apply list_elem_of_In; vm_compute; left; reflexivity).
  exists m. split; [exact H2|].
  exact (serverjs_sends_to_open_sockets_only 0 serverjs_last_vote _ _ _ 2 m H1 H2).
Defined.

(** ** Accusations in the grid version *)

(** In every world the grid version can reach, a room holds no accusation
    before the vote (lobby, hint, accusation phase) and exactly one from the
    vote on (voting, chameleon_guess, finished): the accusation that opened the
    vote, made by a connection the server knows, with a truthy target.  That
    target is what the resolution of the vote returns, whatever the tally. *)
Theorem grid_rooms_hold_one_accusation w k r :
  reachable_grid w →
  rooms w !! k = Some r →
  (state r ∈ [Lobby; Hint; Accusation] ∧ accusations r = [])
  ∨ (state r ∈ [Voting; ChameleonGuess; Finished]
     ∧ ∃ a, accusations r = [a]
            ∧ truthy (accusedId a) = true
            ∧ (∃ ws, accuserId a = ws_id ws ∧ is_Some (sockets w !! ws))
            ∧ ∀ winners,
                GridServer.resolve_accused (accusations r) winners = accusedId a).
Proof.
  intros (_ & Hsock & Hrooms)%server_reachable_grid%reachable_sound Hr.
  destruct (Hrooms k r Hr) as (_ & _ & _ & _ & _ & _ & Hph & Hacc).
  unfold accused in Hacc. cbn in Hph.
  destruct (state r); try destruct Hacc as (a & Ha & Ht & ws & Hws & Hlt);
    first
      [ left; split; [solve [repeat constructor]|done]
      | right; split; [solve [repeat constructor]|];
        exists a; split; [done|]; split; [done|];
        split; [exists ws; split; [done|]; by apply Hsock|];
        intros winners; by rewrite Ha
      | exfalso; repeat (apply elem_of_cons in Hph as [Hph|Hph]; [discriminate Hph|]);
        by apply elem_of_nil in Hph ].
Qed.

(** The scenario while voting: one accusation, Ann's, against p3. *)
Lemma grid_rooms_hold_one_accusation_witness :
  ∃ a, accusations (room_K7PQ grid_last_vote) = [a]
       ∧ truthy (accusedId a) = true.
Proof.
  assert (rooms grid_last_vote !! "K7PQ" = Some (room_K7PQ grid_last_vote)) as H1
    by (vm_compute; reflexivity).
  assert (accusations (room_K7PQ grid_last_vote) ≠ []) as H2
    by (vm_compute; discriminate).
  destruct (grid_rooms_hold_one_accusation grid_last_vote "K7PQ" _
              reachable_grid_last_vote H1)
    as [[_ Hnil]|(_ & a & Ha & Ht & _)]; [destruct (H2 Hnil)|].
  exists a. split; [exact Ha|exact Ht].
Defined.

(** ** How a round of the grid version ends *)

(** What a delivery says, knowing where it was sent from. *)
Local Ltac said_by elem_of_send Hin :=
  repeat match type of Hin with
    | _ ∈ _ ++ _ => apply elem_of_app in Hin as [Hin|Hin]
    end;
  lazymatch type of Hin with
  | _ ∈ GridServer.send _ _ _ => apply elem_of_grid_send in Hin
  | _ ∈ ServerJs.send _ _ _ => apply elem_of_serverjs_send in Hin
  | _ ∈ broadcast _ _ _ => apply broadcast_recipients in Hin as [_ Hin]
  | _ ∈ start_messages _ _ _ _ _ =>
      apply (start_messages_recipients _ elem_of_send) in Hin as (? & _ & _ & Hin)
  | _ ∈ start_host_message _ _ _ _ =>
      apply (start_host_message_recipients _ elem_of_send) in Hin as [_ Hin]
  | _ ∈ notify_closed _ _ _ =>
      apply (notify_closed_recipients _ elem_of_send) in Hin as [_ Hin]
  | _ ∈ [] => by apply elem_of_nil in Hin
  end;
  cbn [snd] in Hin.

Local Ltac said Hin := said_by elem_of_grid_send Hin.
Local Ltac said_js Hin := said_by elem_of_serverjs_send Hin.

Lemma grid_no_result_elsewhere fuel w ws f w' out c res :
  GridServer.on_message fuel w ws f = Returns w' out →
  (c, round_result res) ∈ out →
  GridServer.vote w ws f = Returns w' out
  ∨ GridServer.chameleon_guess w ws f = Returns w' out.
Proof.
  unfold GridServer.on_message.
  destruct (case_ _ "create_room").
  { unfold create_room. intros H Hin. repeat case_match; simplify_eq.
    said Hin. discriminate Hin. }
  destruct (case_ _ "join_room").
  { unfold join_room. intros H Hin.
    repeat case_match; simplify_eq; said Hin; discriminate Hin. }
  destruct (case_ _ "host_start_game").
  { unfold GridServer.host_start_game. intros H Hin.
    repeat case_match; simplify_eq; said Hin; discriminate Hin. }
  destruct (case_ _ "submit_hint").
  { unfold GridServer.submit_hint. intros H Hin.
    repeat case_match; simplify_eq; said Hin; discriminate Hin. }
  destruct (case_ _ "accuse").
  { unfold GridServer.accuse. intros H Hin.
    repeat case_match; simplify_eq; said Hin; discriminate Hin. }
  destruct (case_ _ "vote"); [by left|].
  destruct (case_ _ "chameleon_guess"); [by right|].
  destruct (case_ _ "host_reset").
  { unfold GridServer.host_reset. intros H Hin.
    repeat case_match; simplify_eq; said Hin; discriminate Hin. }
  intros [= <- <-] Hin. said Hin. discriminate Hin.
Qed.

Lemma grid_vote_result w ws f w' out c res k r a :
  room_of_socket w ws = Some (k, r) →
  accusations r = [a] →
  truthy (accusedId a) = true →
  (∃ cid, chameleonId r = VStr cid) →
  GridServer.vote w ws f = Returns w' out →
  (c, round_result res) ∈ out →
  state r = Voting
  ∧ res = Result false (Some "wrong_accusation") (Some (accusedId a)) (chameleonId r)
            (secretWord res) None
  ∧ secret_word r = Some (secretWord res)
  ∧ accusedId a ≠ chameleonId r.
Proof.
  intros Hr Ha Ht [cid Hc] H Hin. unfold GridServer.vote in H. rewrite Hr in H.
  repeat case_match; simplify_eq; said Hin; try discriminate Hin.
  all: cbn [accusations chameleonId set_votes set_state] in *.
  all: repeat match goal with
         | H : context [GridServer.resolve_accused] |- _ =>
             rewrite Ha in H; cbn [GridServer.resolve_accused] in H
         end.
  - match goal with H : negb _ = true |- _ => rewrite Ht in H; discriminate H end.
  - injection Hin as ->. known_tests. cbn [secretWord].
    split; [done|]. split; [done|]. split; [done|].
    intros Heq.
    match goal with H : strict_eq _ _ = false |- _ =>
      rewrite Heq, Hc in H; cbn [strict_eq] in H;
      by rewrite String.eqb_refl in H end.
Qed.

Lemma grid_guess_result w ws f w' out c res k r :
  room_of_socket w ws = Some (k, r) →
  GridServer.chameleon_guess w ws f = Returns w' out →
  (c, round_result res) ∈ out →
  state r = ChameleonGuess
  ∧ chameleonId r = VStr (ws_id ws)
  ∧ secret_word r = Some (secretWord res)
  ∧ (res = Result false (Some "chameleon_guessed") None (chameleonId r)
             (secretWord res) (Some (field "guess" f))
     ∨ res = Result true (Some "chameleon_failed") None (chameleonId r)
               (secretWord res) (Some (field "guess" f))).
Proof.
  intros Hr H Hin. unfold GridServer.chameleon_guess in H. rewrite Hr in H.
  repeat case_match; simplify_eq; said Hin; try discriminate Hin.
  all: injection Hin as ->; known_tests; cbn [secretWord].
  all: split; [done|]; split;
    [ match goal with H : strict_eq _ _ = true |- _ =>
        destruct (chameleonId r); try discriminate H;
        cbn [strict_eq] in H; by apply String.eqb_eq in H as -> end |].
  all: split; [|by auto].
  all: match goal with H : _ ≫= _ = Some _ |- _ =>
         destruct (secret_word r) as [sw|]; [|discriminate H];
         cbn [mbind option_bind] in H;
         destruct (GridServer.guess_correct _ sw); [|discriminate H];
         by injection H as -> _ end.
Qed.

(** Grid version: in a world the server can reach, every [round_result]
    is sent while handling a frame whose sender's room holds exactly one
    accusation, names the room's chameleon and a word of a card as the secret
    word, and is one of three: [wrong_accusation] (success false) when the vote
    completes and the accused is not the chameleon; [chameleon_guessed]
    (success false) or [chameleon_failed] (success true) when the chameleon,
    caught, sends its guess.  [no_consensus] is never sent, and the group only
    ever wins through [chameleon_failed]. *)
Theorem grid_round_results fuel w ev w' out c res :
  reachable_grid w →
  server_step true fuel w ev = Returns w' out →
  (c, round_result res) ∈ out →
  ∃ ws f k r a s,
    ev = Receive ws f
    ∧ room_of_socket w ws = Some (k, r)
    ∧ accusations r = [a]
    ∧ res_chameleonId res = chameleonId r
    ∧ secretWord res = VStr s ∧ s ∈ all_words
    ∧ ( state r = Voting
        ∧ reason res = Some "wrong_accusation" ∧ success res = false
        ∧ res_accusedId res = Some (accusedId a)
        ∧ accusedId a ≠ chameleonId r ∧ res_guess res = None
      ∨ state r = ChameleonGuess
        ∧ chameleonId r = VStr (ws_id ws)
        ∧ res_accusedId res = None
        ∧ res_guess res = Some (field "guess" f)
        ∧ (reason res = Some "chameleon_guessed" ∧ success res = false
           ∨ reason res = Some "chameleon_failed" ∧ success res = true) ).
Proof.
  intros Hw Hstep Hin.
  pose proof (reachable_grid_ok _ Hw) as Hok.
  apply server_reachable_grid, reachable_sound in Hw as (_ & _ & Hrooms).
  unfold server_step in Hstep. destruct ev as [|ws|ws f|ws]; cbn [step] in Hstep.
  - injection Hstep as <- <-. apply list_elem_of_singleton in Hin. discriminate Hin.
  - destruct (readyState_open w ws); injection Hstep as <- <-;
      [said Hin; discriminate Hin|by apply elem_of_nil in Hin].
  - destruct (readyState_open w ws);
      [|injection Hstep as <- <-; by apply elem_of_nil in Hin].
    cbn [server_on_message] in Hstep.
    assert (∃ k r, room_of_socket w ws = Some (k, r)) as (k & r & Hr).
    { destruct (grid_no_result_elsewhere _ _ _ _ _ _ _ _ Hstep Hin) as [H|H];
        revert H; unfold GridServer.vote, GridServer.chameleon_guess;
        destruct (room_of_socket w ws) as [[k r]|]; eauto;
        intros [= <- <-]; said Hin; discriminate Hin. }
    pose proof (room_of_socket_ok _ _ _ _ _ Hok Hr) as (_ & _ & _ & _ & _ & Hst & _).
    apply room_of_socket_Some in Hr as Hlook. destruct Hlook as [_ Hlook].
    destruct (Hrooms k r Hlook) as (_ & _ & _ & _ & _ & _ & _ & Hacc).
    unfold accused in Hacc.
    destruct (grid_no_result_elsewhere _ _ _ _ _ _ _ _ Hstep Hin) as [Hv|Hg].
    + assert (state r = Voting) as Hvoting.
      { revert Hv. unfold GridServer.vote. rewrite Hr.
        destruct (decide (state r = Voting)); [done|].
        rewrite bool_decide_eq_false_2 by done. intros [= <- <-].
        said Hin. discriminate Hin. }
      rewrite Hvoting in Hacc. destruct Hacc as (a & Ha & Ht & _).
      destruct (started_secret_word r) as (s & Hs & Hwords); [apply Hst; congruence|].
      destruct (Hst ltac:(congruence)) as (_ & _ & _ & cid & _ & _ & _ & _ & _ & _ & Hcid).
      destruct (grid_vote_result _ _ _ _ _ _ _ _ _ a Hr Ha Ht ltac:(eauto) Hv Hin)
        as (_ & Hres & Hsw & Hne).
      rewrite Hs in Hsw. injection Hsw as Hsw.
      exists ws, f, k, r, a, s. rewrite Hres. cbn. rewrite <- Hsw. auto 20.
    + destruct (grid_guess_result _ _ _ _ _ _ _ _ _ Hr Hg Hin)
        as (Hguess & Hcham & Hsw & Hres).
      rewrite Hguess in Hacc. destruct Hacc as (a & Ha & Ht & _).
      destruct (started_secret_word r) as (s & Hs & Hwords); [apply Hst; congruence|].
      rewrite Hs in Hsw. injection Hsw as Hsw.
      exists ws, f, k, r, a, s.
      destruct Hres as [Hres|Hres]; rewrite Hres; cbn; rewrite <- Hsw; auto 20.
  - destruct (readyState_open w ws);
      [|injection Hstep as <- <-; by apply elem_of_nil in Hin].
    pose proof (grid_on_close_shape (set_readyState ws false w) ws) as Hshape.
    cbn [server_on_close] in Hstep.
    destruct (GridServer.on_close _ ws) as [w1 out1]. injection Hstep as <- <-.
    cbn [fst snd] in Hshape.
    destruct Hshape as (_ & _ & _ & _ & [[_ ->]|(k & r & _ & _ & [[_ Hout]|(_ & _ & Hout)])]).
    + by apply elem_of_nil in Hin.
    + destruct (Hout _ Hin) as [_ Hm]. discriminate Hm.
    + destruct (Hout _ Hin) as [_ Hm]. discriminate Hm.
Qed.


(** Ben, caught, guesses "melon": the one result is [chameleon_failed],
    and the room held Ann's accusation. *)
Lemma grid_round_results_witness :
  ∃ r a,
    room_of_socket grid_caught 3 = Some ("K7PQ", r)
    ∧ accusations r = [a]
    ∧ state r = ChameleonGuess.
Proof.
  assert (server_step true 0 grid_caught (Receive 3 (guess_frame "melon"))
          = Returns
              (world_of (server_step true 0 grid_caught
                           (Receive 3 (guess_frame "melon"))) grid_caught)
              (sent_of (server_step true 0 grid_caught
                          (Receive 3 (guess_frame "melon"))))) as H1
    by (vm_compute; reflexivity).
  assert ((2, round_result
                (Result true (Some "chameleon_failed") None (VStr "p3") (VStr "Lemon")
                        (Some (VStr "melon"))))
          ∈ sent_of (server_step true 0 grid_caught
                       (Receive 3 (guess_frame "melon")))) as H2
    by (apply list_elem_of_In; vm_compute; left; reflexivity).
  assert (roomCode_of grid_caught 3 = Some "K7PQ") as H3 by (vm_compute; reflexivity).
  destruct (grid_round_results 0 grid_caught _ _ _ 2 _
              (reachable_after_run _ _ _ _ _ _ reachable_grid_last_vote) H1 H2)
    as (ws & f & k & r & a & s & Hev & Hr & Ha & _ & _ & _
        & [(_ & _ & Hfalse & _)|(Hst & _)]); [discriminate Hfalse|].
  injection Hev as <- <-.
  apply room_of_socket_Some in Hr as Hk. destruct Hk as [Hk _].
  rewrite H3 in Hk. injection Hk as <-.
  exists r, a. split; [exact Hr|]. split; [exact Ha|exact Hst].
Defined.

(** ** How a round of server.js ends *)

Lemma serverjs_no_result_elsewhere fuel w ws f w' out c res :
  ServerJs.on_message fuel w ws f = Returns w' out →
  (c, round_result res) ∈ out →
  ServerJs.vote w ws f = Returns w' out.
Proof.
  unfold ServerJs.on_message.
  destruct (case_ _ "create_room").
  { unfold create_room. intros H Hin. repeat case_match; simplify_eq.
    said_js Hin. discriminate Hin. }
  destruct (case_ _ "join_room").
  { unfold join_room. intros H Hin.
    repeat case_match; simplify_eq; said_js Hin; discriminate Hin. }
  destruct (case_ _ "host_start_game").
  { unfold ServerJs.host_start_game. intros H Hin.
    repeat case_match; simplify_eq; said_js Hin; discriminate Hin. }
  destruct (case_ _ "submit_hint").
  { unfold ServerJs.submit_hint. intros H Hin.
    repeat case_match; simplify_eq; said_js Hin; discriminate Hin. }
  destruct (case_ _ "vote"); [done|].
  intros [= <- <-] Hin. said_js Hin. discriminate Hin.
Qed.

Lemma serverjs_vote_result w ws f w' out c res :
  ServerJs.vote w ws f = Returns w' out →
  (c, round_result res) ∈ out →
  ∃ k r,
    room_of_socket w ws = Some (k, r) ∧ state r = Voting
    ∧ length (keys (votes (with_vote ws f r))) = length (players r)
    ∧ secret_word r = Some (secretWord res)
    ∧ res = Result
              (strict_eq (sole_winner (winners_of (tally_of (votes (with_vote ws f r)))))
                         (chameleonId r))
              None
              (Some (sole_winner (winners_of (tally_of (votes (with_vote ws f r))))))
              (chameleonId r) (secretWord res) None.
Proof.
  intros H Hin. unfold ServerJs.vote in H.
  repeat case_match; simplify_eq; said_js Hin; try discriminate Hin.
  injection Hin as ->. known_tests. eexists _, _. split; [done|]. split; [done|].
  split; [by apply Nat.eqb_eq|]. split; [done|reflexivity].
Qed.

(** server.js: in a world the server can reach, every [round_result] is
    sent by the vote that completes the round; it names the room's chameleon
    and a word of a card, its accusedId is the only target holding the highest
    count or null, and success is true exactly when the chameleon's identity
    holds the highest count alone: a tie, even one that includes the chameleon,
    is a win for the chameleon. *)
Theorem serverjs_round_results fuel w ev w' out c res :
  reachable_serverjs w →
  server_step false fuel w ev = Returns w' out →
  (c, round_result res) ∈ out →
  ∃ ws f k r cid s,
    ev = Receive ws f
    ∧ room_of_socket w ws = Some (k, r)
    ∧ state r = Voting
    ∧ length (keys (votes (with_vote ws f r))) = length (players r)
    ∧ chameleonId r = VStr cid
    ∧ s ∈ all_words
    ∧ res = Result (success res) None
              (Some (sole_winner (winners_of (tally_of (votes (with_vote ws f r))))))
              (VStr cid) (VStr s) None
    ∧ (success res = true
       ↔ top (votes (with_vote ws f r)) cid
         ∧ ∀ u, top (votes (with_vote ws f r)) u → u = cid).
Proof.
  intros Hw Hstep Hin.
  pose proof (reachable_serverjs_ok _ Hw) as Hok.
  unfold server_step in Hstep. destruct ev as [|ws|ws f|ws]; cbn [step] in Hstep.
  - injection Hstep as <- <-. apply list_elem_of_singleton in Hin. discriminate Hin.
  - destruct (readyState_open w ws); injection Hstep as <- <-;
      [cbn [server_send] in Hin; said_js Hin; discriminate Hin
      |by apply elem_of_nil in Hin].
  - destruct (readyState_open w ws);
      [|injection Hstep as <- <-; by apply elem_of_nil in Hin].
    cbn [server_on_message] in Hstep.
    apply serverjs_no_result_elsewhere with (c := c) (res := res) in Hstep; [|done].
    destruct (serverjs_vote_result _ _ _ _ _ _ _ Hstep Hin)
      as (k & r & Hr & Hst & Hlen & Hsw & Hres).
    pose proof (room_of_socket_ok _ _ _ _ _ Hok Hr)
      as (_ & _ & _ & _ & _ & Hstarted & _).
    destruct (started_secret_word r) as (s & Hs & Hwords);
      [apply Hstarted; congruence|].
    destruct (Hstarted ltac:(congruence))
      as (_ & _ & _ & cid & _ & _ & _ & _ & _ & _ & Hcid).
    rewrite Hs in Hsw. injection Hsw as Hsw.
    exists ws, f, k, r, cid, s. rewrite Hres. cbn [success].
    rewrite Hcid, <- Hsw.
    split; [done|]. split; [done|]. split; [done|]. split; [done|].
    split; [done|]. split; [done|]. split; [done|].
    set (v := votes (with_vote ws f r)). split.
    + intros Heq%strict_eq_VStr.
      assert (winners_of (tally_of v) = [cid]) as Hwin.
      { destruct (winners_of (tally_of v)) as [|x [|y W]]; try discriminate Heq.
        by injection Heq as ->. }
      split.
      * apply winners_in_tally. rewrite Hwin. constructor.
      * intros u Hu%winners_in_tally. rewrite Hwin in Hu.
        by apply list_elem_of_singleton in Hu.
    + intros [Htop Huniq]. rewrite (sole_winner_unique v cid Htop Huniq).
      cbn. apply String.eqb_refl.
  - destruct (readyState_open w ws);
      [|injection Hstep as <- <-; by apply elem_of_nil in Hin].
    pose proof (serverjs_on_close_shape (set_readyState ws false w) ws) as Hshape.
    cbn [server_on_close] in Hstep.
    destruct (ServerJs.on_close _ ws) as [w1 out1]. injection Hstep as <- <-.
    cbn [fst snd] in Hshape.
    destruct Hshape as (_ & _ & _ & _ & [[_ ->]|(k & r & _ & _ & [[_ Hout]|(_ & _ & Hout)])]).
    + by apply elem_of_nil in Hin.
    + destruct (Hout _ Hin) as [_ Hm]. discriminate Hm.
    + destruct (Hout _ Hin) as [_ Hm]. discriminate Hm.
Qed.

(** The last vote of the scenario in server.js makes p3 the only top
    target: success. *)
Lemma serverjs_round_results_witness :
  ∃ r, room_of_socket serverjs_last_vote 5 = Some ("K7PQ", r) ∧ state r = Voting.
Proof.
  assert (server_step false 0 serverjs_last_vote (Receive 5 (vote_frame "p3"))
          = Returns
              (world_of (server_step false 0 serverjs_last_vote
                           (Receive 5 (vote_frame "p3"))) serverjs_last_vote)
              (sent_of (server_step false 0 serverjs_last_vote
                          (Receive 5 (vote_frame "p3"))))) as H1
    by (vm_compute; reflexivity).
  assert ((2, round_result
                (Result true None (Some (VStr "p3")) (VStr "p3") (VStr "Lemon") None))
          ∈ sent_of (server_step false 0 serverjs_last_vote
                       (Receive 5 (vote_frame "p3")))) as H2
    by (apply list_elem_of_In; vm_compute; left; reflexivity).
  assert (roomCode_of serverjs_last_vote 5 = Some "K7PQ") as H3
    by (vm_compute; reflexivity).
  destruct (serverjs_round_results 0 serverjs_last_vote _ _ _ 2 _
              reachable_serverjs_last_vote H1 H2)
    as (ws & f & k & r & cid & s & Hev & Hr & Hst & _).
  injection Hev as <- <-.
  apply room_of_socket_Some in Hr as Hk. destruct Hk as [Hk _].
  rewrite H3 in Hk. injection Hk as <-.
  exists r. split; [exact Hr|exact Hst].
Defined.

(** ** Small checks of the model *)

Example trim_ex : trim (toLowerCase "  LeMon 	") = "lemon".
Proof. reflexivity. Qed.

(** The trailing no-break space is stripped; the capital letters of
    Latin-1 are lowered. *)
Example trim_nbsp_ex :
  trim (toLowerCase ("Lemon" +:+ nbsp)) = "lemon"
  ∧ toLowerCase (String "201"%char "") = String "233"%char "".
Proof. split; reflexivity. Qed.

(** [String(['p3'])] is 'p3', [String([1, [null, 'a']])] is '1,,a', and the
    number 1e21 is the key '1e+21', not its decimal digits. *)
Example ToString_ex :
  ToString (VArr [VStr "p3"]) = "p3"
  ∧ ToString (VArr [VNum "1"; VArr [VNull; VStr "a"]]) = "1,,a"
  ∧ ToString (VNum "1e+21") ≠ "1000000000000000000000"
  ∧ renders (VArr [VStr "a"; unprintable]) = false.
Proof. repeat split; try reflexivity. discriminate. Qed.

(** Votes for [constructor] are never counted: [tally.constructor] starts
    out as the inherited function. *)
Example inherited_name_ex :
  tally_of [("p2", VStr "constructor"); ("p3", VStr "constructor"); ("p4", VStr "p2")]
  = [("constructor", Junk); ("p2", Count 1)]
  ∧ winners_of
      (tally_of [("p2", VStr "constructor"); ("p3", VStr "constructor");
                 ("p4", VStr "p2")])
    = ["p2"].
Proof. vm_compute. split; reflexivity. Qed.
